(** * ESCatastroLib: response normalisation and entity resolution

    A shallow embedding of [escatastrolib/models/InfoCatastral.py]
    ([ParcelaCatastral], [MetaParcela]) and of [utils.comprobar_errores],
    followed by the properties of the resolution layer.

    Python values are an inductive type, exceptions a sum type, and the
    network a function of the environment whose calls are recorded in a
    request log threaded by a small state-and-error monad. *)

From Stdlib Require Import PrimFloat ZArith.
From stdpp Require Import base option list gmap strings.

Set Warnings "-register-all,-clear-no-such-hyp".
Local Open Scope Z_scope.
Local Open Scope string_scope.

(** ** Decoded documents and Python values *)

(** What [json.loads] and [xmltodict.parse] return, and what the attributes
    of the objects hold.  A [VDict] keeps its items in insertion order, as a
    Python dict does: [list(d.values())[0]] and [''.join(d.values())] depend
    on it.  A decoded dict has no repeated key; lookups take the first. *)
Inductive value : Type :=
| VNone
| VBool (b : bool)
| VInt (z : Z)
| VFloat (f : float)
| VStr (s : string)
| VList (l : list value)
| VDict (d : list (string * value)).

(** The exceptions the resolution layer can raise or let through;
    [ErrorExterno] stands for what a collaborator raises of its own. *)
Inductive exn : Type :=
| ErrorServidorCatastro (mensaje : string)
| ValueError (mensaje : string)
| Exception_ (mensaje : string)
| NameError (name : string)
| AttributeError
| KeyError
| IndexError
| TypeError
| OverflowError
| JSONDecodeError
| UnicodeDecodeError
| ExpatError
| ErrorExterno (tag : string).

Inductive result (A : Type) : Type :=
| OK (a : A)
| Raise (e : exn).
Arguments OK {A} a.
Arguments Raise {A} e.

#[global] Instance result_ret : MRet result := fun A a => OK a.
#[global] Instance result_bind : MBind result := fun A B f m =>
  match m with
  | OK a => f a
  | Raise e => Raise e
  end.

Fixpoint mapR {A B : Type} (f : A -> result B) (l : list A) : result (list B) :=
  match l with
  | [] => OK []
  | x :: l' => y ← f x; ys ← mapR f l'; OK (y :: ys)
  end.

Fixpoint foldR {A B : Type} (f : A -> B -> result A) (a : A) (l : list B) : result A :=
  match l with
  | [] => OK a
  | x :: l' => a' ← f a x; foldR f a' l'
  end.

(** ** Python primitives on values *)

(** [bool(v)]. *)
Definition truthy (v : value) : bool :=
  match v with
  | VNone => false
  | VBool b => b
  | VInt z => negb (Z.eqb z 0)
  | VFloat f => negb (PrimFloat.eqb f 0%float)
  | VStr s => negb (String.eqb s "")
  | VList l => match l with [] => false | _ => true end
  | VDict d => match d with [] => false | _ => true end
  end.

Fixpoint assoc (k : string) (d : list (string * value)) : option value :=
  match d with
  | [] => None
  | (k', v) :: d' => if String.eqb k k' then Some v else assoc k d'
  end.

(** [v.get(k, dflt)]: only a dict has the method. *)
Definition py_get_default (k : string) (dflt : value) (v : value) : result value :=
  match v with
  | VDict d => OK (default dflt (assoc k d))
  | _ => Raise AttributeError
  end.

(** [v.get(k)]. *)
Definition py_get (k : string) (v : value) : result value :=
  py_get_default k VNone v.

(** [v.get(k1).get(k2)...]. *)
Fixpoint get_path (ks : list string) (v : value) : result value :=
  match ks with
  | [] => OK v
  | k :: ks' => v' ← py_get k v; get_path ks' v'
  end.

(** [v.values()] and [v.keys()], as lists. *)
Definition py_values (v : value) : result (list value) :=
  match v with
  | VDict d => OK (d.*2)
  | _ => Raise AttributeError
  end.

Definition py_keys (v : value) : result (list string) :=
  match v with
  | VDict d => OK (d.*1)
  | _ => Raise AttributeError
  end.

Definition is_str (s : string) (v : value) : bool :=
  match v with
  | VStr s' => String.eqb s s'
  | _ => false
  end.

Fixpoint prefix_of (p s : string) : bool :=
  match p, s with
  | EmptyString, _ => true
  | String a p', String b s' => Ascii.eqb a b && prefix_of p' s'
  | String _ _, EmptyString => false
  end.

Fixpoint is_substring (p s : string) : bool :=
  prefix_of p s ||
  match s with
  | EmptyString => false
  | String _ s' => is_substring p s'
  end.

(** [k in v] for a string [k]: key of a dict, element of a list, substring
    of a string; the other values are not containers. *)
Definition py_contains (k : string) (v : value) : result bool :=
  match v with
  | VDict d => OK (bool_decide (k ∈ d.*1))
  | VList l => OK (existsb (is_str k) l)
  | VStr s => OK (is_substring k s)
  | _ => Raise TypeError
  end.

(** [v[k]] for a string key. *)
Definition py_item (k : string) (v : value) : result value :=
  match v with
  | VDict d => match assoc k d with Some x => OK x | None => Raise KeyError end
  | _ => Raise TypeError
  end.

Fixpoint string_get (i : nat) (s : string) : option string :=
  match s, i with
  | EmptyString, _ => None
  | String a _, O => Some (String a EmptyString)
  | String _ s', S i' => string_get i' s'
  end.

(** [v[i]] for an index [i >= 0]; the keys of a decoded dict are strings. *)
Definition py_index (i : nat) (v : value) : result value :=
  match v with
  | VList l => match l !! i with Some x => OK x | None => Raise IndexError end
  | VStr s => match string_get i s with Some c => OK (VStr c) | None => Raise IndexError end
  | VDict _ => Raise KeyError
  | _ => Raise TypeError
  end.

(** [''.join(vs)]. *)
Fixpoint py_join (vs : list value) : result string :=
  match vs with
  | [] => OK ""
  | VStr s :: vs' => t ← py_join vs'; OK (s +:+ t)
  | _ :: _ => Raise TypeError
  end.

Fixpoint split_space (s : string) : list string :=
  match s with
  | EmptyString => [""]
  | String c s' =>
      if Ascii.eqb c Ascii.Space then "" :: split_space s'
      else match split_space s' with
           | w :: ws => String c w :: ws
           | [] => [String c ""]
           end
  end.

(** [v.split(' ')]. *)
Definition py_split (v : value) : result (list string) :=
  match v with
  | VStr s => OK (split_space s)
  | _ => Raise AttributeError
  end.

Fixpoint string_chars (s : string) : list value :=
  match s with
  | EmptyString => []
  | String c s' => VStr (String c "") :: string_chars s'
  end.

(** [for x in v]. *)
Definition py_iter (v : value) : result (list value) :=
  match v with
  | VList l => OK l
  | VDict d => OK (VStr <$> d.*1)
  | VStr s => OK (string_chars s)
  | _ => Raise TypeError
  end.

(** [len(v)]. *)
Definition py_len (v : value) : result nat :=
  match v with
  | VList l => OK (length l)
  | VDict d => OK (length d)
  | VStr s => OK (String.length s)
  | _ => Raise TypeError
  end.

(** [v > 1]. *)
Definition py_gt_one (v : value) : result bool :=
  match v with
  | VInt z => OK (Z.ltb 1 z)
  | VBool _ => OK false
  | VFloat f => OK (PrimFloat.ltb 1%float f)
  | _ => Raise TypeError
  end.

(** [range(v)]. *)
Definition py_range (v : value) : result (list nat) :=
  match v with
  | VInt z => OK (seq 0 (Z.to_nat z))
  | VBool b => OK (seq 0 (if b then 1 else 0)%nat)
  | _ => Raise TypeError
  end.

(** ** The environment *)

Inductive Request : Type :=
| Consulta_DNPRC (RefCat : value)
| Consulta_DNPPP (Provincia Municipio Poligono Parcela : value)
| Consulta_DNPLOC (Provincia Municipio Sigla Calle Numero : value)
| CroquisDatos (refcat : value)
| GetParcel (refcat srsname : value)
| ConsultaCalle (provincia municipio tipo_via nombre_calle : value).

Record Response : Type := mkResponse {
  status_code : Z;
  content : string;
  url : string
}.

(** The street collaborator [Calle] of [models/Calle.py], as its callers
    see it. *)
Record CalleInfo : Type := mkCalle {
  calle_bool : bool;
  calle_provincia : value;
  calle_municipio : value;
  calle_tipo_via : value;
  calle_calle : value
}.

(** What the code takes from outside: the services, the decoders, the
    helpers of [utils] that are imported but defined elsewhere, and the
    Python builtins on floats and strings.  [json_loads] is the document
    that a body decodes to, and [decodable] tells whether the bytes of a body
    are valid text in the encoding that [json] detects: they decide which
    error the decoder raises.  The two geographic helpers check their
    arguments and can raise. *)
Record Env : Type := mkEnv {
  http : Request -> Response;
  json_loads : string -> option value;
  decodable : string -> bool;
  xmltodict_parse : string -> option value;
  Calle : value -> value -> value -> value -> result CalleInfo;
  listar_sistemas_referencia : list string;
  lanzar_excepcion : value -> exn;
  lat_lon_from_coords_dict : value -> result value;
  distancia_entre_dos_puntos_geograficos : value -> value -> result float;
  py_repr : value -> string;
  float_of_str : string -> option float;
  float_of_int : Z -> option float;
  float_sum : list float -> float
}.

(** [float(v)]. *)
Definition py_float (E : Env) (v : value) : result float :=
  match v with
  | VFloat f => OK f
  | VInt z => match float_of_int E z with Some f => OK f | None => Raise OverflowError end
  | VBool b => OK (if b then 1%float else 0%float)
  | VStr s => match float_of_str E s with Some f => OK f | None => Raise (ValueError "could not convert string to float") end
  | _ => Raise TypeError
  end.

(** [str(v)], as an f-string formats a field; [py_repr] covers the values
    whose text is not needed here. *)
Definition py_str (E : Env) (v : value) : string :=
  match v with
  | VStr s => s
  | VNone => "None"
  | VBool true => "True"
  | VBool false => "False"
  | _ => py_repr E v
  end.

(** What [json.loads] raises on bytes that it does not decode: the bytes are
    decoded to text first, and the text is parsed after. *)
Definition decode_error (E : Env) (s : string) : exn :=
  if decodable E s then JSONDecodeError else UnicodeDecodeError.

(** [json.loads(s)], on the bytes of a body. *)
Definition loads (E : Env) (s : string) : result value :=
  match json_loads E s with
  | Some v => OK v
  | None => Raise (decode_error E s)
  end.

(** [response.json()]: [requests] raises its own [JSONDecodeError] for every
    body that it does not decode; a body that [json.loads] decodes gives the
    same document. *)
Definition response_json (E : Env) (response : Response) : result value :=
  match json_loads E (content response) with
  | Some v => OK v
  | None => Raise JSONDecodeError
  end.

(** [xmltodict.parse(s)]. *)
Definition xml_parse (E : Env) (s : string) : result value :=
  match xmltodict_parse E s with
  | Some v => OK v
  | None => Raise ExpatError
  end.

(** [try: body / except: handler], with a bare [except]. *)
Definition try_except {A : Type} (body handler : result A) : result A :=
  match body with
  | OK a => OK a
  | Raise _ => handler
  end.

(** A name that no assignment of the enclosing function binds. *)
Definition unbound {A : Type} (name : string) : result A := Raise (NameError name).

(** [repr(b)] of a bytes object, which is what an f-string shows of it: the
    bytes between quotes after a [b], the quote and the backslash escaped,
    tab, newline and carriage return by their letter, and every other byte
    outside the printable ASCII range as [\xhh].  The quote is the double
    one when the bytes hold a single quote and no double quote. *)
Definition comilla_simple : Ascii.ascii := Ascii.ascii_of_nat 39.
Definition comilla_doble : Ascii.ascii := Ascii.ascii_of_nat 34.
Definition barra_invertida : Ascii.ascii := Ascii.ascii_of_nat 92.

Fixpoint contains_byte (c : Ascii.ascii) (s : string) : bool :=
  match s with
  | EmptyString => false
  | String a s' => Ascii.eqb a c || contains_byte c s'
  end.

Definition hex_digit (n : nat) : string :=
  match n with
  | 0%nat => "0" | 1%nat => "1" | 2%nat => "2" | 3%nat => "3"
  | 4%nat => "4" | 5%nat => "5" | 6%nat => "6" | 7%nat => "7"
  | 8%nat => "8" | 9%nat => "9" | 10%nat => "a" | 11%nat => "b"
  | 12%nat => "c" | 13%nat => "d" | 14%nat => "e" | _ => "f"
  end.

Definition escape_byte (quote c : Ascii.ascii) : string :=
  let n := Ascii.nat_of_ascii c in
  if Ascii.eqb c quote || Ascii.eqb c barra_invertida then
    String barra_invertida (String c EmptyString)
  else if Nat.eqb n 9 then String barra_invertida "t"
  else if Nat.eqb n 10 then String barra_invertida "n"
  else if Nat.eqb n 13 then String barra_invertida "r"
  else if Nat.ltb n 32 || Nat.leb 127 n then
    String barra_invertida ("x" +:+ hex_digit (n / 16) +:+ hex_digit (n mod 16))
  else String c EmptyString.

Fixpoint escape_bytes (quote : Ascii.ascii) (s : string) : string :=
  match s with
  | EmptyString => EmptyString
  | String c s' => escape_byte quote c +:+ escape_bytes quote s'
  end.

Definition bytes_repr (s : string) : string :=
  let quote :=
    if contains_byte comilla_simple s && negb (contains_byte comilla_doble s)
    then comilla_doble else comilla_simple in
  "b" +:+ String quote (escape_bytes quote s) +:+ String quote EmptyString.

(** ** utils.comprobar_errores *)

(** [comprobar_errores(respuesta)].  The match on the values stands for the
    test [len(list(respuesta.values())) > 0] and for
    [list(respuesta.values())[0]]; the [return True] of the source is inside
    that test, so the function returns [True], raises, or falls off its end
    and returns [None]. *)
Definition comprobar_errores (E : Env) (respuesta : value) : result value :=
  vals ← py_values respuesta;
  match vals with
  | first :: _ =>
      has_lerr ← match first with
                 | VNone => OK false
                 | _ => ks ← py_keys first; OK (bool_decide ("lerr" ∈ ks))
                 end;
      if has_lerr : bool then
        lerr ← py_item "lerr" first;
        nested ← py_contains "err" lerr;
        if nested : bool then
          err ← py_item "err" lerr;
          e0 ← py_index 0 err;
          des ← py_item "des" e0;
          Raise (lanzar_excepcion E des)
        else
          e0 ← py_index 0 lerr;
          des ← py_item "des" e0;
          Raise (lanzar_excepcion E des)
      else OK (VBool true)
  | [] => OK VNone
  end.

(** ** The resolution monad: a request log and exceptions *)

Definition M (A : Type) : Type := list Request -> result A * list Request.

#[global] Instance M_ret : MRet M := fun A a log => (OK a, log).
#[global] Instance M_bind : MBind M := fun A B f m log =>
  match m log with
  | (OK a, log') => f a log'
  | (Raise e, log') => (Raise e, log')
  end.

Definition lift {A : Type} (r : result A) : M A := fun log => (r, log).
Definition raise {A : Type} (e : exn) : M A := fun log => (Raise e, log).

(** [requests.get(url, params)]: the call is logged and the service
    answers; a request that fails in the transport is not modelled. *)
Definition requests_get (E : Env) (r : Request) : M Response :=
  fun log => (OK (http E r), (log ++ [r])%list).

(** ** Objects and calls *)

(** An instance is its attribute dictionary: an attribute is set when its
    name is in the map. *)
Abbreviation obj := (gmap string value).

Definition getattr (self : obj) (a : string) : result value :=
  match self !! a with
  | Some v => OK v
  | None => Raise AttributeError
  end.

(** A call with keyword arguments: a keyword that is no parameter of the
    function is a [TypeError]; a parameter not passed takes its default. *)
Definition bind_kwargs (params kwargs : list (string * value)) : result (string -> value) :=
  if forallb (fun kv => bool_decide (kv.1 ∈ params.*1)) kwargs
  then OK (fun name => default (default VNone (assoc name params)) (assoc name kwargs))
  else Raise TypeError.

(** The messages of the exceptions.  The errors that the specification
    names are, in the code: the several references of one code,
    [ErrorServidorCatastro msg_varias]; the empty answer,
    [ErrorServidorCatastro msg_vacia]; the answer that does not decode,
    [ErrorServidorCatastro (msg_no_json raw)], the raw bytes shown as
    [repr] shows a bytes object; the error of the service, [lanzar_excepcion des]; the insufficient
    input, [ValueError msg_insuficiente]; the unsupported reference system,
    [ValueError (msg_sistema E projection)]; the street that is not found,
    [Exception_ msg_calle]; the house number that is not found,
    [Exception_ (msg_numero E nums)]. *)
Definition msg_varias : string :=
  "Esta parcela tiene varias referencias catastrales. Usa un objeto MetaParcela.".
Definition msg_vacia : string := "El servidor ha devuelto una respuesta vacia".
Definition msg_no_json (raw : string) : string :=
  "El servidor no devuelve un JSON. Mensaje en bruto: " +:+ bytes_repr raw.
Definition msg_insuficiente : string :=
  "No se ha proporcionado suficiente información para realizar la búsqueda".
Definition msg_calle : string := "La calle no existe.".
Definition msg_numero (E : Env) (nums : list value) : string :=
  "Ese número no existe. Prueba con alguno de estos: " +:+ py_str E (VList nums).
Definition msg_sistema (E : Env) (projection : value) : string :=
  "El sistema de referencia " +:+ py_str E projection +:+
  " no existe. Los sistemas de referencia disponibles son: " +:+
  py_str E (VList (VStr <$> listar_sistemas_referencia E)).

(** [info.get(res, {}).get("control", {}).get("cudnp", 1)]. *)
Definition control_cudnp (res : string) (info_cadastre : value) : result value :=
  r ← py_get_default res (VDict []) info_cadastre;
  c ← py_get_default "control" (VDict []) r;
  py_get_default "cudnp" (VInt 1) c.

(** [''.join(v.values())]. *)
Definition join_values (v : value) : result string :=
  vs ← py_values v; py_join vs.

(** ** class ParcelaCatastral *)

Module ParcelaCatastral.

Definition bi : list string := ["consulta_dnprcResult"; "bico"; "bi"].
Definition lourb : list string := (bi ++ ["dt"; "locs"; "lous"; "lourb"])%list.
Definition lorus : list string := (bi ++ ["dt"; "locs"; "lors"; "lorus"])%list.
Definition parcel_xml : list string := ["FeatureCollection"; "member"; "cp:CadastralParcel"].
Definition ring_xml : list string :=
  (parcel_xml ++ ["cp:geometry"; "gml:MultiSurface"; "gml:surfaceMember"; "gml:Surface";
                  "gml:patches"; "gml:PolygonPatch"; "gml:exterior"; "gml:LinearRing";
                  "gml:posList"; "#text"])%list.

(** One step of the loop of [__create_regions]. *)
Definition region_of (tipo : value) (region : value) : result (list value) :=
  if is_str "Rústico" tipo then
    dspr ← py_get "dspr" region;
    dcc ← py_get "dcc" dspr;
    dspr' ← py_get "dspr" region;
    ssp ← py_get "ssp" dspr';
    OK [VDict [("descripcion", dcc); ("superficie", ssp)]]
  else if is_str "Urbano" tipo then
    lcd ← py_get "lcd" region;
    dfcons ← py_get "dfcons" region;
    stl ← py_get "stl" dfcons;
    OK [VDict [("descripcion", lcd); ("superficie", stl)]]
  else OK [].

(** [__create_regions]: [self.regiones] starts empty and each region of
    the iterator is appended to it. *)
Definition create_regions (info_cadastre : value) (self : obj) : result obj :=
  let self := <["regiones" := VList []]> self in
  tipo ← getattr self "tipo";
  iterator ←
    (if is_str "Urbano" tipo then
       vals ← py_values info_cadastre;
       first ← py_index 0 (VList vals);
       bico ← py_get "bico" first;
       py_get "lcons" bico
     else if is_str "Rústico" tipo then
       vals ← py_values info_cadastre;
       first ← py_index 0 (VList vals);
       bico ← py_get "bico" first;
       py_get "lspr" bico
     else unbound "iterator");
  regions ← py_iter iterator;
  regiones ← foldR (fun acc region => r ← region_of tipo region; OK (acc ++ r)%list) [] regions;
  OK (<["regiones" := VList regiones]> self).

(** The point at index [idx] of the ring: [{'x': g[2*idx+1], 'y': g[2*idx]}]. *)
Definition ring_point (parcel_geometry : list string) (idx : nat) : result value :=
  x ← py_index (2 * idx + 1) (VList (VStr <$> parcel_geometry));
  y ← py_index (2 * idx) (VList (VStr <$> parcel_geometry));
  OK (VDict [("x", x); ("y", y)]).

(** [__create_geometry]. *)
Definition create_geometry (E : Env) (projection : value) (self : obj) : M obj :=
  rc ← lift (getattr self "rc");
  geometry_request ← requests_get E (GetParcel rc projection);
  geometry ← lift (xml_parse E (content geometry_request));
  pos ← lift (get_path (parcel_xml ++ ["cp:referencePoint"; "gml:Point"; "gml:pos"]) geometry);
  geoposition ← lift (py_split pos);
  x ← lift (py_index 1 (VList (VStr <$> geoposition)));
  y ← lift (py_index 0 (VList (VStr <$> geoposition)));
  let self := <["centroide" := VDict [("x", x); ("y", y)]]> self in
  text ← lift (get_path ring_xml geometry);
  parcel_geometry ← lift (py_split text);
  geometria ← lift (mapR (ring_point parcel_geometry) (seq 0 (length parcel_geometry / 2)));
  let self := <["geometria" := VList geometria]> self in
  area ← lift (get_path (parcel_xml ++ ["cp:areaValue"; "#text"]) geometry);
  superficie_total ← lift (py_float E area);
  mret (<["superficie_total" := VFloat superficie_total]> self).

(** [sum(xs)]: the sum of no number is the integer 0. *)
Definition py_sum (E : Env) (xs : list float) : value :=
  match xs with
  | [] => VInt 0
  | _ => VFloat (float_sum E xs)
  end.

(** [sum(float(region.get('superficie')) for region in self.regiones)]. *)
Definition suma_superficies (E : Env) (self : obj) : result value :=
  regiones ← getattr self "regiones";
  rs ← py_iter regiones;
  xs ← mapR (fun region => s ← py_get "superficie" region; py_float E s) rs;
  OK (py_sum E xs).

(** The [else] branch of [__create_from_rc]: one match, the parcel is
    filled in from the record. *)
Definition fill_from_record (E : Env) (info_cadastre : value) (projection : value)
    (self : obj) : M obj :=
  rcd ← lift (get_path (bi ++ ["idbi"; "rc"]) info_cadastre);
  rc ← lift (join_values rcd);
  let self := <["rc" := VStr rc]> self in
  croquis ← requests_get E (CroquisDatos (VStr rc));
  let self := <["url_croquis" := VStr (url croquis)]> self in
  nm ← lift (get_path (bi ++ ["dt"; "nm"]) info_cadastre);
  let self := <["municipio" := nm]> self in
  np ← lift (get_path (bi ++ ["dt"; "np"]) info_cadastre);
  let self := <["provincia" := np]> self in
  cn ← lift (get_path (bi ++ ["idbi"; "cn"]) info_cadastre);
  let self := <["tipo" := VStr (if is_str "RU" cn then "Rústico" else "Urbano")]> self in
  tipo ← lift (getattr self "tipo");
  self ←
    (if is_str "Urbano" tipo then
       tv ← lift (get_path (lourb ++ ["dir"; "tv"]) info_cadastre);
       nv ← lift (get_path (lourb ++ ["dir"; "nv"]) info_cadastre);
       let self := <["calle" := VStr (py_str E tv +:+ " " +:+ py_str E nv)]> self in
       pnp ← lift (get_path (lourb ++ ["dir"; "pnp"]) info_cadastre);
       let self := <["numero" := pnp]> self in
       ant ← lift (get_path (bi ++ ["debi"; "ant"]) info_cadastre);
       let self := <["antiguedad" := ant]> self in
       luso ← lift (get_path (bi ++ ["debi"; "luso"]) info_cadastre);
       mret (<["uso" := luso]> self)
     else if is_str "Rústico" tipo then
       cpa ← lift (get_path (lorus ++ ["cpp"; "cpa"]) info_cadastre);
       let self := <["parcela" := cpa]> self in
       cpo ← lift (get_path (lorus ++ ["cpp"; "cpo"]) info_cadastre);
       let self := <["poligono" := cpo]> self in
       npa ← lift (get_path (lorus ++ ["npa"]) info_cadastre);
       mret (<["nombre_paraje" := npa]> self)
     else mret self);
  self ← lift (create_regions info_cadastre self);
  self ← create_geometry E projection self;
  sc ← lift (suma_superficies E self);
  let self := <["superficie_construida" := sc]> self in
  s ← lift (suma_superficies E self);
  mret (<["superficie" := s]> self).

(** [__create_from_rc]. *)
Definition create_from_rc (E : Env) (rc : value) (projection : value) (self : obj) : M obj :=
  req1 ← requests_get E (Consulta_DNPRC rc);
  if negb (String.eqb (content req1) "") then
    info_cadastre ← lift (try_except (loads E (content req1))
                            (Raise (ErrorServidorCatastro (msg_no_json (content req1)))));
    ok ← lift (comprobar_errores E info_cadastre);
    if truthy ok then
      cudnp ← lift (control_cudnp "consulta_dnprcResult" info_cadastre);
      varias ← lift (py_gt_one cudnp);
      if varias : bool then raise (ErrorServidorCatastro msg_varias)
      else fill_from_record E info_cadastre projection self
    else mret self
  else raise (ErrorServidorCatastro msg_vacia).

(** [__create_from_parcel].  The handler of its [try] formats
    [req1.content], and the method binds [req], not [req1]. *)
Definition create_from_parcel (E : Env) (provincia municipio poligono parcela : value)
    (projection : value) (self : obj) : M obj :=
  req ← requests_get E (Consulta_DNPPP provincia municipio poligono parcela);
  if negb (String.eqb (content req) "") then
    info_cadastre ← lift (try_except (loads E (content req))
                            (req1 ← unbound "req1";
                             Raise (ErrorServidorCatastro (msg_no_json (content req1)))));
    ok ← lift (comprobar_errores E info_cadastre);
    if truthy ok then
      cudnp ← lift (control_cudnp "consulta_dnpppResult" info_cadastre);
      varias ← lift (py_gt_one cudnp);
      if varias : bool then raise (ErrorServidorCatastro msg_varias)
      else
        rcd ← lift (get_path ["consulta_dnpppResult"; "bico"; "bi"; "idbi"; "rc"] info_cadastre);
        rc ← lift (join_values rcd);
        let self := <["rc" := VStr rc]> self in
        create_from_rc E (VStr rc) projection self
    else mret self
  else raise (ErrorServidorCatastro msg_vacia).

(** [Calle(municipio=Municipio(provincia=..., municipio=...), tipo_via=...,
    nombre_calle=...)]. *)
Definition calle_new (E : Env) (provincia municipio tipo_via calle : value) : M CalleInfo :=
  fun log => (Calle E provincia municipio tipo_via calle,
              (log ++ [ConsultaCalle provincia municipio tipo_via calle])%list).

(** [__create_from_address].  Its [try] and the handler of the [try] read
    [req1], and the method binds [req], not [req1]. *)
Definition create_from_address (E : Env) (provincia municipio tipo_via calle numero : value)
    (projection : value) (self : obj) : M obj :=
  info_calle ← calle_new E provincia municipio tipo_via calle;
  if calle_bool info_calle then
    req ← requests_get E (Consulta_DNPLOC (calle_provincia info_calle)
                            (calle_municipio info_calle) (calle_tipo_via info_calle)
                            (calle_calle info_calle) numero);
    sin_errores ← lift
      (if Z.eqb (status_code req) 200 && negb (String.eqb (content req) "") then
         j ← response_json E req; ok ← comprobar_errores E j; OK (truthy ok)
       else OK false);
    if sin_errores : bool then
      info_cadastre ← lift (try_except
                              (req1 ← unbound "req1"; loads E (content req1))
                              (req1 ← unbound "req1";
                               Raise (ErrorServidorCatastro (msg_no_json (content req1)))));
      cudnp ← lift (control_cudnp "consulta_dnplocResult" info_cadastre);
      varias ← lift (py_gt_one cudnp);
      if varias : bool then raise (ErrorServidorCatastro msg_varias)
      else
        res ← lift (py_get "consulta_dnplocResult" info_cadastre);
        lista ← lift (py_contains "lrcdnp" res);
        self ←
          (if lista : bool then
             rcdnp ← lift (get_path ["consulta_dnplocResult"; "lrcdnp"; "rcdnp"] info_cadastre);
             r0 ← lift (py_index 0 rcdnp);
             rcd ← lift (py_get "rc" r0);
             rc ← lift (join_values rcd);
             mret (<["rc" := VStr rc]> self)
           else
             res' ← lift (py_get "consulta_dnplocResult" info_cadastre);
             directo ← lift (py_contains "bico" res');
             if directo : bool then
               rcd ← lift (get_path ["consulta_dnplocResult"; "bico"; "bi"; "idbi"; "rc"]
                             info_cadastre);
               rc ← lift (join_values rcd);
               mret (<["rc" := VStr rc]> self)
             else mret self);
        rc ← lift (getattr self "rc");
        create_from_rc E rc projection self
    else
      j ← lift (loads E (content req));
      res ← lift (py_get "consulta_dnplocResult" j);
      con_lerr ← lift (py_contains "lerr" res);
      no_existe ← lift
        (if con_lerr : bool then
           j' ← loads E (content req);
           res' ← py_item "consulta_dnplocResult" j';
           lerr ← py_item "lerr" res';
           e0 ← py_index 0 lerr;
           cod ← py_item "cod" e0;
           OK (is_str "43" cod)
         else OK false);
      if no_existe : bool then
        info_cadastre ← lift (loads E (content req));
        nump ← lift (get_path ["consulta_dnplocResult"; "numerero"; "nump"] info_cadastre);
        nums ← lift (py_iter nump);
        pnps ← lift (mapR (fun num => n ← py_get "num" num; py_get "pnp" n) nums);
        raise (Exception_ (msg_numero E pnps))
      else raise (ErrorServidorCatastro msg_vacia)
  else raise (Exception_ msg_calle).

Definition params : list (string * value) :=
  [("rc", VNone); ("provincia", VNone); ("municipio", VNone); ("poligono", VNone);
   ("parcela", VNone); ("tipo_via", VNone); ("calle", VNone); ("numero", VNone);
   ("projection", VStr "EPSG:4326")].

(** [projection not in listar_sistemas_referencia()]. *)
Definition sistema_soportado (E : Env) (projection : value) : bool :=
  existsb (fun s => is_str s projection) (listar_sistemas_referencia E).

(** [ParcelaCatastral(k1=v1, ...)]: [__init__] on a new instance. *)
Definition init (E : Env) (kwargs : list (string * value)) : M obj :=
  a ← lift (bind_kwargs params kwargs);
  if negb (sistema_soportado E (a "projection")) then
    raise (ValueError (msg_sistema E (a "projection")))
  else
    let self : obj := ∅ in
    if truthy (a "rc") then
      let self := <["rc" := a "rc"]> self in
      create_from_rc E (a "rc") (a "projection") self
    else if truthy (a "provincia") && truthy (a "municipio")
            && truthy (a "poligono") && truthy (a "parcela") then
      let self := <["provincia" := a "provincia"]> self in
      let self := <["municipio" := a "municipio"]> self in
      let self := <["poligono" := a "poligono"]> self in
      let self := <["parcela" := a "parcela"]> self in
      create_from_parcel E (a "provincia") (a "municipio") (a "poligono") (a "parcela")
        (a "projection") self
    else if truthy (a "provincia") && truthy (a "municipio") && truthy (a "tipo_via")
            && truthy (a "calle") && truthy (a "numero") then
      let self := <["provincia" := a "provincia"]> self in
      let self := <["municipio" := a "municipio"]> self in
      let self := <["calle" := a "calle"]> self in
      let self := <["numero" := a "numero"]> self in
      create_from_address E (a "provincia") (a "municipio") (a "tipo_via") (a "calle")
        (a "numero") (a "projection") self
    else raise (ValueError msg_insuficiente).

(** The property [distancias_aristas]: the edge that ends at [idx] starts
    at [idx - 1], and at the last point for [idx = 0]. *)
Definition arista (E : Env) (geometria : value) (n idx : nat) : result float :=
  let idx_0 := if Nat.eqb idx 0 then (n - 1)%nat else (idx - 1)%nat in
  let idx_f := idx in
  p0 ← py_index idx_0 geometria;
  c0 ← lat_lon_from_coords_dict E p0;
  pf ← py_index idx_f geometria;
  cf ← lat_lon_from_coords_dict E pf;
  distancia_entre_dos_puntos_geograficos E c0 cf.

Definition distancias_aristas (E : Env) (self : obj) : result (option (list float)) :=
  geometria ← getattr self "geometria";
  if truthy geometria then
    n ← py_len geometria;
    distancias ← mapR (arista E geometria n) (seq 0 n);
    OK (Some distancias)
  else OK None.

(** The property [perimetro]; [None] is Python's [None]. *)
Definition perimetro (E : Env) (self : obj) : result (option value) :=
  distancias ← distancias_aristas E self;
  match distancias with
  | Some (d :: ds) => OK (Some (py_sum E (d :: ds)))
  | _ => OK None
  end.

End ParcelaCatastral.

(** ** class MetaParcela *)

Fixpoint foldM {A B : Type} (f : A -> B -> M A) (a : A) (l : list B) : M A :=
  match l with
  | [] => mret a
  | x :: l' => a' ← f a x; foldM f a' l'
  end.

(** A [MetaParcela] instance: its plain attributes and [self.parcelas], the
    list of [ParcelaCatastral] instances ([None] while it is not set). *)
Record meta : Type := mkMeta {
  attrs : gmap string value;
  parcelas : option (list obj)
}.

Module MetaParcela.

(** [''.join(info.get(res).get('lrcdnp').get('rcdnp')[idx].get('rc').values())]. *)
Definition rc_at (res : string) (info_cadastre : value) (idx : nat) : result string :=
  rcdnp ← get_path [res; "lrcdnp"; "rcdnp"] info_cadastre;
  r ← py_index idx rcdnp;
  rcd ← py_get "rc" r;
  join_values rcd.

Definition set_attr (a : string) (v : value) (self : meta) : meta :=
  mkMeta (<[a := v]> (attrs self)) (parcelas self).

(** [self.parcelas.append(p)]. *)
Definition append (p : obj) (self : meta) : result meta :=
  match parcelas self with
  | Some ps => OK (mkMeta (attrs self) (Some (ps ++ [p])%list))
  | None => Raise AttributeError
  end.

(** One turn of the loop of [__create_from_parcel] and of
    [__create_from_address]. *)
Definition resolve_at (E : Env) (res : string) (info_cadastre : value)
    (self : meta) (idx : nat) : M meta :=
  rc ← lift (rc_at res info_cadastre idx);
  p ← ParcelaCatastral.init E [("rc", VStr rc)];
  lift (append p self).

(** [__create_from_rc]: the loop rebinds [rc] at each turn, and the
    [append] that follows the loop is not part of its body. *)
Definition create_from_rc (E : Env) (rc : value) (self : meta) : M meta :=
  req1 ← requests_get E (Consulta_DNPRC rc);
  if negb (String.eqb (content req1) "") then
    info_cadastre ← lift (loads E (content req1));
    ok ← lift (comprobar_errores E info_cadastre);
    if truthy ok then
      let self := mkMeta (attrs self) (Some []) in
      num_parcelas ← lift (control_cudnp "consulta_dnprcResult" info_cadastre);
      idxs ← lift (py_range num_parcelas);
      rc ← lift (foldR (fun _ idx => r ← rc_at "consulta_dnprcResult" info_cadastre idx;
                                     OK (VStr r)) rc idxs);
      p ← ParcelaCatastral.init E [("rc", rc)];
      lift (append p self)
    else mret self
  else raise (ErrorServidorCatastro msg_vacia).

(** [__create_from_parcel]. *)
Definition create_from_parcel (E : Env) (provincia municipio poligono parcela : value)
    (self : meta) : M meta :=
  req ← requests_get E (Consulta_DNPPP provincia municipio poligono parcela);
  if negb (String.eqb (content req) "") then
    info_cadastre ← lift (loads E (content req));
    ok ← lift (comprobar_errores E info_cadastre);
    if truthy ok then
      let self := mkMeta (attrs self) (Some []) in
      num_parcelas ← lift (control_cudnp "consulta_dnpppResult" info_cadastre);
      idxs ← lift (py_range num_parcelas);
      foldM (resolve_at E "consulta_dnpppResult" info_cadastre) self idxs
    else mret self
  else raise (ErrorServidorCatastro msg_vacia).

(** [__create_from_address]. *)
Definition create_from_address (E : Env) (provincia municipio tipo_via calle numero : value)
    (self : meta) : M meta :=
  info_calle ← ParcelaCatastral.calle_new E provincia municipio tipo_via calle;
  if calle_bool info_calle then
    req ← requests_get E (Consulta_DNPLOC (calle_provincia info_calle)
                            (calle_municipio info_calle) (calle_tipo_via info_calle)
                            (calle_calle info_calle) numero);
    sin_errores ← lift
      (if Z.eqb (status_code req) 200 && negb (String.eqb (content req) "") then
         j ← response_json E req; ok ← comprobar_errores E j; OK (truthy ok)
       else OK false);
    if sin_errores : bool then
      info_cadastre ← lift (loads E (content req));
      let self := mkMeta (attrs self) (Some []) in
      num_parcelas ← lift (control_cudnp "consulta_dnplocResult" info_cadastre);
      idxs ← lift (py_range num_parcelas);
      foldM (resolve_at E "consulta_dnplocResult" info_cadastre) self idxs
    else raise (ErrorServidorCatastro msg_vacia)
  else raise (Exception_ msg_calle).

Definition params : list (string * value) :=
  [("rc", VNone); ("provincia", VNone); ("municipio", VNone); ("poligono", VNone);
   ("parcela", VNone); ("tipo_via", VNone); ("calle", VNone); ("numero", VNone)].

(** [MetaParcela(k1=v1, ...)]: [__init__] on a new instance. *)
Definition init (E : Env) (kwargs : list (string * value)) : M meta :=
  a ← lift (bind_kwargs params kwargs);
  let self := mkMeta ∅ None in
  if truthy (a "rc") then
    let self := set_attr "rc" (a "rc") self in
    create_from_rc E (a "rc") self
  else if truthy (a "provincia") && truthy (a "municipio")
          && truthy (a "poligono") && truthy (a "parcela") then
    let self := set_attr "provincia" (a "provincia") self in
    let self := set_attr "municipio" (a "municipio") self in
    let self := set_attr "poligono" (a "poligono") self in
    let self := set_attr "parcela" (a "parcela") self in
    create_from_parcel E (a "provincia") (a "municipio") (a "poligono") (a "parcela") self
  else if truthy (a "provincia") && truthy (a "municipio") && truthy (a "tipo_via")
          && truthy (a "calle") && truthy (a "numero") then
    let self := set_attr "provincia" (a "provincia") self in
    let self := set_attr "municipio" (a "municipio") self in
    let self := set_attr "calle" (a "calle") self in
    let self := set_attr "numero" (a "numero") self in
    create_from_address E (a "provincia") (a "municipio") (a "tipo_via") (a "calle")
      (a "numero") self
  else raise (ValueError msg_insuficiente).

End MetaParcela.

(** ** Concrete services for the examples *)

Module Ejemplos.

Definition S (s : string) : value := VStr s.

(** The [rc] field of a record: the two halves of the parcel code. *)
Definition rc_dict (pc1 pc2 : string) : value := VDict [("pc1", S pc1); ("pc2", S pc2)].

Definition control (cudnp : Z) : string * value :=
  ("control", VDict [("cudnp", VInt cudnp)]).

(** A [Consulta_DNPRC] answer for an urban parcel with one construction. *)
Definition urbana (pc1 pc2 : string) : value :=
  VDict [("consulta_dnprcResult", VDict [
    control 1;
    ("bico", VDict [
      ("bi", VDict [
        ("idbi", VDict [("cn", S "UR"); ("rc", rc_dict pc1 pc2)]);
        ("dt", VDict [("np", S "MADRID"); ("nm", S "MADRID");
          ("locs", VDict [("lous", VDict [("lourb", VDict [
            ("dir", VDict [("tv", S "CL"); ("nv", S "MAYOR"); ("pnp", S "1")])])])])]);
        ("debi", VDict [("luso", S "Residencial"); ("ant", S "1950")])]);
      ("lcons", VList [
        VDict [("lcd", S "VIVIENDA"); ("dfcons", VDict [("stl", S "39")])]])])])].

(** A [Consulta_DNPRC] answer for a rustic parcel with two crop regions. *)
Definition rustica (pc1 pc2 : string) : value :=
  VDict [("consulta_dnprcResult", VDict [
    control 1;
    ("bico", VDict [
      ("bi", VDict [
        ("idbi", VDict [("cn", S "RU"); ("rc", rc_dict pc1 pc2)]);
        ("dt", VDict [("np", S "MADRID"); ("nm", S "GALAPAGAR");
          ("locs", VDict [("lors", VDict [("lorus", VDict [
            ("cpp", VDict [("cpo", S "23"); ("cpa", S "149")]);
            ("npa", S "DEHESA")])])])])]);
      ("lspr", VList [
        VDict [("dspr", VDict [("dcc", S "Pastos"); ("ssp", S "39")])];
        VDict [("dspr", VDict [("dcc", S "Encinar"); ("ssp", S "61")])]])])])].

(** An answer that lists [n] parcels under one umbrella code. *)
Definition varias (res : string) (rcs : list (string * string)) : value :=
  VDict [(res, VDict [
    control (Z.of_nat (length rcs));
    ("lrcdnp", VDict [
      ("rcdnp", VList ((fun r => VDict [("rc", rc_dict r.1 r.2)]) <$> rcs))])])].

(** An answer of the polygon lookup with a single match. *)
Definition unica_dnppp (pc1 pc2 : string) : value :=
  VDict [("consulta_dnpppResult", VDict [
    control 1;
    ("bico", VDict [("bi", VDict [("idbi", VDict [("rc", rc_dict pc1 pc2)])])])])].

(** An answer of the address lookup with a single match, in both shapes. *)
Definition unica_dnploc (pc1 pc2 : string) : value :=
  VDict [("consulta_dnplocResult", VDict [
    control 1;
    ("lrcdnp", VDict [("rcdnp", VList [VDict [("rc", rc_dict pc1 pc2)]])]);
    ("bico", VDict [("bi", VDict [("idbi", VDict [("rc", rc_dict pc1 pc2)])])])])].

(** An answer that carries both an error list and a counter above one. *)
Definition error_y_varias : value :=
  VDict [("consulta_dnprcResult", VDict [
    control 2;
    ("lerr", VList [VDict [("cod", S "5"); ("des", S "NO EXISTE")]])])].

(** The parsed answer of the geography service: a ring of four points. *)
Definition gml : value :=
  VDict [("FeatureCollection", VDict [("member", VDict [("cp:CadastralParcel", VDict [
    ("cp:areaValue", VDict [("#text", S "100")]);
    ("cp:geometry", VDict [("gml:MultiSurface", VDict [("gml:surfaceMember", VDict [
      ("gml:Surface", VDict [("gml:patches", VDict [("gml:PolygonPatch", VDict [
        ("gml:exterior", VDict [("gml:LinearRing", VDict [("gml:posList", VDict [
          ("#text", S "40 -3 40 -4 41 -4 41 -3")])])])])])])])])]);
    ("cp:referencePoint", VDict [("gml:Point", VDict [("gml:pos", S "40.5 -3.5")])])])])])].

Definition respuesta (r : Request) : Response :=
  match r with
  | Consulta_DNPRC (VStr rc) => mkResponse 200 ("DNPRC " +:+ rc) ""
  | Consulta_DNPPP _ _ _ _ => mkResponse 200 "DNPPP" ""
  | Consulta_DNPLOC _ _ _ _ _ => mkResponse 200 "DNPLOC" ""
  | CroquisDatos (VStr rc) => mkResponse 200 "" ("croquis/" +:+ rc)
  | GetParcel _ _ => mkResponse 200 "GML" ""
  | _ => mkResponse 404 "" ""
  end.

Definition tabla_float (s : string) : option float :=
  if String.eqb s "39" then Some 39%float
  else if String.eqb s "61" then Some 61%float
  else if String.eqb s "100" then Some 100%float
  else None.

(** Services that answer from a table of decoded documents. *)
Definition servicios (docs : list (string * value)) : Env := {|
  http := respuesta;
  json_loads := fun s => assoc s docs;
  decodable := fun _ => true;
  xmltodict_parse := fun s => if String.eqb s "GML" then Some gml else None;
  Calle := fun p m t c => OK (mkCalle true p m t c);
  listar_sistemas_referencia := ["EPSG:4326"; "EPSG:25830"];
  lanzar_excepcion := fun des => ErrorServidorCatastro (match des with VStr s => s | _ => "" end);
  lat_lon_from_coords_dict := fun p => OK p;
  distancia_entre_dos_puntos_geograficos := fun _ _ => OK 1%float;
  py_repr := fun _ => "";
  float_of_str := tabla_float;
  float_of_int := fun _ => None;
  float_sum := fun xs => fold_left PrimFloat.add xs 0%float
|}.

(** The instance that a construction returned ([∅] when it raised). *)
Definition parcela_de (r : result obj * list Request) : obj :=
  match r.1 with
  | OK p => p
  | Raise _ => ∅
  end.

(** One urban parcel, looked up by its code. *)
Definition E_urbana : Env := servicios [("DNPRC A", urbana "A" "")].
Definition p_urbana : obj := parcela_de (ParcelaCatastral.init E_urbana [("rc", S "A")] []).

(** One rustic parcel, looked up by its code. *)
Definition E_rustica : Env := servicios [("DNPRC B", rustica "B" "")].
Definition p_rustica : obj := parcela_de (ParcelaCatastral.init E_rustica [("rc", S "B")] []).

(** The ring of [gml], as [__create_geometry] stores it. *)
Definition anillo : list value :=
  [VDict [("x", S "-3"); ("y", S "40")]; VDict [("x", S "-4"); ("y", S "40")];
   VDict [("x", S "-4"); ("y", S "41")]; VDict [("x", S "-3"); ("y", S "41")]].

(** A polygon lookup that resolves to an urban parcel. *)
Definition E_diseminado : Env :=
  servicios [("DNPPP", unica_dnppp "A" ""); ("DNPRC A", urbana "A" "")].
Definition kw_poligono : list (string * value) :=
  [("provincia", S "MADRID"); ("municipio", S "MADRID"); ("poligono", S "1");
   ("parcela", S "2")].
Definition p_diseminado : obj :=
  parcela_de (ParcelaCatastral.init E_diseminado kw_poligono []).

(** A service that answers the code [A] with the record of the code [B],
    and the code [B] with another record. *)
Definition E_renombra : Env :=
  servicios [("DNPRC A", urbana "B" ""); ("DNPRC B", rustica "B" "")].
Definition p_renombrada : obj :=
  parcela_de (ParcelaCatastral.init E_renombra [("rc", S "A")] []).
Definition p_renombrada' : obj :=
  parcela_de (ParcelaCatastral.init E_renombra [("rc", S "B")] []).

(** An answer with an error list and a counter above one; an answer with
    no top-level value; an umbrella code with two parcels; an address. *)
Definition E_error : Env := servicios [("DNPRC Z", error_y_varias)].
Definition E_sin_valores : Env := servicios [("DNPRC X", VDict [])].
Definition E_varias : Env :=
  servicios [("DNPRC U", varias "consulta_dnprcResult" [("A", ""); ("B", "")]);
             ("DNPPP", varias "consulta_dnpppResult" [("A", ""); ("B", "")]);
             ("DNPRC A", urbana "A" ""); ("DNPRC B", rustica "B" "")].
Definition E_direccion : Env :=
  servicios [("DNPLOC", unica_dnploc "A" ""); ("DNPRC A", urbana "A" "")].
Definition kw_direccion : list (string * value) :=
  [("provincia", S "MADRID"); ("municipio", S "MADRID"); ("tipo_via", S "CL");
   ("calle", S "MAYOR"); ("numero", S "1")].

(** The arguments of a call that passes [rc] only. *)
Definition a_rc (rc : value) : string -> value :=
  fun name => default (default VNone (assoc name ParcelaCatastral.params))
                (assoc name [("rc", rc)]).

(** The collection that a construction returned, and the one of the
    umbrella code [U]; the parcel of the code [B] under the same services. *)
Definition meta_de (r : result meta * list Request) : meta :=
  match r.1 with
  | OK m => m
  | Raise _ => mkMeta ∅ None
  end.
Definition m_varias : meta := meta_de (MetaParcela.init E_varias [("rc", S "U")] []).
Definition p_B : obj := parcela_de (ParcelaCatastral.init E_varias [("rc", S "B")] []).

End Ejemplos.

(** ** Vocabulary of the properties *)

(** The answer [resp] passes the checks that precede the ambiguity test:
    it has content, it decodes to [info], the error classifier returns
    [True] on it, and its counter reads [cudnp]. *)
Definition pasa (E : Env) (resp : Response) (res : string) (info cudnp : value) : Prop :=
  content resp <> "" /\
  json_loads E (content resp) = Some info /\
  comprobar_errores E info = OK (VBool true) /\
  control_cudnp res info = OK cudnp.

(** The variant tag of a record whose class code is [cn]. *)
Definition tipo_de (cn : value) : string :=
  if is_str "RU" cn then "Rústico" else "Urbano".

(** The attributes of the two variant groups. *)
Definition grupo_urbano : gset string :=
  {["calle"; "numero"; "antiguedad"; "uso"]}.
Definition grupo_rustico : gset string :=
  {["poligono"; "parcela"; "nombre_paraje"]}.

(** [G] sets the attributes of the group that the class code [cn] selects. *)
Definition grupo (cn : value) (G : obj -> obj) : Prop :=
  (is_str "RU" cn = false /\
   exists c n a u,
     G = fun s => <["uso" := u]> (<["antiguedad" := a]>
                    (<["numero" := n]> (<["calle" := VStr c]> s))))
  \/
  (is_str "RU" cn = true /\
   exists pa po npa,
     G = fun s => <["nombre_paraje" := npa]> (<["poligono" := po]>
                    (<["parcela" := pa]> s))).

(** The instance that the single-match branch leaves, from the instance
    [self] it started with. *)
Definition ensamblar (E : Env) (rc u : string) (nm np cn : value) (G : obj -> obj)
    (rs : list value) (c : value) (g : list value) (st : float) (xs : list float)
    (self : obj) : obj :=
  <["superficie" := ParcelaCatastral.py_sum E xs]>
    (<["superficie_construida" := ParcelaCatastral.py_sum E xs]>
       (<["superficie_total" := VFloat st]>
          (<["geometria" := VList g]>
             (<["centroide" := c]>
                (<["regiones" := VList rs]>
                   (G (<["tipo" := VStr (tipo_de cn)]>
                         (<["provincia" := np]>
                            (<["municipio" := nm]>
                               (<["url_croquis" := VStr u]>
                                  (<["rc" := VStr rc]> self))))))))))).

(** [float(region.get('superficie'))]. *)
Definition superficie_de (E : Env) (region : value) : result float :=
  s ← py_get "superficie" region; py_float E s.

(** A resolved parcel: an instance that the constructor returned with its
    variant tag set. *)
Definition resolved (E : Env) (p : obj) : Prop :=
  exists kwargs log log',
    ParcelaCatastral.init E kwargs log = (OK p, log') /\ is_Some (p !! "tipo").

(** The attributes that every resolved parcel carries. *)
Definition comunes : gset string :=
  {["rc"; "url_croquis"; "municipio"; "provincia"; "tipo"; "regiones"; "centroide";
    "geometria"; "superficie_total"; "superficie_construida"; "superficie"]}.



(** A computation only appends to the request log, and its result does not
    depend on the log it starts from. *)
Definition appends {A : Type} (m : M A) : Prop :=
  forall log, m log = ((m []).1, (log ++ (m []).2)%list).

(** The request [r] asks for no geometry, or asks for it in the reference
    system [srs]; a computation keeps a property of the requests when the
    requests it adds have it. *)
Definition en_sistema (srs : value) (r : Request) : Prop :=
  match r with
  | GetParcel _ s => s = srs
  | _ => True
  end.

Definition conserva {A : Type} (P : Request -> Prop) (m : M A) : Prop :=
  forall log, Forall P log -> Forall P (m log).2.

(** ** Vocabulary of the further properties *)

(** A computation makes at most [n] requests. *)
Definition at_most {A : Type} (n : nat) (m : M A) : Prop :=
  forall log, (length (m log).2 <= length log + n)%nat.

(** The input that no strategy accepts: no code, and neither the polygon group
    nor the address group complete. *)
Definition entrada_insuficiente (a : string -> value) : Prop :=
  truthy (a "rc") = false /\
  truthy (a "provincia") && truthy (a "municipio")
    && truthy (a "poligono") && truthy (a "parcela") = false /\
  truthy (a "provincia") && truthy (a "municipio") && truthy (a "tipo_via")
    && truthy (a "calle") && truthy (a "numero") = false.

(** What one region of the record gives to [regiones], by variant. *)
Definition region_urbana (region r : value) : Prop :=
  exists lcd dfcons stl,
    py_get "lcd" region = OK lcd /\ py_get "dfcons" region = OK dfcons /\
    py_get "stl" dfcons = OK stl /\
    r = VDict [("descripcion", lcd); ("superficie", stl)].

Definition region_rustica (region r : value) : Prop :=
  exists dspr dcc ssp,
    py_get "dspr" region = OK dspr /\ py_get "dcc" dspr = OK dcc /\
    py_get "ssp" dspr = OK ssp /\
    r = VDict [("descripcion", dcc); ("superficie", ssp)].

(** ** Further examples *)

Module Ejemplos2.
Import Ejemplos.

(** The arguments of a call that passes [rc] and [provincia]. *)
Definition kw_rc_provincia : list (string * value) := [("rc", S "A"); ("provincia", S "MADRID")].
Definition a_de (kwargs : list (string * value)) : string -> value :=
  fun name => default (default VNone (assoc name ParcelaCatastral.params)) (assoc name kwargs).

(** A polygon whose answer counts no parcel. *)
Definition E_cero : Env := servicios [("DNPPP", varias "consulta_dnpppResult" [])].

(** The collection of the polygon lookup under [E_varias]. *)
Definition m_poligono : meta :=
  meta_de (MetaParcela.create_from_parcel E_varias (S "MADRID") (S "MADRID") (S "1") (S "2")
             (mkMeta ∅ None) []).

(** An address lookup answered with status 404 and the error 43: the house
    number does not exist and the street has the numbers 2 and 4. *)
Definition numero_43 : list (string * value) :=
  [("consulta_dnplocResult", VDict [
     ("control", VDict [("cuerr", VInt 1)]);
     ("lerr", VList [VDict [("cod", S "43"); ("des", S "EL NUMERO NO EXISTE")]]);
     ("numerero", VDict [("nump", VList [
        VDict [("num", VDict [("pnp", S "2")])];
        VDict [("num", VDict [("pnp", S "4")])]])])])].

Definition E_numero : Env := {|
  http := fun r => match r with
                   | Consulta_DNPLOC _ _ _ _ _ => mkResponse 404 "DNPLOC" ""
                   | _ => respuesta r
                   end;
  json_loads := fun s => assoc s [("DNPLOC", VDict numero_43)];
  decodable := fun _ => true;
  xmltodict_parse := fun _ => None;
  Calle := fun p m t c => OK (mkCalle true p m t c);
  listar_sistemas_referencia := ["EPSG:4326"];
  lanzar_excepcion := fun des => ErrorServidorCatastro (match des with VStr s => s | _ => "" end);
  lat_lon_from_coords_dict := fun p => OK p;
  distancia_entre_dos_puntos_geograficos := fun _ _ => OK 1%float;
  py_repr := fun _ => "['2', '4']";
  float_of_str := tabla_float;
  float_of_int := fun _ => None;
  float_sum := fun xs => fold_left PrimFloat.add xs 0%float
|}.



(** An address whose answer lists two parcels. *)
Definition E_direccion_varias : Env :=
  servicios [("DNPLOC", varias "consulta_dnplocResult" [("A", ""); ("B", "")])].


End Ejemplos2.

(** ** The earlier revision of the models *)

(** The package [ESCatastroLib] holds an earlier revision of
    [models/InfoCatastral.py].  It has no reference-system parameter, does not
    test for an empty body, keeps the identifier it was given, and stores the
    reference point as [geocentro].  What has the same text in both revisions
    ([__create_regions], the sum of the surfaces, the call of [Calle]) is
    taken from the later one, named here by its package. *)
Module escatastrolib.
Module ParcelaCatastral := ParcelaCatastral.
Module MetaParcela := MetaParcela.
End escatastrolib.

Module ESCatastroLib.

Module ParcelaCatastral.

(** The point at index [idx] of the ring: [{'x': g[2*idx], 'y': g[2*idx+1]}]. *)
Definition ring_point (parcel_geometry : list string) (idx : nat) : result value :=
  x ← py_index (2 * idx) (VList (VStr <$> parcel_geometry));
  y ← py_index (2 * idx + 1) (VList (VStr <$> parcel_geometry));
  OK (VDict [("x", x); ("y", y)]).

(** [__create_geometry]: the request is always for EPSG:4326. *)
Definition create_geometry (E : Env) (self : obj) : M obj :=
  rc ← lift (getattr self "rc");
  geometry_request ← requests_get E (GetParcel rc (VStr "EPSG:4326"));
  geometry ← lift (xml_parse E (content geometry_request));
  pos ← lift (get_path (escatastrolib.ParcelaCatastral.parcel_xml
                          ++ ["cp:referencePoint"; "gml:Point"; "gml:pos"]) geometry);
  geoposition ← lift (py_split pos);
  x ← lift (py_index 0 (VList (VStr <$> geoposition)));
  y ← lift (py_index 1 (VList (VStr <$> geoposition)));
  let self := <["geocentro" := VDict [("x", x); ("y", y)]]> self in
  text ← lift (get_path escatastrolib.ParcelaCatastral.ring_xml geometry);
  parcel_geometry ← lift (py_split text);
  geometria ← lift (mapR (ring_point parcel_geometry) (seq 0 (length parcel_geometry / 2)));
  mret (<["geometria" := VList geometria]> self).

(** The [else] branch of [__create_from_rc]: one match, the parcel is
    filled in from the record; the sketch is asked for [self.rc]. *)
Definition fill_from_record (E : Env) (info_cadastre : value) (self : obj) : M obj :=
  let bi := escatastrolib.ParcelaCatastral.bi in
  let lourb := escatastrolib.ParcelaCatastral.lourb in
  let lorus := escatastrolib.ParcelaCatastral.lorus in
  rc ← lift (getattr self "rc");
  croquis ← requests_get E (CroquisDatos rc);
  let self := <["url_croquis" := VStr (url croquis)]> self in
  nm ← lift (get_path (bi ++ ["dt"; "nm"]) info_cadastre);
  let self := <["municipio" := nm]> self in
  np ← lift (get_path (bi ++ ["dt"; "np"]) info_cadastre);
  let self := <["provincia" := np]> self in
  cn ← lift (get_path (bi ++ ["idbi"; "cn"]) info_cadastre);
  let self := <["tipo" := VStr (if is_str "RU" cn then "Rústico" else "Urbano")]> self in
  tipo ← lift (getattr self "tipo");
  self ←
    (if is_str "Urbano" tipo then
       tv ← lift (get_path (lourb ++ ["dir"; "tv"]) info_cadastre);
       nv ← lift (get_path (lourb ++ ["dir"; "nv"]) info_cadastre);
       let self := <["calle" := VStr (py_str E tv +:+ " " +:+ py_str E nv)]> self in
       pnp ← lift (get_path (lourb ++ ["dir"; "pnp"]) info_cadastre);
       let self := <["numero" := pnp]> self in
       ant ← lift (get_path (bi ++ ["debi"; "ant"]) info_cadastre);
       let self := <["antiguedad" := ant]> self in
       luso ← lift (get_path (bi ++ ["debi"; "luso"]) info_cadastre);
       mret (<["uso" := luso]> self)
     else if is_str "Rústico" tipo then
       cpa ← lift (get_path (lorus ++ ["cpp"; "cpa"]) info_cadastre);
       let self := <["parcela" := cpa]> self in
       cpo ← lift (get_path (lorus ++ ["cpp"; "cpo"]) info_cadastre);
       let self := <["poligono" := cpo]> self in
       npa ← lift (get_path (lorus ++ ["npa"]) info_cadastre);
       mret (<["nombre_paraje" := npa]> self)
     else mret self);
  self ← lift (escatastrolib.ParcelaCatastral.create_regions info_cadastre self);
  self ← create_geometry E self;
  s ← lift (escatastrolib.ParcelaCatastral.suma_superficies E self);
  mret (<["superficie" := s]> self).

(** [__create_from_rc]: the body is decoded as it comes. *)
Definition create_from_rc (E : Env) (rc : value) (self : obj) : M obj :=
  req1 ← requests_get E (Consulta_DNPRC rc);
  info_cadastre ← lift (loads E (content req1));
  ok ← lift (comprobar_errores E info_cadastre);
  if truthy ok then
    cudnp ← lift (control_cudnp "consulta_dnprcResult" info_cadastre);
    varias ← lift (py_gt_one cudnp);
    if varias : bool then raise (ErrorServidorCatastro msg_varias)
    else fill_from_record E info_cadastre self
  else mret self.

(** [__create_from_parcel]. *)
Definition create_from_parcel (E : Env) (provincia municipio poligono parcela : value)
    (self : obj) : M obj :=
  req ← requests_get E (Consulta_DNPPP provincia municipio poligono parcela);
  info_cadastre ← lift (loads E (content req));
  ok ← lift (comprobar_errores E info_cadastre);
  if truthy ok then
    cudnp ← lift (control_cudnp "consulta_dnpppResult" info_cadastre);
    varias ← lift (py_gt_one cudnp);
    if varias : bool then raise (ErrorServidorCatastro msg_varias)
    else
      rcd ← lift (get_path ["consulta_dnpppResult"; "bico"; "bi"; "idbi"; "rc"] info_cadastre);
      rc ← lift (join_values rcd);
      let self := <["rc" := VStr rc]> self in
      rc' ← lift (getattr self "rc");
      create_from_rc E rc' self
  else mret self.

(** [__create_from_address]: the decoded body is that of [req]; a status
    other than 200 without the error 43 ends the method without a word. *)
Definition create_from_address (E : Env) (provincia municipio tipo_via calle numero : value)
    (self : obj) : M obj :=
  info_calle ← escatastrolib.ParcelaCatastral.calle_new E provincia municipio tipo_via calle;
  if calle_bool info_calle then
    req ← requests_get E (Consulta_DNPLOC (calle_provincia info_calle)
                            (calle_municipio info_calle) (calle_tipo_via info_calle)
                            (calle_calle info_calle) numero);
    sin_errores ← lift
      (if Z.eqb (status_code req) 200 then
         j ← response_json E req; ok ← comprobar_errores E j; OK (truthy ok)
       else OK false);
    if sin_errores : bool then
      info_cadastre ← lift (loads E (content req));
      cudnp ← lift (control_cudnp "consulta_dnplocResult" info_cadastre);
      varias ← lift (py_gt_one cudnp);
      if varias : bool then raise (ErrorServidorCatastro msg_varias)
      else
        res ← lift (py_get "consulta_dnplocResult" info_cadastre);
        lista ← lift (py_contains "lrcdnp" res);
        self ←
          (if lista : bool then
             rcdnp ← lift (get_path ["consulta_dnplocResult"; "lrcdnp"; "rcdnp"] info_cadastre);
             r0 ← lift (py_index 0 rcdnp);
             rcd ← lift (py_get "rc" r0);
             rc ← lift (join_values rcd);
             mret (<["rc" := VStr rc]> self)
           else
             res' ← lift (py_get "consulta_dnplocResult" info_cadastre);
             directo ← lift (py_contains "bico" res');
             if directo : bool then
               rcd ← lift (get_path ["consulta_dnplocResult"; "bico"; "bi"; "idbi"; "rc"]
                             info_cadastre);
               rc ← lift (join_values rcd);
               mret (<["rc" := VStr rc]> self)
             else mret self);
        rc ← lift (getattr self "rc");
        create_from_rc E rc self
    else
      j ← lift (loads E (content req));
      res ← lift (py_get "consulta_dnplocResult" j);
      con_lerr ← lift (py_contains "lerr" res);
      no_existe ← lift
        (if con_lerr : bool then
           j' ← loads E (content req);
           res' ← py_item "consulta_dnplocResult" j';
           lerr ← py_item "lerr" res';
           e0 ← py_index 0 lerr;
           cod ← py_item "cod" e0;
           OK (is_str "43" cod)
         else OK false);
      if no_existe : bool then
        info_cadastre ← lift (loads E (content req));
        nump ← lift (get_path ["consulta_dnplocResult"; "numerero"; "nump"] info_cadastre);
        nums ← lift (py_iter nump);
        pnps ← lift (mapR (fun num => n ← py_get "num" num; py_get "pnp" n) nums);
        raise (Exception_ (msg_numero E pnps))
      else mret self
  else raise (Exception_ msg_calle).

Definition params : list (string * value) :=
  [("rc", VNone); ("provincia", VNone); ("municipio", VNone); ("poligono", VNone);
   ("parcela", VNone); ("tipo_via", VNone); ("calle", VNone); ("numero", VNone)].

(** [ParcelaCatastral(k1=v1, ...)]: [__init__] on a new instance. *)
Definition init (E : Env) (kwargs : list (string * value)) : M obj :=
  a ← lift (bind_kwargs params kwargs);
  let self : obj := ∅ in
  if truthy (a "rc") then
    let self := <["rc" := a "rc"]> self in
    create_from_rc E (a "rc") self
  else if truthy (a "provincia") && truthy (a "municipio")
          && truthy (a "poligono") && truthy (a "parcela") then
    let self := <["provincia" := a "provincia"]> self in
    let self := <["municipio" := a "municipio"]> self in
    let self := <["poligono" := a "poligono"]> self in
    let self := <["parcela" := a "parcela"]> self in
    create_from_parcel E (a "provincia") (a "municipio") (a "poligono") (a "parcela") self
  else if truthy (a "provincia") && truthy (a "municipio") && truthy (a "tipo_via")
          && truthy (a "calle") && truthy (a "numero") then
    let self := <["provincia" := a "provincia"]> self in
    let self := <["municipio" := a "municipio"]> self in
    let self := <["calle" := a "calle"]> self in
    let self := <["numero" := a "numero"]> self in
    create_from_address E (a "provincia") (a "municipio") (a "tipo_via") (a "calle")
      (a "numero") self
  else raise (ValueError msg_insuficiente).

End ParcelaCatastral.

Module MetaParcela.

(** One turn of the loops: the identifier at [idx] is read, the parcel is
    resolved by code, by the class [ParcelaCatastral] of this revision, and
    appended. *)
Definition resolve_at (E : Env) (res : string) (info_cadastre : value)
    (self : meta) (idx : nat) : M meta :=
  rc ← lift (escatastrolib.MetaParcela.rc_at res info_cadastre idx);
  p ← ParcelaCatastral.init E [("rc", VStr rc)];
  lift (escatastrolib.MetaParcela.append p self).

(** [__create_from_rc]: the [append] is inside the loop. *)
Definition create_from_rc (E : Env) (rc : value) (self : meta) : M meta :=
  req1 ← requests_get E (Consulta_DNPRC rc);
  info_cadastre ← lift (loads E (content req1));
  ok ← lift (comprobar_errores E info_cadastre);
  if truthy ok then
    let self := mkMeta (attrs self) (Some []) in
    num_parcelas ← lift (control_cudnp "consulta_dnprcResult" info_cadastre);
    idxs ← lift (py_range num_parcelas);
    foldM (resolve_at E "consulta_dnprcResult" info_cadastre) self idxs
  else mret self.

(** [__create_from_parcel]. *)
Definition create_from_parcel (E : Env) (provincia municipio poligono parcela : value)
    (self : meta) : M meta :=
  req ← requests_get E (Consulta_DNPPP provincia municipio poligono parcela);
  info_cadastre ← lift (loads E (content req));
  ok ← lift (comprobar_errores E info_cadastre);
  if truthy ok then
    let self := mkMeta (attrs self) (Some []) in
    num_parcelas ← lift (control_cudnp "consulta_dnpppResult" info_cadastre);
    idxs ← lift (py_range num_parcelas);
    foldM (resolve_at E "consulta_dnpppResult" info_cadastre) self idxs
  else mret self.

(** [__create_from_address]: a status other than 200, or an answer that the
    error check does not confirm, ends the method without a word. *)
Definition create_from_address (E : Env) (provincia municipio tipo_via calle numero : value)
    (self : meta) : M meta :=
  info_calle ← escatastrolib.ParcelaCatastral.calle_new E provincia municipio tipo_via calle;
  if calle_bool info_calle then
    req ← requests_get E (Consulta_DNPLOC (calle_provincia info_calle)
                            (calle_municipio info_calle) (calle_tipo_via info_calle)
                            (calle_calle info_calle) numero);
    sin_errores ← lift
      (if Z.eqb (status_code req) 200 then
         j ← response_json E req; ok ← comprobar_errores E j; OK (truthy ok)
       else OK false);
    if sin_errores : bool then
      info_cadastre ← lift (loads E (content req));
      let self := mkMeta (attrs self) (Some []) in
      num_parcelas ← lift (control_cudnp "consulta_dnplocResult" info_cadastre);
      idxs ← lift (py_range num_parcelas);
      foldM (resolve_at E "consulta_dnplocResult" info_cadastre) self idxs
    else mret self
  else raise (Exception_ msg_calle).

Definition params : list (string * value) :=
  [("rc", VNone); ("provincia", VNone); ("municipio", VNone); ("poligono", VNone);
   ("parcela", VNone); ("tipo_via", VNone); ("calle", VNone); ("numero", VNone)].

(** [MetaParcela(k1=v1, ...)]: [__init__] on a new instance. *)
Definition init (E : Env) (kwargs : list (string * value)) : M meta :=
  a ← lift (bind_kwargs params kwargs);
  let self := mkMeta ∅ None in
  if truthy (a "rc") then
    let self := escatastrolib.MetaParcela.set_attr "rc" (a "rc") self in
    create_from_rc E (a "rc") self
  else if truthy (a "provincia") && truthy (a "municipio")
          && truthy (a "poligono") && truthy (a "parcela") then
    let self := escatastrolib.MetaParcela.set_attr "provincia" (a "provincia") self in
    let self := escatastrolib.MetaParcela.set_attr "municipio" (a "municipio") self in
    let self := escatastrolib.MetaParcela.set_attr "poligono" (a "poligono") self in
    let self := escatastrolib.MetaParcela.set_attr "parcela" (a "parcela") self in
    create_from_parcel E (a "provincia") (a "municipio") (a "poligono") (a "parcela") self
  else if truthy (a "provincia") && truthy (a "municipio") && truthy (a "tipo_via")
          && truthy (a "calle") && truthy (a "numero") then
    let self := escatastrolib.MetaParcela.set_attr "provincia" (a "provincia") self in
    let self := escatastrolib.MetaParcela.set_attr "municipio" (a "municipio") self in
    let self := escatastrolib.MetaParcela.set_attr "calle" (a "calle") self in
    let self := escatastrolib.MetaParcela.set_attr "numero" (a "numero") self in
    create_from_address E (a "provincia") (a "municipio") (a "tipo_via") (a "calle")
      (a "numero") self
  else raise (ValueError msg_insuficiente).

End MetaParcela.

End ESCatastroLib.

(** ** Examples for the earlier revision *)

Module EjemplosAnterior.
Import Ejemplos.

(** The arguments that a call of the earlier constructors binds. *)
Definition a_de (kwargs : list (string * value)) : string -> value :=
  fun name => default (default VNone (assoc name ESCatastroLib.ParcelaCatastral.params))
                (assoc name kwargs).

(** The urban parcel [A], as the earlier revision builds it. *)
Definition p_urbana : obj :=
  parcela_de (ESCatastroLib.ParcelaCatastral.init E_urbana [("rc", S "A")] []).

(** The geometry step of the later revision on an instance that has its
    code. *)
Definition con_geometria : obj :=
  parcela_de (ParcelaCatastral.create_geometry E_urbana (S "EPSG:4326") {["rc" := S "A"]} []).

(** An address lookup answered with status 404 and a body without errors. *)
Definition sin_lerr : value :=
  VDict [("consulta_dnplocResult", VDict [control 1])].

Definition E_404 : Env := {|
  http := fun r => match r with
                   | Consulta_DNPLOC _ _ _ _ _ => mkResponse 404 "DNPLOC" ""
                   | _ => respuesta r
                   end;
  json_loads := fun s => assoc s [("DNPLOC", sin_lerr)];
  decodable := fun _ => true;
  xmltodict_parse := fun _ => None;
  Calle := fun p m t c => OK (mkCalle true p m t c);
  listar_sistemas_referencia := ["EPSG:4326"];
  lanzar_excepcion := fun des => ErrorServidorCatastro (match des with VStr s => s | _ => "" end);
  lat_lon_from_coords_dict := fun p => OK p;
  distancia_entre_dos_puntos_geograficos := fun _ _ => OK 1%float;
  py_repr := fun _ => "";
  float_of_str := tabla_float;
  float_of_int := fun _ => None;
  float_sum := fun xs => fold_left PrimFloat.add xs 0%float
|}.

(** The collection of the umbrella code [U], as the earlier revision
    builds it. *)
Definition m_varias : meta :=
  meta_de (ESCatastroLib.MetaParcela.create_from_rc E_varias (S "U") (mkMeta ∅ None) []).

End EjemplosAnterior.

(** ** utils: the listings of the street directory *)

(** The requests of [utils.py], which go to the street directory. *)
Inductive Consulta : Type :=
| ObtenerProvincias
| ObtenerMunicipios (provincia municipio : value)
| ObtenerCallejero (Provincia Municipio : value).

(** What the listings take from outside, besides the decoder and
    [lanzar_excepcion] of [Env]: the directory service, the constants
    [MAPEOS_PROVINCIAS] and [TIPOS_VIA] of [statics.py], and the string
    methods [capitalize] and [upper]. *)
Record EnvUtils : Type := mkEnvUtils {
  callejero : Consulta -> Response;
  MAPEOS_PROVINCIAS : list (string * value);
  TIPOS_VIA : value;
  str_capitalize : string -> string;
  str_upper : string -> string
}.

(** The listings log their requests as the lookups do. *)
Definition MU (A : Type) : Type := list Consulta -> result A * list Consulta.

#[global] Instance MU_ret : MRet MU := fun A a log => (OK a, log).
#[global] Instance MU_bind : MBind MU := fun A B f m log =>
  match m log with
  | (OK a, log') => f a log'
  | (Raise e, log') => (Raise e, log')
  end.

(** [v != None] and [v is not None]. *)
Definition not_None (v : value) : bool :=
  match v with
  | VNone => false
  | _ => true
  end.

Module utils.

Definition lift {A : Type} (r : result A) : MU A := fun log => (r, log).
Definition raise {A : Type} (e : exn) : MU A := fun log => (Raise e, log).

(** [requests.get(url, params)]. *)
Definition requests_get (U : EnvUtils) (c : Consulta) : MU Response :=
  fun log => (OK (callejero U c), (log ++ [c])%list).

(** [v.capitalize()] and [v.upper()]: only a string has the methods. *)
Definition py_capitalize (U : EnvUtils) (v : value) : result string :=
  match v with
  | VStr s => OK (str_capitalize U s)
  | _ => Raise AttributeError
  end.

Definition py_upper (U : EnvUtils) (v : value) : result string :=
  match v with
  | VStr s => OK (str_upper U s)
  | _ => Raise AttributeError
  end.

(** [MAPEOS_PROVINCIAS.get(k)]. *)
Definition mapeo (U : EnvUtils) (k : string) : value :=
  default VNone (assoc k (MAPEOS_PROVINCIAS U)).

Definition msg_provincia (E : Env) (provincia : value) (provincias : list value) : string :=
  "La provincia " +:+ py_str E provincia +:+
  " no existe. Las provincias de España son: " +:+ py_str E (VList provincias).

(** [response.status_code == 200 and comprobar_errores(response.json())]. *)
Definition sin_errores (E : Env) (response : Response) : result bool :=
  if Z.eqb (status_code response) 200 then
    j ← response_json E response; ok ← comprobar_errores E j; OK (truthy ok)
  else OK false.

(** [listar_provincias()]. *)
Definition listar_provincias (E : Env) (U : EnvUtils) : MU (list value) :=
  response ← requests_get U ObtenerProvincias;
  j ← lift (response_json E response);
  ok ← lift (comprobar_errores E j);
  if truthy ok then
    j' ← lift (response_json E response);
    prov ← lift (get_path ["consulta_provincieroResult"; "provinciero"; "prov"] j');
    provincias ← lift (py_iter prov);
    lift (mapR (py_get "np") provincias)
  else mret [].

(** [listar_municipios(provincia, municipio)]. *)
Definition listar_municipios (E : Env) (U : EnvUtils) (provincia municipio : value)
  : MU (list value) :=
  desconocida ←
    (if truthy provincia then
       cap ← lift (py_capitalize U provincia);
       if negb (bool_decide (cap ∈ (MAPEOS_PROVINCIAS U).*1)) then
         up ← lift (py_upper U provincia);
         provincias ← listar_provincias E U;
         mret (negb (existsb (is_str up) provincias))
       else mret false
     else mret false);
  if desconocida : bool then
    provincias ← listar_provincias E U;
    raise (Exception_ (msg_provincia E provincia provincias))
  else
    cap ← lift (py_capitalize U provincia);
    p ← lift (if not_None (mapeo U cap) then
                cap' ← py_capitalize U provincia; OK (mapeo U cap')
              else OK provincia);
    response ← requests_get U (ObtenerMunicipios p municipio);
    ok ← lift (sin_errores E response);
    if ok : bool then
      mun_dict_raw ← lift (loads E (content response));
      muni ← lift (get_path ["consulta_municipieroResult"; "municipiero"; "muni"] mun_dict_raw);
      municipios ← lift (py_iter muni);
      lift (mapR (py_get "nm") municipios)
    else mret [].

(** [listar_tipos_via()]. *)
Definition listar_tipos_via (U : EnvUtils) : value := TIPOS_VIA U.

(** One street of the listing: [f"{calle.get('dir').get('tv')} {calle.get('dir').get('nv')}"]. *)
Definition nombre_via (E : Env) (calle : value) : result value :=
  dir ← py_get "dir" calle;
  tv ← py_get "tv" dir;
  dir' ← py_get "dir" calle;
  nv ← py_get "nv" dir';
  OK (VStr (py_str E tv +:+ " " +:+ py_str E nv)).

(** [listar_calles(provincia, municipio)]. *)
Definition listar_calles (E : Env) (U : EnvUtils) (provincia municipio : value)
  : MU (list value) :=
  cap ← lift (py_capitalize U provincia);
  provincia_final ← lift (if bool_decide (cap ∈ (MAPEOS_PROVINCIAS U).*1) then
                            cap' ← py_capitalize U provincia; OK (mapeo U cap')
                          else OK provincia);
  up ← lift (py_upper U provincia_final);
  provincias ← listar_provincias E U;
  existe ←
    (if existsb (is_str up) provincias then
       mup ← lift (py_upper U municipio);
       municipios ← listar_municipios E U provincia_final VNone;
       mret (existsb (is_str mup) municipios)
     else mret false);
  if existe : bool then
    response ← requests_get U (ObtenerCallejero provincia_final municipio);
    ok ← lift (sin_errores E response);
    if ok : bool then
      calles_dict_raw ← lift (loads E (content response));
      calle ← lift (get_path ["consulta_callejeroResult"; "callejero"; "calle"] calles_dict_raw);
      calles ← lift (py_iter calle);
      lift (mapR (nombre_via E) calles)
    else mret []
  else mret [].

End utils.

(** ** ParcelaCatastral.numero_plantas *)

(** The request of [numero_plantas], to the buildings service. *)
Inductive ConsultaEdificios : Type :=
| GetBuildingPartByParcel (REFCAT : value).

(** The buildings service and the builtin [int] on strings and floats. *)
Record EnvEdificios : Type := mkEnvEdificios {
  edificios : ConsultaEdificios -> Response;
  int_of_str : string -> option Z;
  int_of_float : float -> option Z
}.

Module Plantas.

Definition msg_max : string := "max() arg is an empty sequence".

(** [int(v)]. *)
Definition py_int (W : EnvEdificios) (v : value) : result Z :=
  match v with
  | VInt z => OK z
  | VBool b => OK (if b then 1 else 0)
  | VStr s => match int_of_str W s with
              | Some z => OK z
              | None => Raise (ValueError "invalid literal for int() with base 10")
              end
  | VFloat f => match int_of_float W f with
                | Some z => OK z
                | None => if PrimFloat.eqb f f then Raise OverflowError
                          else Raise (ValueError "cannot convert float NaN to integer")
                end
  | _ => Raise TypeError
  end.

(** [max(l)] on a list of integers. *)
Definition py_max (l : list Z) : result Z :=
  match l with
  | [] => Raise (ValueError msg_max)
  | x :: l' => OK (fold_left Z.max l' x)
  end.

(** [response.raise_for_status()]. *)
Definition raise_for_status (response : Response) : result unit :=
  if Z.leb 400 (status_code response) && Z.ltb (status_code response) 600
  then Raise (ErrorExterno "HTTPError")
  else OK tt.

(** The lists that the loop fills: [above_floors], [below_floors] and
    [parts_detail]. *)
Record partes : Type := mkPartes {
  above_floors : list Z;
  below_floors : list Z;
  parts_detail : list value
}.

(** One turn of the loop over the members. *)
Definition parte (W : EnvEdificios) (st : partes) (member : value) : result partes :=
  bp ← py_get "bu-ext2d:BuildingPart" member;
  if negb (truthy bp) then OK st
  else
    part_id ← py_get "@gml:id" bp;
    above ← py_get "bu-ext2d:numberOfFloorsAboveGround" bp;
    below ← py_get "bu-ext2d:numberOfFloorsBelowGround" bp;
    above_i ← (if not_None above then z ← py_int W above; OK (Some z) else OK None);
    below_i ← (if not_None below then py_int W below else OK 0);
    let above_floors' :=
      match above_i with
      | Some z => (above_floors st ++ [z])%list
      | None => above_floors st
      end in
    let below_floors' := (below_floors st ++ [below_i])%list in
    OK (mkPartes above_floors' below_floors'
          (parts_detail st ++ [VDict [
             ("id", part_id);
             ("floors_above_ground", match above_i with Some z => VInt z | None => VNone end);
             ("floors_below_ground", VInt below_i)]])%list).

(** The dict that [numero_plantas] returns. *)
Definition resumen (st : partes) : result value :=
  plantas ← (match above_floors st with
             | [] => OK VNone
             | _ => z ← py_max (above_floors st); OK (VInt z)
             end);
  sotanos ← (match below_floors st with
             | [] => OK (VInt 0)
             | _ => z ← py_max (below_floors st); OK (VInt z)
             end);
  total ← (match above_floors st with
           | [] => OK VNone
           | _ => a ← py_max (above_floors st); b ← py_max (below_floors st); OK (VInt (a + b))
           end);
  OK (VDict [("plantas", plantas); ("sotanos", sotanos); ("total", total)]).

(** What [numero_plantas] does with the answer of the service. *)
Definition plantas_de (E : Env) (W : EnvEdificios) (response : Response) : result value :=
  _ ← raise_for_status response;
  data ← xml_parse E (content response);
  feature_collection ← py_get_default "gml:FeatureCollection" (VDict []) data;
  members ← py_get_default "gml:featureMember" (VList []) feature_collection;
  let members := match members with VDict _ => VList [members] | _ => members end in
  ms ← py_iter members;
  st ← foldR (parte W) (mkPartes [] [] []) ms;
  resumen st.

(** The property [numero_plantas], with the requests it makes. *)
Definition numero_plantas (E : Env) (W : EnvEdificios) (self : obj)
  : result value * list ConsultaEdificios :=
  match getattr self "tipo" with
  | Raise e => (Raise e, [])
  | OK tipo =>
      if is_str "Rústico" tipo then (OK (VInt 0), [])
      else
        match getattr self "rc" with
        | Raise e => (Raise e, [])
        | OK rc =>
            let response := edificios W (GetBuildingPartByParcel rc) in
            (plantas_de E W response, [GetBuildingPartByParcel rc])
        end
  end.

End Plantas.

(** ** Examples for the listings and for the floors *)

Module EjemplosUtils.
Import Ejemplos.

(** The directory lists two provinces; it answers 404 for the
    municipalities; [Alicante] is mapped to the name the directory uses. *)
Definition provinciero : value :=
  VDict [("consulta_provincieroResult", VDict [
    ("provinciero", VDict [
      ("prov", VList [VDict [("np", S "MADRID")]; VDict [("np", S "ALACANT")]])])])].

Definition E_utils : Env := servicios [("PROV", provinciero)].

Definition U_utils : EnvUtils := {|
  callejero := fun c => match c with
                        | ObtenerProvincias => mkResponse 200 "PROV" ""
                        | ObtenerMunicipios _ _ => mkResponse 404 "MUNI" ""
                        | ObtenerCallejero _ _ => mkResponse 200 "CALLES" ""
                        end;
  MAPEOS_PROVINCIAS := [("Alicante", S "ALACANT")];
  TIPOS_VIA := VDict [("CL", S "CALLE")];
  str_capitalize := fun s => if String.eqb s "alicante" then "Alicante" else s;
  str_upper := fun s => s
|}.

(** A building of two parts: three floors and a basement, and one floor. *)
Definition edificio : value :=
  VDict [("gml:FeatureCollection", VDict [
    ("gml:featureMember", VList [
      VDict [("bu-ext2d:BuildingPart", VDict [
        ("@gml:id", S "A_part1");
        ("bu-ext2d:numberOfFloorsAboveGround", S "3");
        ("bu-ext2d:numberOfFloorsBelowGround", S "1")])];
      VDict [("bu-ext2d:BuildingPart", VDict [
        ("@gml:id", S "A_part2");
        ("bu-ext2d:numberOfFloorsAboveGround", S "1")])]])])].

Definition E_edificio : Env := {|
  http := respuesta;
  json_loads := fun _ => None;
  decodable := fun _ => true;
  xmltodict_parse := fun s => if String.eqb s "BU" then Some edificio else None;
  Calle := fun p m t c => OK (mkCalle true p m t c);
  listar_sistemas_referencia := ["EPSG:4326"];
  lanzar_excepcion := fun des => ErrorServidorCatastro (match des with VStr s => s | _ => "" end);
  lat_lon_from_coords_dict := fun p => OK p;
  distancia_entre_dos_puntos_geograficos := fun _ _ => OK 1%float;
  py_repr := fun _ => "";
  float_of_str := tabla_float;
  float_of_int := fun _ => None;
  float_sum := fun xs => fold_left PrimFloat.add xs 0%float
|}.

Definition W_edificio : EnvEdificios := {|
  edificios := fun _ => mkResponse 200 "BU" "";
  int_of_str := fun s => if String.eqb s "3" then Some 3
                         else if String.eqb s "1" then Some 1 else None;
  int_of_float := fun _ => None
|}.

Definition p_edificio : obj := <["rc" := S "A"]> {["tipo" := S "Urbano"]}.

End EjemplosUtils.

(** ** ParcelaCatastral.valor_catastral_rustico_m2 *)

(** The request of [valor_catastral_rustico_m2], to the map of rustic
    values; the parameters that are constants are left out. *)
Inductive ConsultaValores : Type :=
| GetFeatureInfo (LAYERS QUERY_LAYERS BBOX : string).

(** The map service, the method [transform] of the [pyproj] transformer
    from EPSG:4381 to EPSG:3857 (building the transformer is taken not to
    fail), and the constant [CULTIVOS], from crop codes to their
    descriptions. *)
Record EnvValores : Type := mkEnvValores {
  valores_rusticos : ConsultaValores -> Response;
  transform : value -> value -> result (float * float);
  CULTIVOS : list (string * string)
}.

Module Valores.

Definition msg_min : string := "min() arg is an empty sequence".

(** [min(l)] and [max(l)] on floats: the first element stays unless a later
    one compares below it (above it). *)
Definition py_min (l : list float) : result float :=
  match l with
  | [] => Raise (ValueError msg_min)
  | x :: l' => OK (fold_left (fun cur y => if PrimFloat.ltb y cur then y else cur) l' x)
  end.

Definition py_max (l : list float) : result float :=
  match l with
  | [] => Raise (ValueError Plantas.msg_max)
  | x :: l' => OK (fold_left (fun cur y => if PrimFloat.ltb cur y then y else cur) l' x)
  end.

(** [s[-2:]]: the last two characters, or [s] when it is shorter.  A
    character of the model is a byte; the text of a year is ASCII. *)
Fixpoint last2 (s : string) : string :=
  match s with
  | String _ (String _ (String _ _) as s') => last2 s'
  | _ => s
  end.

(** [int(str(anio)[-2:]) - 1]. *)
Definition capa (E : Env) (W : EnvEdificios) (anio : value) : result Z :=
  n ← Plantas.py_int W (VStr (last2 (py_str E anio)));
  OK (n - 1).

(** One turn of the loop over the points of the ring. *)
Definition punto_3857 (V : EnvValores) (acc : list float * list float) (p : value)
  : result (list float * list float) :=
  px ← py_item "x" p;
  py ← py_item "y" p;
  xy ← transform V px py;
  OK ((acc.1 ++ [xy.1])%list, (acc.2 ++ [xy.2])%list).

(** [isinstance(val, (int, float)) and val > 0]; a [bool] is an [int]. *)
Definition positivo (val : value) : bool :=
  match val with
  | VInt z => Z.ltb 0 z
  | VBool b => b
  | VFloat f => PrimFloat.ltb 0%float f
  | _ => false
  end.

(** [d[k] = v] on a dict. *)
Fixpoint dict_set (k : string) (v : value) (d : list (string * value)) : list (string * value) :=
  match d with
  | [] => [(k, v)]
  | (k', v') :: d' => if String.eqb k k' then (k, v) :: d' else (k', v') :: dict_set k v d'
  end.

(** One turn of the loop over [CULTIVOS.items()]. *)
Definition modulo (props : value) (modulos : list (string * value)) (item : string * string)
  : result (list (string * value)) :=
  val ← py_get item.1 props;
  if positivo val then OK (dict_set item.2 val modulos) else OK modulos.

(** What [valor_catastral_rustico_m2] does with the decoded answer; [None]
    is Python's [None]. *)
Definition modulos_de (V : EnvValores) (data : value) : result value :=
  features ← py_get "features" data;
  if negb (truthy features) then OK VNone
  else
    features' ← py_item "features" data;
    f0 ← py_index 0 features';
    props ← py_item "properties" f0;
    region ← py_get "REGIONAL" props;
    nombre ← py_get "NOMBRE" props;
    modulos ← foldR (modulo props) [] (CULTIVOS V);
    OK (VDict [("region", region); ("nombre_region", nombre);
               ("modulos_€/ha", VDict modulos)]).

(** The method [valor_catastral_rustico_m2], with the requests it makes. *)
Definition valor_catastral_rustico_m2 (E : Env) (W : EnvEdificios) (V : EnvValores)
    (self : obj) (anio : value) : result value * list ConsultaValores :=
  match
    (tipo ← getattr self "tipo";
     if is_str "Urbano" tipo then OK None
     else
       geometria ← getattr self "geometria";
       ps ← py_iter geometria;
       xys ← foldR (punto_3857 V) ([], []) ps;
       x0 ← py_min xys.1;
       y0 ← py_min xys.2;
       x1 ← py_max xys.1;
       y1 ← py_max xys.2;
       let bbox := py_str E (VFloat x0) +:+ "," +:+ py_str E (VFloat y0) +:+ "," +:+
                   py_str E (VFloat x1) +:+ "," +:+ py_str E (VFloat y1) in
       n1 ← capa E W anio;
       n2 ← capa E W anio;
       n3 ← capa E W anio;
       n4 ← capa E W anio;
       OK (Some (GetFeatureInfo
                   ("IAMIR" +:+ py_str E (VInt n1) +:+ ":athiamir" +:+ py_str E (VInt n2))
                   ("IAMIR" +:+ py_str E (VInt n3) +:+ ":athiamir" +:+ py_str E (VInt n4))
                   bbox)))
  with
  | Raise e => (Raise e, [])
  | OK None => (OK (VDict []), [])
  | OK (Some req) =>
      let r := valores_rusticos V req in
      (_ ← Plantas.raise_for_status r;
       data ← response_json E r;
       modulos_de V data,
       [req])
  end.

End Valores.

(** Every entry of the dict of modules is a positive number under the
    description of a crop. *)
Definition modulos_validos (V : EnvValores) (modulos : list (string * value)) : Prop :=
  Forall (fun kv => Valores.positivo kv.2 = true /\ kv.1 ∈ (CULTIVOS V).*2) modulos.

(** ** Examples for the rustic values *)

Module EjemplosValores.
Import Ejemplos.

(** The answer of the map for a point in a region with two crops, one of
    them without value. *)
Definition valores : value :=
  VDict [("features", VList [VDict [("properties", VDict [
    ("REGIONAL", S "R1"); ("NOMBRE", S "CAMPIÑA");
    ("C01", VInt 1200); ("C02", VInt 0)])]])].

Definition E_valores : Env := servicios [("VALORES", valores)].

Definition W_valores : EnvEdificios := {|
  edificios := fun _ => mkResponse 404 "" "";
  int_of_str := fun s => if String.eqb s "24" then Some 24 else None;
  int_of_float := fun _ => None
|}.

Definition V_valores : EnvValores := {|
  valores_rusticos := fun _ => mkResponse 200 "VALORES" "";
  transform := fun _ _ => OK (0%float, 0%float);
  CULTIVOS := [("C01", "Labor secano"); ("C02", "Olivar")]
|}.

Definition p_valores : obj :=
  <["geometria" := VList anillo]> {["tipo" := S "Rústico"]}.

Definition modulos_campina : value :=
  VDict [("region", S "R1"); ("nombre_region", S "CAMPIÑA");
         ("modulos_€/ha", VDict [("Labor secano", VInt 1200)])].

End EjemplosValores.

(** * Properties *)

(** ** The monads *)

Section monads.
Context {A B : Type}.

Lemma bind_OK_inv (m : result A) (f : A -> result B) (b : B) :
  m ≫= f = OK b -> exists a, m = OK a /\ f a = OK b.
Proof. destruct m as [a|e]; [eauto | discriminate]. Qed.

Lemma run_bind (m : M A) (f : A -> M B) (log : list Request) :
  (m ≫= f) log =
  match m log with
  | (OK a, log') => f a log'
  | (Raise e, log') => (Raise e, log')
  end.
Proof. reflexivity. Qed.

Lemma run_lift (r : result A) (f : A -> M B) (log : list Request) :
  (lift r ≫= f) log =
  match r with
  | OK a => f a log
  | Raise e => (Raise e, log)
  end.
Proof. rewrite run_bind. unfold lift. destruct r; reflexivity. Qed.

Lemma run_raise (e : exn) (f : A -> M B) (log : list Request) :
  (raise e ≫= f) log = (Raise e, log).
Proof. reflexivity. Qed.

Lemma run_bind_inv (m : M A) (f : A -> M B) (log log' : list Request) (b : B) :
  (m ≫= f) log = (OK b, log') ->
  exists a l1, m log = (OK a, l1) /\ f a l1 = (OK b, log').
Proof.
  rewrite run_bind. destruct (m log) as [[a|e] l1]; [eauto | discriminate].
Qed.
End monads.

Lemma run_get {B : Type} (E : Env) (r : Request) (f : Response -> M B)
    (log : list Request) :
  (requests_get E r ≫= f) log = f (http E r) (log ++ [r])%list.
Proof. reflexivity. Qed.

(** One step of a run that is known to return: the first computation of a
    bind returned, and the run continues with its value. *)
Ltac step H :=
  first
    [ rewrite run_get in H
    | rewrite run_lift in H;
      let r := fresh "r" in
      match type of H with
      | match ?x with _ => _ end = _ => destruct x as [r|] eqn:?; [| discriminate H]
      end
    | let a := fresh "a" in
      let l := fresh "l" in
      let Ha := fresh "Hrun" in
      apply run_bind_inv in H; destruct H as (a & l & Ha & H) ].

(** ** Lookups in a decoded dict *)

Lemma assoc_Some_elem (k : string) (d : list (string * value)) (v : value) :
  assoc k d = Some v -> k ∈ d.*1.
Proof.
  induction d as [|[k' x] d IH]; simpl; [discriminate|].
  destruct (String.eqb k k') eqn:Hk.
  - apply String.eqb_eq in Hk as ->. intros _. apply list_elem_of_here.
  - intros H. apply list_elem_of_further. auto.
Qed.

Lemma assoc_None_not_elem (k : string) (d : list (string * value)) :
  assoc k d = None -> k ∉ d.*1.
Proof.
  induction d as [|[k' x] d IH]; simpl.
  - intros _ H. inversion H.
  - destruct (String.eqb k k') eqn:Hk; [discriminate|].
    apply String.eqb_neq in Hk. intros H Hin.
    apply elem_of_cons in Hin as [->|Hin]; [done | by apply IH].
Qed.

(** ** The decoders *)

(** A body that [response.json()] decodes is decoded alike by [json.loads]. *)
Lemma response_json_loads (E : Env) (response : Response) (j : value) :
  response_json E response = OK j -> loads E (content response) = OK j.
Proof.
  unfold response_json, loads. destruct (json_loads E _); [done | discriminate].
Qed.

(** ** The error classifier *)

(** On an envelope with no top-level value the function falls off its end. *)
Lemma comprobar_errores_sin_valores (E : Env) :
  comprobar_errores E (VDict []) = OK VNone.
Proof. reflexivity. Qed.

(** The first value is [None]: no error. *)
Lemma comprobar_errores_None (E : Env) (k : string) (d : list (string * value)) :
  comprobar_errores E (VDict ((k, VNone) :: d)) = OK (VBool true).
Proof. reflexivity. Qed.

(** The first value is a dict without [lerr]: no error. *)
Lemma comprobar_errores_sin_lerr (E : Env) (k : string) (fd d : list (string * value)) :
  "lerr" ∉ fd.*1 ->
  comprobar_errores E (VDict ((k, VDict fd) :: d)) = OK (VBool true).
Proof.
  intros Hn. unfold comprobar_errores; simpl.
  rewrite bool_decide_eq_false_2 by done. reflexivity.
Qed.

(** The nested location [lerr.err[0].des] is read first. *)
Lemma comprobar_errores_anidado (E : Env) (k : string) (fd d ld ed : list (string * value))
    (es : list value) (des : value) :
  assoc "lerr" fd = Some (VDict ld) ->
  assoc "err" ld = Some (VList (VDict ed :: es)) ->
  assoc "des" ed = Some des ->
  comprobar_errores E (VDict ((k, VDict fd) :: d)) = Raise (lanzar_excepcion E des).
Proof.
  intros Hl He Hd. unfold comprobar_errores; simpl.
  rewrite bool_decide_eq_true_2 by eauto using assoc_Some_elem.
  simpl. rewrite Hl. simpl.
  rewrite bool_decide_eq_true_2 by eauto using assoc_Some_elem.
  simpl. rewrite He. simpl. rewrite Hd. reflexivity.
Qed.

(** The flat location [lerr[0].des] is read when [lerr] has no [err]. *)
Lemma comprobar_errores_plano (E : Env) (k : string) (fd d ed : list (string * value))
    (es : list value) (des : value) :
  assoc "lerr" fd = Some (VList (VDict ed :: es)) ->
  existsb (is_str "err") es = false ->
  assoc "des" ed = Some des ->
  comprobar_errores E (VDict ((k, VDict fd) :: d)) = Raise (lanzar_excepcion E des).
Proof.
  intros Hl He Hd. unfold comprobar_errores; simpl.
  rewrite bool_decide_eq_true_2 by eauto using assoc_Some_elem.
  simpl. rewrite Hl. simpl. rewrite He. simpl. rewrite Hd. reflexivity.
Qed.

(** What the function can return: [True] on an envelope with a first
    value, [None] on an envelope without one. *)
Lemma comprobar_errores_OK (E : Env) (respuesta ok : value) :
  comprobar_errores E respuesta = OK ok ->
  (ok = VBool true /\ exists k first d, respuesta = VDict ((k, first) :: d)) \/
  (ok = VNone /\ respuesta = VDict []).
Proof.
  unfold comprobar_errores. destruct respuesta as [| | | | | |d]; try discriminate.
  destruct d as [|[k first] d]; simpl.
  - intros [= <-]. by right.
  - intros H. left. split; [|eauto].
    destruct (match first with VNone => OK false | _ => _ end) as [[]|]; simpl in H;
      try discriminate.
    + destruct (py_item "lerr" first); simpl in H; [|discriminate].
      destruct (py_contains "err" a) as [[]|]; simpl in H; try discriminate.
      * destruct (py_item "err" a); simpl in H; [|discriminate].
        destruct (py_index 0 a0); simpl in H; [|discriminate].
        destruct (py_item "des" a1); simpl in H; discriminate.
      * destruct (py_index 0 a); simpl in H; [|discriminate].
        destruct (py_item "des" a0); simpl in H; discriminate.
    + by injection H as <-.
Qed.

(** The errors that the reads of the error list can raise. *)
Lemma py_item_error (k : string) (v : value) (e : exn) :
  py_item k v = Raise e -> e = KeyError \/ e = TypeError.
Proof.
  destruct v; cbn; try (intros [= <-]; by right).
  destruct (assoc k d); [discriminate|]. intros [= <-]. by left.
Qed.

Lemma py_index_error (i : nat) (v : value) (e : exn) :
  py_index i v = Raise e -> e = IndexError \/ e = KeyError \/ e = TypeError.
Proof.
  destruct v; cbn; try (intros [= <-]; eauto).
  - destruct (string_get i s); [discriminate|]. intros [= <-]. eauto.
  - destruct (l !! i); [discriminate|]. intros [= <-]. eauto.
Qed.

Lemma py_contains_error (k : string) (v : value) (e : exn) :
  py_contains k v = Raise e -> e = TypeError.
Proof. destruct v; cbn; congruence. Qed.

(** With an error list, the classifier raises: the classified failure, or
    the error of a read that the shape of the list does not allow. *)
Lemma comprobar_errores_con_lerr (E : Env) (k : string) (fd d : list (string * value))
    (lerr : value) :
  assoc "lerr" fd = Some lerr ->
  exists e,
    comprobar_errores E (VDict ((k, VDict fd) :: d)) = Raise e /\
    ((exists des, e = lanzar_excepcion E des) \/
     e = TypeError \/ e = IndexError \/ e = KeyError).
Proof.
  intros Hl. unfold comprobar_errores. cbn [py_values mbind result_bind fmap list_fmap snd].
  cbn [py_keys mbind result_bind].
  rewrite bool_decide_eq_true_2 by eauto using assoc_Some_elem.
  cbn [py_item]. rewrite Hl. cbn [mbind result_bind].
  destruct (py_contains "err" lerr) as [[|]|e] eqn:Hc; cbn [mbind result_bind].
  - destruct (py_item "err" lerr) as [err|e] eqn:H1; cbn [mbind result_bind].
    2:{ exists e. split; [done|]. apply py_item_error in H1 as [->| ->]; eauto. }
    destruct (py_index 0 err) as [e0|e] eqn:H2; cbn [mbind result_bind].
    2:{ exists e. split; [done|]. apply py_index_error in H2 as [->|[->| ->]]; eauto. }
    destruct (py_item "des" e0) as [des|e] eqn:H3; cbn [mbind result_bind].
    2:{ exists e. split; [done|]. apply py_item_error in H3 as [->| ->]; eauto. }
    eauto.
  - destruct (py_index 0 lerr) as [e0|e] eqn:H2; cbn [mbind result_bind].
    2:{ exists e. split; [done|]. apply py_index_error in H2 as [->|[->| ->]]; eauto. }
    destruct (py_item "des" e0) as [des|e] eqn:H3; cbn [mbind result_bind].
    2:{ exists e. split; [done|]. apply py_item_error in H3 as [->| ->]; eauto. }
    eauto.
  - exists e. split; [done|]. apply py_contains_error in Hc as ->. eauto.
Qed.

(** A first value that is neither [None] nor a dict has no [keys]. *)
Lemma comprobar_errores_sin_keys (E : Env) (k : string) (first : value)
    (d : list (string * value)) :
  first <> VNone -> (forall fd, first <> VDict fd) ->
  comprobar_errores E (VDict ((k, first) :: d)) = Raise AttributeError.
Proof.
  intros Hn Hd. unfold comprobar_errores. cbn [py_values mbind result_bind fmap list_fmap snd].
  destruct first; try reflexivity; [done | by destruct (Hd d0)].
Qed.

(** C4, as the code has it.  On an envelope whose first top-level value is
    a dict with [lerr], the classifier never returns: it raises the failure
    that carries the description of the first error, read at
    [lerr.err[0].des] when [lerr] has [err] and at [lerr[0].des] otherwise,
    when the list has that shape, and otherwise the TypeError, IndexError or
    KeyError of the read that fails, as the IndexError of an empty list and
    the TypeError of [None].  When the first value is [None] or a dict
    without [lerr] it returns [True]; when it is neither [None] nor a dict it
    raises AttributeError; on an envelope with no top-level value it returns
    [None]. *)
Theorem comprobar_errores_clasifica (E : Env) (k : string) (first : value)
    (d : list (string * value)) :
  (forall fd ld ed es des,
     first = VDict fd ->
     assoc "lerr" fd = Some (VDict ld) ->
     assoc "err" ld = Some (VList (VDict ed :: es)) ->
     assoc "des" ed = Some des ->
     comprobar_errores E (VDict ((k, first) :: d)) = Raise (lanzar_excepcion E des)) /\
  (forall fd ed es des,
     first = VDict fd ->
     assoc "lerr" fd = Some (VList (VDict ed :: es)) ->
     existsb (is_str "err") es = false ->
     assoc "des" ed = Some des ->
     comprobar_errores E (VDict ((k, first) :: d)) = Raise (lanzar_excepcion E des)) /\
  (forall fd lerr,
     first = VDict fd ->
     assoc "lerr" fd = Some lerr ->
     (exists e,
        comprobar_errores E (VDict ((k, first) :: d)) = Raise e /\
        ((exists des, e = lanzar_excepcion E des) \/
         e = TypeError \/ e = IndexError \/ e = KeyError)) /\
     (lerr = VList [] ->
      comprobar_errores E (VDict ((k, first) :: d)) = Raise IndexError) /\
     (lerr = VNone ->
      comprobar_errores E (VDict ((k, first) :: d)) = Raise TypeError)) /\
  (first = VNone \/ (exists fd, first = VDict fd /\ assoc "lerr" fd = None) ->
     comprobar_errores E (VDict ((k, first) :: d)) = OK (VBool true)) /\
  (first <> VNone -> (forall fd, first <> VDict fd) ->
     comprobar_errores E (VDict ((k, first) :: d)) = Raise AttributeError) /\
  comprobar_errores E (VDict []) = OK VNone.
Proof.
  split; [|split; [|split; [|split; [|split]]]].
  - intros fd ld ed es des -> Hl He Hd. by eapply comprobar_errores_anidado.
  - intros fd ed es des -> Hl He Hd. by eapply comprobar_errores_plano.
  - intros fd lerr -> Hl. split; [by eapply comprobar_errores_con_lerr|].
    assert (Hin : "lerr" ∈ fd.*1) by eauto using assoc_Some_elem.
    split; intros ->; unfold comprobar_errores;
      cbn [py_values mbind result_bind fmap list_fmap snd py_keys];
      rewrite bool_decide_eq_true_2 by done; cbn [py_item]; rewrite Hl; reflexivity.
  - intros [->|(fd & -> & Hn)]; [apply comprobar_errores_None|].
    by apply comprobar_errores_sin_lerr, assoc_None_not_elem.
  - apply comprobar_errores_sin_keys.
  - apply comprobar_errores_sin_valores.
Qed.

Lemma comprobar_errores_clasifica_witness :
  comprobar_errores Ejemplos.E_error Ejemplos.error_y_varias
  = Raise (lanzar_excepcion Ejemplos.E_error (VStr "NO EXISTE")).
Proof.
  refine (proj1 (proj2 (comprobar_errores_clasifica Ejemplos.E_error
                          "consulta_dnprcResult" _ []))
            [Ejemplos.control 2;
             ("lerr", VList [VDict [("cod", VStr "5"); ("des", VStr "NO EXISTE")]])]
            [("cod", VStr "5"); ("des", VStr "NO EXISTE")] [] (VStr "NO EXISTE")
            _ _ _ _); reflexivity.
Defined.

(** The envelope [{}]: the classifier returns [None], which is not [True]
    and which its callers read as false. *)
Lemma comprobar_errores_vacio_no_es_True :
  comprobar_errores Ejemplos.E_urbana (VDict []) = OK VNone /\
  (OK VNone : result value) <> OK (VBool true) /\
  truthy VNone = false.
Proof. split; [reflexivity|]. split; [discriminate | reflexivity]. Qed.

Lemma comprobar_errores_truthy (E : Env) (respuesta ok : value) :
  comprobar_errores E respuesta = OK ok -> truthy ok = true -> ok = VBool true.
Proof.
  intros H Ht. apply comprobar_errores_OK in H as [[-> _]|[-> _]]; [done | discriminate].
Qed.

Lemma comprobar_errores_falsy (E : Env) (respuesta ok : value) :
  comprobar_errores E respuesta = OK ok -> truthy ok = false -> respuesta = VDict [].
Proof.
  intros H Ht. apply comprobar_errores_OK in H as [[-> _]|[_ ->]]; [discriminate | done].
Qed.

(** ** Attributes *)

Lemma getattr_insert_eq (self : obj) (a : string) (v : value) :
  getattr (<[a := v]> self) a = OK v.
Proof. unfold getattr. by rewrite lookup_insert_eq. Qed.

Lemma getattr_insert_ne (self : obj) (a b : string) (v : value) :
  a <> b -> getattr (<[a := v]> self) b = getattr self b.
Proof. intros H. unfold getattr. by rewrite lookup_insert_ne. Qed.

Lemma getattr_OK (self : obj) (a : string) (v : value) :
  getattr self a = OK v <-> self !! a = Some v.
Proof. unfold getattr. destruct (self !! a); split; congruence. Qed.

(** ** The single-entity resolver *)

Import ParcelaCatastral.

(** [__create_regions] sets [regiones], to a list, and nothing else. *)
Lemma create_regions_inv (info_cadastre : value) (self s : obj) :
  create_regions info_cadastre self = OK s ->
  exists rs, s = <["regiones" := VList rs]> self.
Proof.
  unfold create_regions. intros H.
  repeat (apply bind_OK_inv in H as (? & _ & H)).
  injection H as <-. eexists. by rewrite insert_insert_eq.
Qed.

(** [__create_geometry] sets the three attributes of the geometry; the
    ring is a list. *)
Lemma create_geometry_inv (E : Env) (projection : value) (self s : obj)
    (log log' : list Request) :
  create_geometry E projection self log = (OK s, log') ->
  exists c g st,
    s = <["superficie_total" := VFloat st]>
          (<["geometria" := VList g]> (<["centroide" := c]> self)).
Proof.
  unfold create_geometry. intros H.
  repeat step H. injection H as <- _. eauto.
Qed.

(** The sum of the surfaces reads [regiones] only. *)
Lemma suma_superficies_insert (E : Env) (self : obj) (a : string) (v : value) :
  a <> "regiones" -> suma_superficies E (<[a := v]> self) = suma_superficies E self.
Proof. intros H. unfold suma_superficies. by rewrite getattr_insert_ne. Qed.

Lemma suma_superficies_inv (E : Env) (self : obj) (rs : list value) (v : value) :
  self !! "regiones" = Some (VList rs) ->
  suma_superficies E self = OK v ->
  exists xs, mapR (fun region => s ← py_get "superficie" region; py_float E s) rs = OK xs
             /\ v = py_sum E xs.
Proof.
  intros Hr. unfold suma_superficies. apply getattr_OK in Hr. rewrite Hr. simpl.
  intros H. apply bind_OK_inv in H as (xs & Hxs & [= <-]). eauto.
Qed.

(** The checks that precede the ambiguity test. *)
Lemma content_nonempty (s : string) : s <> "" -> negb (String.eqb s "") = true.
Proof. intros H. apply negb_true_iff, String.eqb_neq, H. Qed.

Lemma create_from_rc_pasa (E : Env) (rc projection : value) (self : obj)
    (log : list Request) (info cudnp : value) (varias : bool) :
  pasa E (http E (Consulta_DNPRC rc)) "consulta_dnprcResult" info cudnp ->
  py_gt_one cudnp = OK varias ->
  create_from_rc E rc projection self log =
  if varias then (Raise (ErrorServidorCatastro msg_varias), (log ++ [Consulta_DNPRC rc])%list)
  else fill_from_record E info projection self (log ++ [Consulta_DNPRC rc])%list.
Proof.
  intros (Hc & Hj & He & Hn) Hgt. unfold create_from_rc.
  rewrite run_get, content_nonempty by done.
  unfold loads, response_json. rewrite Hj. cbn [try_except].
  rewrite run_lift, run_lift, He. cbn [truthy].
  rewrite run_lift, Hn, run_lift, Hgt. by destruct varias.
Qed.

Lemma create_from_rc_inv (E : Env) (rc projection : value) (self p : obj)
    (log log' : list Request) :
  create_from_rc E rc projection self log = (OK p, log') ->
  (p = self /\ log' = (log ++ [Consulta_DNPRC rc])%list /\
   json_loads E (content (http E (Consulta_DNPRC rc))) = Some (VDict [])) \/
  (exists info cudnp,
     pasa E (http E (Consulta_DNPRC rc)) "consulta_dnprcResult" info cudnp /\
     py_gt_one cudnp = OK false /\
     fill_from_record E info projection self (log ++ [Consulta_DNPRC rc])%list = (OK p, log')).
Proof.
  unfold create_from_rc. rewrite run_get. intros H.
  destruct (negb _) eqn:Hc; [|discriminate].
  apply negb_true_iff, String.eqb_neq in Hc.
  step H. step H.
  unfold loads, response_json in *. destruct (json_loads E _) as [info|] eqn:Hj; [|discriminate].
  injection Heqr as <-.
  destruct (truthy r0) eqn:Ht.
  - apply comprobar_errores_truthy in Heqr0 as Hok; [|done]. subst r0.
    step H. step H. destruct r0; [discriminate|].
    right. exists info, r. repeat split; done.
  - apply comprobar_errores_falsy in Heqr0; [|done]. subst info.
    injection H as <- <-. left. done.
Qed.

Lemma create_from_parcel_pasa (E : Env) (provincia municipio poligono parcela projection : value)
    (self : obj) (log : list Request) (info cudnp : value) (varias : bool) :
  let req := Consulta_DNPPP provincia municipio poligono parcela in
  pasa E (http E req) "consulta_dnpppResult" info cudnp ->
  py_gt_one cudnp = OK varias ->
  create_from_parcel E provincia municipio poligono parcela projection self log =
  if varias then (Raise (ErrorServidorCatastro msg_varias), (log ++ [req])%list)
  else
    (rcd ← lift (get_path ["consulta_dnpppResult"; "bico"; "bi"; "idbi"; "rc"] info);
     rc ← lift (join_values rcd);
     create_from_rc E (VStr rc) projection (<["rc" := VStr rc]> self)) (log ++ [req])%list.
Proof.
  intros req (Hc & Hj & He & Hn) Hgt. unfold create_from_parcel.
  rewrite run_get, content_nonempty by done.
  unfold loads, response_json. fold req. rewrite Hj. cbn [try_except].
  rewrite run_lift, run_lift, He. cbn [truthy].
  rewrite run_lift, Hn, run_lift, Hgt. by destruct varias.
Qed.

Lemma create_from_parcel_inv (E : Env) (provincia municipio poligono parcela projection : value)
    (self p : obj) (log log' : list Request) :
  create_from_parcel E provincia municipio poligono parcela projection self log = (OK p, log') ->
  p = self \/
  exists rc l, create_from_rc E (VStr rc) projection (<["rc" := VStr rc]> self) l = (OK p, log').
Proof.
  unfold create_from_parcel. rewrite run_get. intros H.
  destruct (negb _) eqn:Hc; [|discriminate].
  step H. step H.
  destruct (truthy r0) eqn:Ht.
  - do 2 step H. destruct r2; [discriminate|]. do 2 step H. right. eauto.
  - injection H as <- _. by left.
Qed.

Lemma create_from_address_raises (E : Env) (provincia municipio tipo_via calle numero projection : value)
    (self p : obj) (log log' : list Request) :
  create_from_address E provincia municipio tipo_via calle numero projection self log <> (OK p, log').
Proof.
  unfold create_from_address. intros H.
  apply run_bind_inv in H as (info_calle & l & _ & H).
  destruct (calle_bool info_calle); [|discriminate].
  rewrite run_get in H. step H. destruct r.
  - rewrite run_lift in H. discriminate H.
  - repeat step H. destruct r2; [repeat step H|]; discriminate H.
Qed.

(** The single-match branch. *)
Lemma fill_from_record_inv (E : Env) (info_cadastre projection : value) (self p : obj)
    (log log' : list Request) :
  fill_from_record E info_cadastre projection self log = (OK p, log') ->
  exists rcd rc nm np cn G rs c g st xs,
    get_path (bi ++ ["idbi"; "rc"]) info_cadastre = OK rcd /\
    join_values rcd = OK rc /\
    get_path (bi ++ ["idbi"; "cn"]) info_cadastre = OK cn /\
    grupo cn G /\
    mapR (fun region => s ← py_get "superficie" region; py_float E s) rs = OK xs /\
    p = ensamblar E rc (url (http E (CroquisDatos (VStr rc)))) nm np cn G rs c g st xs self.
Proof.
  unfold fill_from_record. intros H.
  do 6 step H.
  rewrite getattr_insert_eq in H. rewrite run_lift in H.
  step H.
  assert (HG : exists G, grupo r3 G /\ a = G (<["tipo" := VStr (tipo_de r3)]> (<["provincia" := r2]> (<["municipio" := r1]> (<["url_croquis" := VStr (url (http E (CroquisDatos (VStr r0))))]> (<["rc" := VStr r0]> self)))))).
  { unfold grupo. destruct (is_str "RU" r3) eqn:Hcn.
    - change (is_str "Urbano" (VStr "Rústico")) with false in Hrun.
      change (is_str "Rústico" (VStr "Rústico")) with true in Hrun.
      cbv iota in Hrun. repeat step Hrun. injection Hrun as <- _.
      eexists. split; [right; split; [done|eauto]|]. unfold tipo_de. by rewrite Hcn.
    - change (is_str "Urbano" (VStr "Urbano")) with true in Hrun.
      cbv iota in Hrun. repeat step Hrun. injection Hrun as <- _.
      eexists. split; [left; split; [done|eauto]|]. unfold tipo_de. by rewrite Hcn. }
  destruct HG as (G & HG & ->).
  step H. apply create_regions_inv in Heqr4 as [rs ->].
  step H. apply create_geometry_inv in Hrun0 as (c & g & st & ->).
  clear Hrun. step H.
  rewrite suma_superficies_insert in H by done.
  rewrite Heqr4 in H. rewrite run_lift in H. injection H as <- _.
  rewrite !suma_superficies_insert in Heqr4 by done.
  apply suma_superficies_inv with (rs := rs) in Heqr4 as (xs & Hxs & ->);
    [| apply lookup_insert_eq].
  exists r, r0, r1, r2, r3, G, rs, c, g, st, xs. done.
Qed.


(** The attributes of the assembled instance. *)
Section ensamblar.
Context (E : Env) (rc u : string) (nm np cn : value) (G : obj -> obj)
  (rs : list value) (c : value) (g : list value) (st : float) (xs : list float)
  (self : obj).
Hypothesis HG : grupo cn G.
Let p := ensamblar E rc u nm np cn G rs c g st xs self.

Lemma ensamblar_superficie : p !! "superficie" = Some (py_sum E xs).
Proof. apply lookup_insert_eq. Qed.

Lemma ensamblar_superficie_construida : p !! "superficie_construida" = Some (py_sum E xs).
Proof. subst p. unfold ensamblar. by simplify_map_eq. Qed.


Lemma ensamblar_regiones : p !! "regiones" = Some (VList rs).
Proof. subst p. unfold ensamblar. by simplify_map_eq. Qed.

Lemma ensamblar_tipo : p !! "tipo" = Some (VStr (tipo_de cn)).
Proof.
  subst p. unfold ensamblar.
  destruct HG as [(_ & ? & ? & ? & ? & ->)|(_ & ? & ? & ? & ->)]; by simplify_map_eq.
Qed.

Lemma ensamblar_rc : p !! "rc" = Some (VStr rc).
Proof.
  subst p. unfold ensamblar.
  destruct HG as [(_ & ? & ? & ? & ? & ->)|(_ & ? & ? & ? & ->)]; by simplify_map_eq.
Qed.

Lemma ensamblar_dom :
  dom p = dom self ∪ {["rc"; "url_croquis"; "municipio"; "provincia"; "tipo"; "regiones";
              "centroide"; "geometria"; "superficie_total"; "superficie_construida";
              "superficie"]}
          ∪ (if is_str "RU" cn then grupo_rustico else grupo_urbano).
Proof.
  subst p. unfold ensamblar, comunes, grupo_rustico, grupo_urbano.
  destruct HG as [(-> & ? & ? & ? & ? & ->)|(-> & ? & ? & ? & ->)];
    rewrite !dom_insert_L; set_solver.
Qed.
End ensamblar.

(** ** Resolved parcels *)

Lemma init_inv (E : Env) (kwargs : list (string * value)) (p : obj)
    (log log' : list Request) :
  ParcelaCatastral.init E kwargs log = (OK p, log') ->
  p !! "tipo" = None \/
  exists info projection self l,
    fill_from_record E info projection self l = (OK p, log').
Proof.
  unfold ParcelaCatastral.init. intros H. step H.
  destruct (negb _); [discriminate|].
  destruct (truthy (r "rc")).
  { apply create_from_rc_inv in H as [(-> & _)|(info & c & _ & _ & H)]; [by left|].
    right. eauto. }
  destruct (_ && _).
  { apply create_from_parcel_inv in H as [->|(rc & l & H)]; [by left|].
    apply create_from_rc_inv in H as [(-> & _)|(info & c & _ & _ & H)]; [by left|].
    right. eauto. }
  destruct (_ && _); [|discriminate].
  by apply create_from_address_raises in H.
Qed.

(** A resolved parcel is an assembled instance. *)
Lemma resolved_inv (E : Env) (p : obj) :
  resolved E p ->
  exists rc u nm np cn G rs c g st xs self,
    grupo cn G /\
    mapR (superficie_de E) rs = OK xs /\
    p = ensamblar E rc u nm np cn G rs c g st xs self.
Proof.
  intros (kwargs & log & log' & H & Ht).
  apply init_inv in H as [Hn|(info & projection & self & l & H)].
  { rewrite Hn in Ht. by destruct Ht. }
  apply fill_from_record_inv in H
    as (rcd & rc & nm & np & cn & G & rs & c & g & st & xs & _ & _ & _ & HG & Hxs & ->).
  eauto 15.
Qed.

(** A resolved parcel carries every common attribute: the only instances
    that a constructor returns incomplete are those without a variant tag. *)
Lemma resolved_completa (E : Env) (p : obj) :
  resolved E p -> comunes ⊆ dom p.
Proof.
  intros Hp.
  apply resolved_inv in Hp
    as (rc & u & nm & np & cn & G & rs & c & g & st & xs & self & HG & Hxs & ->).
  rewrite (ensamblar_dom E rc u nm np cn G rs c g st xs self HG). set_solver.
Qed.

(** ** Built surface *)

(** C5. For every resolved parcel, [superficie_construida] and [superficie]
    hold the same value, and that value is the sum of the surfaces of the
    regions of the parcel, each converted with [float]. *)
Theorem superficie_suma_regiones (E : Env) (p : obj) :
  resolved E p ->
  exists rs xs,
    p !! "regiones" = Some (VList rs) /\
    mapR (superficie_de E) rs = OK xs /\
    p !! "superficie_construida" = Some (py_sum E xs) /\
    p !! "superficie" = Some (py_sum E xs).
Proof.
  intros Hp.
  apply resolved_inv in Hp
    as (rc & u & nm & np & cn & G & rs & c & g & st & xs & self & HG & Hxs & ->).
  exists rs, xs. split; [by apply ensamblar_regiones|]. split; [done|].
  split; [apply ensamblar_superficie_construida | apply ensamblar_superficie].
Qed.

Lemma resolved_p_urbana : resolved Ejemplos.E_urbana Ejemplos.p_urbana.
Proof.
  exists [("rc", VStr "A")], [],
    [Consulta_DNPRC (VStr "A"); CroquisDatos (VStr "A");
     GetParcel (VStr "A") (VStr "EPSG:4326")].
  split; [vm_compute; reflexivity|]. vm_compute. eexists. reflexivity.
Defined.

Lemma superficie_suma_regiones_witness :
  resolved Ejemplos.E_urbana Ejemplos.p_urbana /\
  exists rs xs,
    Ejemplos.p_urbana !! "regiones" = Some (VList rs) /\
    mapR (superficie_de Ejemplos.E_urbana) rs = OK xs /\
    Ejemplos.p_urbana !! "superficie_construida" = Some (py_sum Ejemplos.E_urbana xs) /\
    Ejemplos.p_urbana !! "superficie" = Some (py_sum Ejemplos.E_urbana xs).
Proof.
  split; [exact resolved_p_urbana|].
  exact (superficie_suma_regiones Ejemplos.E_urbana Ejemplos.p_urbana resolved_p_urbana).
Defined.

(** ** Edge distances and perimeter *)

Lemma mapR_total {A B : Type} (f : A -> result B) (f' : A -> B) (l : list A) :
  (forall x, x ∈ l -> f x = OK (f' x)) -> mapR f l = OK (f' <$> l).
Proof.
  induction l as [|x l IH]; intros H; simpl; [done|].
  rewrite H by apply list_elem_of_here. simpl.
  rewrite IH; [done|]. intros y Hy. apply H. by apply list_elem_of_further.
Qed.











(** ** The request log *)

Section appends.
Context {A B : Type}.

Lemma appends_ret (a : A) : appends (mret a : M A).
Proof. intros log. cbn. by rewrite app_nil_r. Qed.

Lemma appends_lift (r : result A) : appends (lift r).
Proof. intros log. cbn. by rewrite app_nil_r. Qed.

Lemma appends_raise (e : exn) : appends (raise e : M A).
Proof. intros log. cbn. by rewrite app_nil_r. Qed.

Lemma appends_bind (m : M A) (f : A -> M B) :
  appends m -> (forall a, appends (f a)) -> appends (m ≫= f).
Proof.
  intros Hm Hf log. rewrite !run_bind, (Hm log).
  destruct (m []) as [[a|e] l1]; cbn [fst snd]; [|done].
  rewrite (Hf a (log ++ l1)%list), (Hf a l1). cbn [fst snd].
  by rewrite app_assoc.
Qed.

Lemma appends_if (b : bool) (m1 m2 : M A) :
  appends m1 -> appends m2 -> appends (if b then m1 else m2).
Proof. by destruct b. Qed.
End appends.

Lemma appends_get (E : Env) (r : Request) : appends (requests_get E r).
Proof. intros log. reflexivity. Qed.

Lemma appends_calle (E : Env) (p m t c : value) : appends (calle_new E p m t c).
Proof. intros log. reflexivity. Qed.

Create HintDb appends.
#[export] Hint Resolve appends_ret appends_lift appends_raise appends_get appends_calle : appends.

Ltac appends_step :=
  cbv zeta;
  first
    [ solve [auto with appends]
    | apply appends_bind; [| intros ?]
    | apply appends_if ].

Lemma create_geometry_appends (E : Env) (projection : value) (self : obj) :
  appends (create_geometry E projection self).
Proof. unfold create_geometry. repeat appends_step. Qed.

#[export] Hint Resolve create_geometry_appends : appends.

Lemma fill_from_record_appends (E : Env) (info_cadastre projection : value) (self : obj) :
  appends (fill_from_record E info_cadastre projection self).
Proof. unfold fill_from_record. repeat appends_step. Qed.

#[export] Hint Resolve fill_from_record_appends : appends.

Lemma create_from_rc_appends (E : Env) (rc projection : value) (self : obj) :
  appends (create_from_rc E rc projection self).
Proof. unfold create_from_rc. repeat appends_step. Qed.

#[export] Hint Resolve create_from_rc_appends : appends.

Lemma create_from_parcel_appends (E : Env) (pr mu po pa projection : value) (self : obj) :
  appends (create_from_parcel E pr mu po pa projection self).
Proof. unfold create_from_parcel. repeat appends_step. Qed.

Lemma create_from_address_appends (E : Env) (pr mu tv ca nu projection : value) (self : obj) :
  appends (create_from_address E pr mu tv ca nu projection self).
Proof. unfold create_from_address. repeat appends_step. Qed.

#[export] Hint Resolve create_from_parcel_appends create_from_address_appends : appends.

Lemma init_appends (E : Env) (kwargs : list (string * value)) :
  appends (init E kwargs).
Proof. unfold init. repeat appends_step. Qed.

(** The result of a computation that only appends is the same from every log. *)
Lemma appends_fst {A : Type} (m : M A) (l1 l2 : list Request) :
  appends m -> (m l1).1 = (m l2).1.
Proof. intros H. by rewrite (H l1), (H l2). Qed.

(** The single-match branch overwrites the code the instance started with. *)
Lemma fill_from_record_rc (E : Env) (info_cadastre projection v : value) (self : obj)
    (log : list Request) :
  fill_from_record E info_cadastre projection (<["rc" := v]> self) log
  = fill_from_record E info_cadastre projection self log.
Proof.
  unfold fill_from_record. rewrite !run_lift.
  destruct (get_path _ _); [|done]. rewrite !run_lift.
  destruct (join_values _); [|done]. by rewrite insert_insert_eq.
Qed.

(** ** The constructor *)

Lemma init_rc (E : Env) (kwargs : list (string * value)) (a : string -> value)
    (log : list Request) :
  bind_kwargs params kwargs = OK a ->
  sistema_soportado E (a "projection") = true ->
  truthy (a "rc") = true ->
  init E kwargs log
  = create_from_rc E (a "rc") (a "projection") (<["rc" := a "rc"]> ∅) log.
Proof.
  intros Ha Hs Hrc. unfold init. rewrite run_lift, Ha, Hs, Hrc. reflexivity.
Qed.

Lemma init_soportado (E : Env) (kwargs : list (string * value)) (a : string -> value)
    (log log' : list Request) (p : obj) :
  bind_kwargs params kwargs = OK a ->
  init E kwargs log = (OK p, log') ->
  sistema_soportado E (a "projection") = true.
Proof.
  intros Ha. unfold init. rewrite run_lift, Ha.
  by destruct (sistema_soportado E (a "projection")).
Qed.

Lemma bind_kwargs_rc (rc projection : value) :
  exists a, bind_kwargs params [("rc", rc); ("projection", projection)] = OK a
            /\ a "rc" = rc /\ a "projection" = projection.
Proof. eexists. split; [reflexivity|]. split; reflexivity. Qed.

(** ** The stored identifier *)

(** C8, as the code has it.  A parcel resolved by its code stores the
    identifier re-derived from the record, the concatenation of the values
    of its [rc] field.  When that identifier is not empty and the service
    answers it with the same record as the first lookup, resolving again
    by it gives the same instance, whatever the log it starts from. *)
Theorem identificador_canonico (E : Env) (kwargs : list (string * value))
    (a : string -> value) (log log' : list Request) (p : obj) :
  bind_kwargs params kwargs = OK a ->
  truthy (a "rc") = true ->
  init E kwargs log = (OK p, log') ->
  is_Some (p !! "tipo") ->
  exists info rcd rc',
    json_loads E (content (http E (Consulta_DNPRC (a "rc")))) = Some info /\
    get_path (bi ++ ["idbi"; "rc"]) info = OK rcd /\
    join_values rcd = OK rc' /\
    p !! "rc" = Some (VStr rc') /\
    (rc' <> "" ->
     http E (Consulta_DNPRC (VStr rc')) = http E (Consulta_DNPRC (a "rc")) ->
     forall log2,
       (init E [("rc", VStr rc'); ("projection", a "projection")] log2).1 = OK p).
Proof.
  intros Ha Hrc H Ht.
  pose proof (init_soportado E kwargs a log log' p Ha H) as Hs.
  rewrite (init_rc E kwargs a log Ha Hs Hrc) in H.
  apply create_from_rc_inv in H as Hinv.
  destruct Hinv as [(-> & _)|(info & cudnp & Hpasa & Hgt & Hfill)].
  { by destruct Ht as [? [=]]. }
  apply fill_from_record_inv in Hfill as Hens.
  destruct Hens as (rcd & rc' & nm & np & cn & G & rs & c & g & st & xs
                     & Hrcd & Hjoin & _ & HG & _ & ->).
  exists info, rcd, rc'. pose proof Hpasa as (Hc & Hj & He & Hn).
  split; [done|]. split; [done|]. split; [done|].
  split; [by apply ensamblar_rc|].
  intros Hne Hhttp log2.
  destruct (bind_kwargs_rc (VStr rc') (a "projection")) as (a' & Ha' & Hrc' & Hpr').
  rewrite (init_rc E _ a' log2 Ha'); rewrite ?Hrc', ?Hpr'; [|done|].
  2:{ simpl. by apply negb_true_iff, String.eqb_neq. }
  rewrite (create_from_rc_pasa E (VStr rc') (a "projection") _ log2 info cudnp false);
    [| by rewrite Hhttp | done].
  rewrite fill_from_record_rc.
  rewrite <- (fill_from_record_rc E info (a "projection") (a "rc") ∅).
  rewrite (appends_fst _ _ (log ++ [Consulta_DNPRC (a "rc")])%list)
    by apply fill_from_record_appends.
  by rewrite Hfill.
Qed.

Lemma identificador_canonico_witness :
  exists info rcd rc',
    json_loads Ejemplos.E_urbana
      (content (http Ejemplos.E_urbana (Consulta_DNPRC (VStr "A")))) = Some info /\
    get_path (bi ++ ["idbi"; "rc"]) info = OK rcd /\
    join_values rcd = OK rc' /\
    Ejemplos.p_urbana !! "rc" = Some (VStr rc') /\
    (rc' <> "" ->
     http Ejemplos.E_urbana (Consulta_DNPRC (VStr rc'))
     = http Ejemplos.E_urbana (Consulta_DNPRC (VStr "A")) ->
     forall log2,
       (init Ejemplos.E_urbana [("rc", VStr rc'); ("projection", VStr "EPSG:4326")] log2).1
       = OK Ejemplos.p_urbana).
Proof.
  refine (identificador_canonico Ejemplos.E_urbana [("rc", VStr "A")] (Ejemplos.a_rc (VStr "A")) []
            [Consulta_DNPRC (VStr "A"); CroquisDatos (VStr "A");
             GetParcel (VStr "A") (VStr "EPSG:4326")]
            Ejemplos.p_urbana _ _ _ _).
  - reflexivity.
  - reflexivity.
  - vm_compute. reflexivity.
  - vm_compute. eexists. reflexivity.
Defined.

(** The service answers the code [A] with the record of [B]: the parcel
    stores [B], and the lookup of [B] gives another variant. *)
Lemma identificador_no_idempotente :
  resolved Ejemplos.E_renombra Ejemplos.p_renombrada /\
  Ejemplos.p_renombrada !! "rc" = Some (VStr "B") /\
  Ejemplos.p_renombrada !! "tipo" = Some (VStr "Urbano") /\
  (ParcelaCatastral.init Ejemplos.E_renombra [("rc", VStr "B")] []).1
    = OK Ejemplos.p_renombrada' /\
  Ejemplos.p_renombrada' !! "tipo" = Some (VStr "Rústico") /\
  Ejemplos.p_renombrada' <> Ejemplos.p_renombrada.
Proof.
  split.
  { exists [("rc", VStr "A")], [],
      [Consulta_DNPRC (VStr "A"); CroquisDatos (VStr "B");
       GetParcel (VStr "B") (VStr "EPSG:4326")].
    split; [vm_compute; reflexivity|]. vm_compute. eexists. reflexivity. }
  split; [vm_compute; reflexivity|].
  split; [vm_compute; reflexivity|].
  split; [vm_compute; reflexivity|].
  split; [vm_compute; reflexivity|].
  intros Heq.
  assert (H : Ejemplos.p_renombrada' !! "tipo" = Ejemplos.p_renombrada !! "tipo")
    by (by rewrite Heq).
  vm_compute in H. discriminate H.
Qed.

(** ** Variant groups *)

(** A parcel looked up by its code carries the attributes of the group of
    its variant, and none of the other group. *)
Lemma grupos_excluyentes_rc (E : Env) (kwargs : list (string * value))
    (a : string -> value) (log log' : list Request) (p : obj) :
  bind_kwargs params kwargs = OK a ->
  truthy (a "rc") = true ->
  init E kwargs log = (OK p, log') ->
  is_Some (p !! "tipo") ->
  (p !! "tipo" = Some (VStr "Urbano") /\ grupo_urbano ⊆ dom p /\ grupo_rustico ## dom p) \/
  (p !! "tipo" = Some (VStr "Rústico") /\ grupo_rustico ⊆ dom p /\ grupo_urbano ## dom p).
Proof.
  intros Ha Hrc H Ht.
  pose proof (init_soportado E kwargs a log log' p Ha H) as Hs.
  rewrite (init_rc E kwargs a log Ha Hs Hrc) in H.
  apply create_from_rc_inv in H as [(-> & _)|(info & cudnp & _ & _ & Hfill)].
  { by destruct Ht as [? [=]]. }
  apply fill_from_record_inv in Hfill
    as (rcd & rc' & nm & np & cn & G & rs & c & g & st & xs & _ & _ & _ & HG & _ & ->).
  rewrite (ensamblar_tipo E rc' _ nm np cn G rs c g st xs _ HG).
  rewrite (ensamblar_dom E rc' _ nm np cn G rs c g st xs _ HG).
  rewrite dom_insert_L, dom_empty_L.
  unfold tipo_de, comunes, grupo_urbano, grupo_rustico.
  destruct (is_str "RU" cn); [right | left]; (split; [done|]); set_solver.
Qed.

(** C6, on the polygon strategy.  The constructor stores the polygon and
    the parcel number it was given before it resolves the record; when the
    record is urban, the instance carries the urban group and two
    attributes of the rustic group. *)
Theorem grupos_mezclados_por_poligono :
  resolved Ejemplos.E_diseminado Ejemplos.p_diseminado /\
  Ejemplos.p_diseminado !! "tipo" = Some (VStr "Urbano") /\
  Ejemplos.p_diseminado !! "calle" = Some (VStr "CL MAYOR") /\
  Ejemplos.p_diseminado !! "numero" = Some (VStr "1") /\
  Ejemplos.p_diseminado !! "antiguedad" = Some (VStr "1950") /\
  Ejemplos.p_diseminado !! "uso" = Some (VStr "Residencial") /\
  Ejemplos.p_diseminado !! "poligono" = Some (VStr "1") /\
  Ejemplos.p_diseminado !! "parcela" = Some (VStr "2") /\
  ~ grupo_rustico ## dom Ejemplos.p_diseminado.
Proof.
  split.
  { exists Ejemplos.kw_poligono, [],
      [Consulta_DNPPP (VStr "MADRID") (VStr "MADRID") (VStr "1") (VStr "2");
       Consulta_DNPRC (VStr "A"); CroquisDatos (VStr "A");
       GetParcel (VStr "A") (VStr "EPSG:4326")].
    split; [vm_compute; reflexivity|]. vm_compute. eexists. reflexivity. }
  repeat (split; [vm_compute; reflexivity|]).
  intros Hd. apply (Hd "poligono").
  - unfold grupo_rustico. set_solver.
  - apply elem_of_dom. vm_compute. eexists. reflexivity.
Qed.

(** ** The reference system *)

Lemma bind_kwargs_desconocido (params kwargs : list (string * value)) (k : string)
    (v : value) :
  (k, v) ∈ kwargs -> k ∉ params.*1 -> bind_kwargs params kwargs = Raise TypeError.
Proof.
  intros Hin Hk. unfold bind_kwargs.
  destruct (forallb _ kwargs) eqn:Hf; [|done].
  rewrite forallb_forall in Hf. apply list_elem_of_In, Hf in Hin.
  apply bool_decide_eq_true_1 in Hin. done.
Qed.

Lemma bind_kwargs_OK (params kwargs : list (string * value)) (a : string -> value) :
  bind_kwargs params kwargs = OK a ->
  a = fun name => default (default VNone (assoc name params)) (assoc name kwargs).
Proof. unfold bind_kwargs. destruct (forallb _ kwargs); [|done]. by intros [= <-]. Qed.

(** The requests that a computation adds, through its steps. *)
Section conserva.
Context {A B : Type} (P : Request -> Prop).

Lemma conserva_ret (a : A) : conserva P (mret a : M A).
Proof. by intros log. Qed.

Lemma conserva_lift (r : result A) : conserva P (lift r).
Proof. by intros log. Qed.

Lemma conserva_raise (e : exn) : conserva P (raise e : M A).
Proof. by intros log. Qed.

Lemma conserva_bind (m : M A) (f : A -> M B) :
  conserva P m -> (forall a, conserva P (f a)) -> conserva P (m ≫= f).
Proof.
  intros Hm Hf log Hlog. rewrite run_bind. specialize (Hm log Hlog).
  destruct (m log) as [[a|e] l1]; cbn in *; [by apply Hf | done].
Qed.

Lemma conserva_lift_bind (r : result A) (f : A -> M B) :
  (forall a, conserva P (f a)) -> conserva P (lift r ≫= f).
Proof. intros Hf. apply conserva_bind; [apply conserva_lift | done]. Qed.

Lemma conserva_if (b : bool) (m1 m2 : M A) :
  conserva P m1 -> conserva P m2 -> conserva P (if b then m1 else m2).
Proof. by destruct b. Qed.

End conserva.

Lemma conserva_foldM {A B : Type} (P : Request -> Prop) (f : A -> B -> M A) (l : list B)
    (a : A) :
  (forall a x, conserva P (f a x)) -> conserva P (foldM f a l).
Proof.
  intros Hf. revert a. induction l as [|x l IH]; intros a; cbn [foldM].
  - apply conserva_ret.
  - apply conserva_bind; [apply Hf | intros a'; apply IH].
Qed.

Lemma conserva_get_bind {B : Type} (P : Request -> Prop) (E : Env) (r : Request)
    (f : Response -> M B) :
  P r -> (forall resp, conserva P (f resp)) -> conserva P (requests_get E r ≫= f).
Proof.
  intros Hr Hf log Hlog. rewrite run_get. apply Hf, Forall_app. split; [done|].
  by constructor.
Qed.

Lemma conserva_calle (P : Request -> Prop) (E : Env) (p m t c : value) :
  P (ConsultaCalle p m t c) -> conserva P (calle_new E p m t c).
Proof.
  intros Hp log Hlog. unfold calle_new. cbn. apply Forall_app. split; [done|].
  by constructor.
Qed.

Create HintDb conserva.

Ltac conserva_step :=
  first
    [ solve [auto with conserva]
    | apply conserva_ret
    | apply conserva_raise
    | apply conserva_lift
    | apply conserva_get_bind; [exact I | intros ?]
    | apply conserva_lift_bind; intros ?
    | apply conserva_if
    | apply conserva_bind; [|intros ?] ].

(** The geometry is asked in the reference system that the method was given,
    and the lookups pass it on. *)
Lemma create_geometry_conserva (E : Env) (projection : value) (self : obj) :
  conserva (en_sistema projection) (create_geometry E projection self).
Proof.
  unfold create_geometry. apply conserva_lift_bind. intros rc.
  apply conserva_get_bind; [reflexivity|]. intros resp. repeat conserva_step.
Qed.
#[export] Hint Resolve create_geometry_conserva : conserva.

Lemma fill_from_record_conserva (E : Env) (info_cadastre projection : value) (self : obj) :
  conserva (en_sistema projection) (fill_from_record E info_cadastre projection self).
Proof.
  unfold fill_from_record. do 7 conserva_step.
  apply conserva_bind; [|intros ?].
  { apply conserva_if; [repeat conserva_step|].
    apply conserva_if; repeat conserva_step. }
  repeat conserva_step.
Qed.
#[export] Hint Resolve fill_from_record_conserva : conserva.

Lemma create_from_rc_conserva (E : Env) (rc projection : value) (self : obj) :
  conserva (en_sistema projection) (create_from_rc E rc projection self).
Proof. unfold create_from_rc. repeat conserva_step. Qed.
#[export] Hint Resolve create_from_rc_conserva : conserva.

Lemma create_from_parcel_conserva (E : Env) (pr mu po pa projection : value) (self : obj) :
  conserva (en_sistema projection) (create_from_parcel E pr mu po pa projection self).
Proof. unfold create_from_parcel. repeat conserva_step. Qed.

Lemma create_from_address_conserva (E : Env) (pr mu tv ca nu projection : value)
    (self : obj) :
  conserva (en_sistema projection) (create_from_address E pr mu tv ca nu projection self).
Proof.
  unfold create_from_address. apply conserva_bind; [by apply conserva_calle|].
  intros ic. repeat conserva_step.
Qed.

(** Every geometry that the construction of a parcel asks for is asked in
    the reference system of the call. *)
Lemma init_conserva (E : Env) (kwargs : list (string * value)) (a : string -> value) :
  bind_kwargs params kwargs = OK a ->
  conserva (en_sistema (a "projection")) (ParcelaCatastral.init E kwargs).
Proof.
  intros Ha log Hlog. unfold ParcelaCatastral.init. rewrite run_lift, Ha.
  destruct (negb _); [done|]. cbv zeta.
  destruct (truthy (a "rc")); [by apply create_from_rc_conserva|].
  destruct (_ && truthy (a "parcela")); [by apply create_from_parcel_conserva|].
  destruct (_ && _); [by apply create_from_address_conserva | done].
Qed.

(** A parcel that is constructed from its code alone is resolved in the
    default system. *)
Lemma init_por_codigo_conserva (E : Env) (rc : value) :
  conserva (en_sistema (VStr "EPSG:4326")) (ParcelaCatastral.init E [("rc", rc)]).
Proof.
  exact (init_conserva E [("rc", rc)]
           (fun name => default (default VNone (assoc name params))
                          (assoc name [("rc", rc)])) eq_refl).
Qed.

Lemma resolve_at_conserva (E : Env) (res : string) (info : value) (self : meta) (idx : nat) :
  conserva (en_sistema (VStr "EPSG:4326")) (MetaParcela.resolve_at E res info self idx).
Proof.
  unfold MetaParcela.resolve_at. apply conserva_lift_bind. intros rc.
  apply conserva_bind; [apply init_por_codigo_conserva|]. intros p. apply conserva_lift.
Qed.
#[export] Hint Resolve resolve_at_conserva init_por_codigo_conserva : conserva.

Lemma metaparcela_init_conserva (E : Env) (kwargs : list (string * value)) :
  conserva (en_sistema (VStr "EPSG:4326")) (MetaParcela.init E kwargs).
Proof.
  unfold MetaParcela.init. apply conserva_lift_bind. intros a. cbv zeta.
  apply conserva_if; [|apply conserva_if; [|apply conserva_if; [|conserva_step]]].
  - unfold MetaParcela.create_from_rc. repeat conserva_step.
  - unfold MetaParcela.create_from_parcel. repeat conserva_step.
    apply conserva_foldM. intros. apply resolve_at_conserva.
  - unfold MetaParcela.create_from_address. apply conserva_bind; [by apply conserva_calle|].
    intros ic. repeat conserva_step.
    apply conserva_foldM. intros. apply resolve_at_conserva.
Qed.

(** C10, as the code has it.  [ParcelaCatastral] takes an optional
    [projection], [EPSG:4326] when it is not passed, and when the reference
    system is not one of [listar_sistemas_referencia()] the construction
    raises the [ValueError] of the unsupported system with the request log
    untouched: no lookup was made.  [MetaParcela] has no such parameter: a
    call that passes [projection] is a [TypeError], and every geometry that
    the construction of a collection asks for is asked in [EPSG:4326]. *)
Theorem sistema_de_referencia (E : Env) (kwargs : list (string * value))
    (log : list Request) :
  (forall a, bind_kwargs ParcelaCatastral.params kwargs = OK a ->
     (assoc "projection" kwargs = None -> a "projection" = VStr "EPSG:4326") /\
     (sistema_soportado E (a "projection") = false ->
      ParcelaCatastral.init E kwargs log
      = (Raise (ValueError (msg_sistema E (a "projection"))), log))) /\
  (forall v, ("projection", v) ∈ kwargs ->
     MetaParcela.init E kwargs log = (Raise TypeError, log)) /\
  (forall rc srs,
     GetParcel rc srs ∈ (MetaParcela.init E kwargs []).2 -> srs = VStr "EPSG:4326").
Proof.
  split; [|split].
  - intros a Ha. split.
    + intros Hn. apply bind_kwargs_OK in Ha as ->. by rewrite Hn.
    + intros Hs. unfold init. by rewrite run_lift, Ha, Hs.
  - intros v Hin. unfold MetaParcela.init.
    rewrite run_lift, (bind_kwargs_desconocido _ _ "projection" v Hin); [done|].
    unfold MetaParcela.params. cbn. set_solver.
  - intros rc srs Hin.
    pose proof (metaparcela_init_conserva E kwargs [] (Forall_nil_2 _)) as Hall.
    rewrite Forall_forall in Hall. by apply Hall in Hin.
Qed.

Lemma sistema_de_referencia_witness :
  ParcelaCatastral.init Ejemplos.E_urbana [("rc", VStr "A"); ("projection", VStr "EPSG:0")] []
  = (Raise (ValueError (msg_sistema Ejemplos.E_urbana (VStr "EPSG:0"))), []).
Proof.
  refine (proj2 (proj1 (sistema_de_referencia Ejemplos.E_urbana
                          [("rc", VStr "A"); ("projection", VStr "EPSG:0")] [])
                   (fun name => default (default VNone (assoc name params))
                                  (assoc name [("rc", VStr "A"); ("projection", VStr "EPSG:0")]))
                   _) _); reflexivity.
Defined.

(** [MetaParcela] called with a reference system that is not supported
    raises [TypeError], not the [ValueError] of the unsupported system. *)
Lemma metaparcela_sin_projection :
  sistema_soportado Ejemplos.E_varias (VStr "EPSG:0") = false /\
  MetaParcela.init Ejemplos.E_varias [("rc", VStr "U"); ("projection", VStr "EPSG:0")] []
  = (Raise TypeError, []) /\
  (Raise TypeError : result meta)
  <> Raise (ValueError (msg_sistema Ejemplos.E_varias (VStr "EPSG:0"))).
Proof. split; [reflexivity|]. split; [reflexivity|]. discriminate. Qed.

(** ** The ambiguity counter *)

Lemma control_cudnp_ausente (res : string) (info : value) (r : list (string * value))
    (c : list (string * value)) :
  py_get res info = OK (VDict r) ->
  assoc "control" r = Some (VDict c) ->
  assoc "cudnp" c = None ->
  control_cudnp res info = OK (VInt 1).
Proof.
  unfold control_cudnp, py_get, py_get_default.
  destruct info; try discriminate. intros Hr Hc Hn.
  destruct (assoc res d) as [x|]; simpl in *; [|discriminate].
  injection Hr as ->. simpl. rewrite Hc. simpl. by rewrite Hn.
Qed.

(** The address lookup on an answer that passes the checks: the name
    [req1] is read before the counter. *)
Lemma create_from_address_pasa (E : Env)
    (provincia municipio tipo_via calle numero projection : value) (self : obj)
    (log : list Request) (ic : CalleInfo) (info cudnp : value) :
  let req := Consulta_DNPLOC (calle_provincia ic) (calle_municipio ic)
               (calle_tipo_via ic) (calle_calle ic) numero in
  Calle E provincia municipio tipo_via calle = OK ic ->
  calle_bool ic = true ->
  status_code (http E req) = 200%Z ->
  pasa E (http E req) "consulta_dnplocResult" info cudnp ->
  create_from_address E provincia municipio tipo_via calle numero projection self log
  = (Raise (NameError "req1"),
     (log ++ [ConsultaCalle provincia municipio tipo_via calle] ++ [req])%list).
Proof.
  intros req Hcalle Hb Hst (Hc & Hj & He & Hn). unfold create_from_address.
  rewrite run_bind. unfold calle_new. rewrite Hcalle, Hb.
  rewrite run_get. fold req. rewrite run_lift, Hst, content_nonempty by done.
  cbn [andb Z.eqb Pos.eqb]. unfold response_json. rewrite Hj. cbn [mbind result_bind].
  rewrite He. cbn [mbind result_bind truthy].
  rewrite run_lift. cbn. by rewrite <- app_assoc.
Qed.

(** C1, on the code.  In the lookup by code and in the lookup by polygon,
    when the answer passes the error check, a counter above one raises the
    error of the several references and nothing is resolved, and a counter
    that is not above one continues with the single match; a [control]
    block without [cudnp] counts as one.  In the lookup by address, an
    answer that passes the error check with a counter above one raises
    [NameError] for the name [req1]: the counter is not read, and the error
    of the several references is not raised. *)
Theorem varias_referencias (E : Env) (projection : value) (self : obj)
    (log : list Request) :
  (forall rc info cudnp varias,
     pasa E (http E (Consulta_DNPRC rc)) "consulta_dnprcResult" info cudnp ->
     py_gt_one cudnp = OK varias ->
     create_from_rc E rc projection self log =
     if varias
     then (Raise (ErrorServidorCatastro msg_varias), (log ++ [Consulta_DNPRC rc])%list)
     else fill_from_record E info projection self (log ++ [Consulta_DNPRC rc])%list) /\
  (forall provincia municipio poligono parcela info cudnp varias,
     let req := Consulta_DNPPP provincia municipio poligono parcela in
     pasa E (http E req) "consulta_dnpppResult" info cudnp ->
     py_gt_one cudnp = OK varias ->
     create_from_parcel E provincia municipio poligono parcela projection self log =
     if varias
     then (Raise (ErrorServidorCatastro msg_varias), (log ++ [req])%list)
     else
       (rcd ← lift (get_path ["consulta_dnpppResult"; "bico"; "bi"; "idbi"; "rc"] info);
        rc ← lift (join_values rcd);
        create_from_rc E (VStr rc) projection (<["rc" := VStr rc]> self))
         (log ++ [req])%list) /\
  (forall provincia municipio tipo_via calle numero ic info cudnp,
     let req := Consulta_DNPLOC (calle_provincia ic) (calle_municipio ic)
                  (calle_tipo_via ic) (calle_calle ic) numero in
     Calle E provincia municipio tipo_via calle = OK ic ->
     calle_bool ic = true ->
     status_code (http E req) = 200%Z ->
     pasa E (http E req) "consulta_dnplocResult" info cudnp ->
     py_gt_one cudnp = OK true ->
     create_from_address E provincia municipio tipo_via calle numero projection self log
     = (Raise (NameError "req1"),
        (log ++ [ConsultaCalle provincia municipio tipo_via calle] ++ [req])%list) /\
     NameError "req1" <> ErrorServidorCatastro msg_varias) /\
  (forall res info r c,
     py_get res info = OK (VDict r) ->
     assoc "control" r = Some (VDict c) ->
     assoc "cudnp" c = None ->
     control_cudnp res info = OK (VInt 1) /\ py_gt_one (VInt 1) = OK false).
Proof.
  split; [|split; [|split]].
  - intros. by apply create_from_rc_pasa with (cudnp := cudnp).
  - intros. by apply create_from_parcel_pasa with (cudnp := cudnp).
  - intros provincia municipio tipo_via calle numero ic info cudnp req Hcalle Hb Hst Hp _.
    split; [|discriminate]. by eapply create_from_address_pasa.
  - intros. split; [by eapply control_cudnp_ausente | done].
Qed.

Lemma varias_referencias_witness :
  control_cudnp "consulta_dnplocResult"
    (Ejemplos.varias "consulta_dnplocResult" [("A", ""); ("B", "")]) = OK (VInt 2) /\
  py_gt_one (VInt 2) = OK true /\
  ParcelaCatastral.create_from_address Ejemplos2.E_direccion_varias
    (VStr "MADRID") (VStr "MADRID") (VStr "CL") (VStr "MAYOR") (VStr "1")
    (VStr "EPSG:4326") ∅ []
  = (Raise (NameError "req1"),
     ([] ++ [ConsultaCalle (VStr "MADRID") (VStr "MADRID") (VStr "CL") (VStr "MAYOR")]
         ++ [Consulta_DNPLOC (VStr "MADRID") (VStr "MADRID") (VStr "CL") (VStr "MAYOR")
               (VStr "1")])%list) /\
  NameError "req1" <> ErrorServidorCatastro msg_varias.
Proof.
  split; [reflexivity|]. split; [reflexivity|].
  refine (proj1 (proj2 (proj2 (varias_referencias Ejemplos2.E_direccion_varias
                                 (VStr "EPSG:4326") ∅ [])))
            (VStr "MADRID") (VStr "MADRID") (VStr "CL") (VStr "MAYOR") (VStr "1")
            (mkCalle true (VStr "MADRID") (VStr "MADRID") (VStr "CL") (VStr "MAYOR"))
            (Ejemplos.varias "consulta_dnplocResult" [("A", ""); ("B", "")]) (VInt 2)
            _ _ _ _ _).
  - reflexivity.
  - reflexivity.
  - reflexivity.
  - repeat split; [discriminate | reflexivity..].
  - reflexivity.
Defined.

(** The answer carries an error list and a counter of two: the lookup
    raises the error of the service, not the error of the several
    references. *)
Lemma error_antes_que_varias :
  control_cudnp "consulta_dnprcResult" Ejemplos.error_y_varias = OK (VInt 2) /\
  py_gt_one (VInt 2) = OK true /\
  ParcelaCatastral.init Ejemplos.E_error [("rc", VStr "Z")] []
  = (Raise (ErrorServidorCatastro "NO EXISTE"), [Consulta_DNPRC (VStr "Z")]) /\
  ErrorServidorCatastro "NO EXISTE" <> ErrorServidorCatastro msg_varias.
Proof. repeat (split; [reflexivity|]). discriminate. Qed.

(** ** Atomicity *)

(** The answer decodes to an envelope with no top-level value: the method
    returns, and the instance is as it was. *)
Lemma create_from_rc_sin_valores (E : Env) (rc projection : value) (self : obj)
    (log : list Request) :
  content (http E (Consulta_DNPRC rc)) <> "" ->
  json_loads E (content (http E (Consulta_DNPRC rc))) = Some (VDict []) ->
  create_from_rc E rc projection self log = (OK self, (log ++ [Consulta_DNPRC rc])%list).
Proof.
  intros Hc Hj. unfold create_from_rc.
  rewrite run_get, content_nonempty by done.
  unfold loads, response_json. rewrite Hj. reflexivity.
Qed.

(** C3, at the answer [{}].  The classifier returns [None], the methods
    have no branch for it, and both constructors return: the parcel has no
    attribute but the code it was given, and the collection has no list of
    parcels. *)
Theorem construccion_a_medias :
  ParcelaCatastral.init Ejemplos.E_sin_valores [("rc", VStr "X")] []
  = (OK {["rc" := VStr "X"]}, [Consulta_DNPRC (VStr "X")]) /\
  MetaParcela.init Ejemplos.E_sin_valores [("rc", VStr "X")] []
  = (OK (mkMeta {["rc" := VStr "X"]} None), [Consulta_DNPRC (VStr "X")]).
Proof. split; vm_compute; reflexivity. Qed.

(** ** The address strategy *)

(** C9, on the code.  When the street exists and the answer of the address
    lookup passes the error check, [__create_from_address] reads the name
    [req1], which it never binds: it raises [NameError] after the two
    requests of the address, whatever the counter and the shape of the
    answer, and no lookup by code follows. *)
Theorem create_from_address_req1 (E : Env)
    (provincia municipio tipo_via calle numero projection : value) (self : obj)
    (log : list Request) (ic : CalleInfo) (info cudnp : value) :
  let req := Consulta_DNPLOC (calle_provincia ic) (calle_municipio ic)
               (calle_tipo_via ic) (calle_calle ic) numero in
  Calle E provincia municipio tipo_via calle = OK ic ->
  calle_bool ic = true ->
  status_code (http E req) = 200%Z ->
  pasa E (http E req) "consulta_dnplocResult" info cudnp ->
  create_from_address E provincia municipio tipo_via calle numero projection self log
  = (Raise (NameError "req1"),
     (log ++ [ConsultaCalle provincia municipio tipo_via calle] ++ [req])%list).
Proof.
  intros req Hcalle Hb Hst (Hc & Hj & He & Hn). unfold create_from_address.
  rewrite run_bind. unfold calle_new. rewrite Hcalle, Hb.
  rewrite run_get. fold req. rewrite run_lift, Hst, content_nonempty by done.
  cbn [andb Z.eqb Pos.eqb]. unfold response_json. rewrite Hj. cbn [mbind result_bind].
  rewrite He. cbn [mbind result_bind truthy].
  rewrite run_lift. cbn. by rewrite <- app_assoc.
Qed.

Lemma create_from_address_req1_witness :
  ParcelaCatastral.init Ejemplos.E_direccion Ejemplos.kw_direccion []
  = (Raise (NameError "req1"),
     [ConsultaCalle (VStr "MADRID") (VStr "MADRID") (VStr "CL") (VStr "MAYOR");
      Consulta_DNPLOC (VStr "MADRID") (VStr "MADRID") (VStr "CL") (VStr "MAYOR") (VStr "1")]).
Proof.
  refine (create_from_address_req1 Ejemplos.E_direccion
            (VStr "MADRID") (VStr "MADRID") (VStr "CL") (VStr "MAYOR") (VStr "1")
            (VStr "EPSG:4326") _ []
            (mkCalle true (VStr "MADRID") (VStr "MADRID") (VStr "CL") (VStr "MAYOR"))
            (Ejemplos.unica_dnploc "A" "") (VInt 1) _ _ _ _).
  - reflexivity.
  - reflexivity.
  - reflexivity.
  - repeat split; [discriminate | reflexivity..].
Defined.

(** ** Collections *)

(** The lookup by code of [MetaParcela] appends once, after its loop. *)
Lemma metaparcela_create_from_rc_inv (E : Env) (rc : value) (self m : meta)
    (log log' : list Request) :
  MetaParcela.create_from_rc E rc self log = (OK m, log') ->
  m = self \/ exists p, parcelas m = Some [p].
Proof.
  unfold MetaParcela.create_from_rc. rewrite run_get. intros H.
  destruct (negb _); [|discriminate].
  do 2 step H. destruct (truthy r0); [|injection H as <- _; by left].
  do 3 step H. step H. unfold lift, MetaParcela.append in H.
  cbn [parcelas] in H. injection H as <- _. right. eauto.
Qed.

(** The loop of the other two lookups appends one parcel per index, in the
    order of the indices, each resolved from the code at that index. *)
Lemma resolve_at_fold (E : Env) (res : string) (info : value) (idxs : list nat)
    (self m : meta) (ps : list obj) (log log' : list Request) :
  parcelas self = Some ps ->
  foldM (MetaParcela.resolve_at E res info) self idxs log = (OK m, log') ->
  exists qs,
    parcelas m = Some (ps ++ qs)%list /\
    Forall2 (fun idx q => exists rc l l',
               MetaParcela.rc_at res info idx = OK rc /\
               ParcelaCatastral.init E [("rc", VStr rc)] l = (OK q, l')) idxs qs.
Proof.
  revert self ps log. induction idxs as [|idx idxs IH]; intros self ps log Hps H.
  - injection H as <- _. exists []. rewrite app_nil_r. split; [done | constructor].
  - cbn [foldM] in H. step H. unfold MetaParcela.resolve_at in Hrun.
    step Hrun. step Hrun.
    unfold lift, MetaParcela.append in Hrun. rewrite Hps in Hrun. injection Hrun as <- <-.
    eapply IH in H as (qs & Hqs & Hall); [|reflexivity].
    exists (a0 :: qs). rewrite <- app_assoc in Hqs. split; [done|].
    constructor; [eauto|done].
Qed.

Lemma metaparcela_create_from_parcel_inv (E : Env)
    (provincia municipio poligono parcela : value) (self m : meta)
    (log log' : list Request) :
  MetaParcela.create_from_parcel E provincia municipio poligono parcela self log = (OK m, log') ->
  m = self \/
  exists info num idxs qs,
    control_cudnp "consulta_dnpppResult" info = OK num /\
    py_range num = OK idxs /\
    parcelas m = Some qs /\
    Forall2 (fun idx q => exists rc l l',
               MetaParcela.rc_at "consulta_dnpppResult" info idx = OK rc /\
               ParcelaCatastral.init E [("rc", VStr rc)] l = (OK q, l')) idxs qs.
Proof.
  unfold MetaParcela.create_from_parcel. rewrite run_get. intros H.
  destruct (negb _); [|discriminate].
  do 2 step H. destruct (truthy r0); [|injection H as <- _; by left].
  do 2 step H. eapply resolve_at_fold in H as (qs & Hqs & Hall); [|reflexivity].
  right. exists r, r1, r2, qs. done.
Qed.

Lemma metaparcela_create_from_address_inv (E : Env)
    (provincia municipio tipo_via calle numero : value) (self m : meta)
    (log log' : list Request) :
  MetaParcela.create_from_address E provincia municipio tipo_via calle numero self log
  = (OK m, log') ->
  exists info num idxs qs,
    control_cudnp "consulta_dnplocResult" info = OK num /\
    py_range num = OK idxs /\
    parcelas m = Some qs /\
    Forall2 (fun idx q => exists rc l l',
               MetaParcela.rc_at "consulta_dnplocResult" info idx = OK rc /\
               ParcelaCatastral.init E [("rc", VStr rc)] l = (OK q, l')) idxs qs.
Proof.
  unfold MetaParcela.create_from_address. intros H.
  apply run_bind_inv in H as (info_calle & l & _ & H).
  destruct (calle_bool info_calle); [|discriminate].
  rewrite run_get in H. step H. destruct r; [|discriminate].
  do 3 step H. eapply resolve_at_fold in H as (qs & Hqs & Hall); [|reflexivity].
  exists r, r0, r1, qs. done.
Qed.

(** With a counter [n], the two lookups that append inside their loop give
    [n] parcels. *)
Lemma metaparcela_cardinal (E : Env) (res : string) (info : value) (n : Z)
    (idxs : list nat) (qs : list obj) :
  py_range (VInt n) = OK idxs ->
  Forall2 (fun idx q => exists rc l l',
             MetaParcela.rc_at res info idx = OK rc /\
             ParcelaCatastral.init E [("rc", VStr rc)] l = (OK q, l')) idxs qs ->
  length qs = Z.to_nat n.
Proof.
  intros [= <-] Hall. apply Forall2_length in Hall. by rewrite length_seq in Hall.
Qed.

(** C2, at an umbrella code with two parcels.  The counter of the answer
    is two, and the collection holds one parcel, that of the last code. *)
Theorem metaparcela_rc_una_sola :
  pasa Ejemplos.E_varias (http Ejemplos.E_varias (Consulta_DNPRC (VStr "U")))
    "consulta_dnprcResult"
    (Ejemplos.varias "consulta_dnprcResult" [("A", ""); ("B", "")]) (VInt 2) /\
  (MetaParcela.init Ejemplos.E_varias [("rc", VStr "U")] []).1 = OK Ejemplos.m_varias /\
  parcelas Ejemplos.m_varias = Some [Ejemplos.p_B] /\
  Ejemplos.p_B !! "rc" = Some (VStr "B").
Proof.
  split; [repeat split; [discriminate | reflexivity..]|].
  repeat split; vm_compute; reflexivity.
Qed.

(** * Further properties of the code *)

(** ** The requests of a lookup *)

Lemma create_geometry_log (E : Env) (projection : value) (self s : obj)
    (log log' : list Request) :
  create_geometry E projection self log = (OK s, log') ->
  exists rc, self !! "rc" = Some rc /\ log' = (log ++ [GetParcel rc projection])%list.
Proof.
  unfold create_geometry. intros H. step H. apply getattr_OK in Heqr.
  repeat step H. injection H as _ <-. eauto.
Qed.

Lemma fill_from_record_log (E : Env) (info_cadastre projection : value) (self p : obj)
    (log log' : list Request) :
  fill_from_record E info_cadastre projection self log = (OK p, log') ->
  exists rc,
    p !! "rc" = Some (VStr rc) /\
    log' = (log ++ [CroquisDatos (VStr rc); GetParcel (VStr rc) projection])%list.
Proof.
  intros H. pose proof H as Hinv.
  apply fill_from_record_inv in Hinv
    as (rcd & rc & nm & np & cn & G & rs & c & g & st & xs & Hrcd & Hjoin & _ & HG & _ & ->).
  exists rc. split; [by apply ensamblar_rc|].
  unfold fill_from_record in H. rewrite run_lift, Hrcd, run_lift, Hjoin in H.
  do 4 step H. rewrite getattr_insert_eq in H. rewrite run_lift in H. step H.
  assert (l = (log ++ [CroquisDatos (VStr rc)])%list /\ a !! "rc" = Some (VStr rc))
    as [-> Hrc].
  { destruct (is_str "Urbano" _).
    - repeat step Hrun. injection Hrun as <- <-. split; [done|]. by simplify_map_eq.
    - destruct (is_str "Rústico" _).
      + repeat step Hrun. injection Hrun as <- <-. split; [done|]. by simplify_map_eq.
      + injection Hrun as <- <-. split; [done|]. by simplify_map_eq. }
  clear Hrun. step H.
  match goal with
  | Hr : create_regions _ _ = OK _ |- _ => apply create_regions_inv in Hr as [rs' ->]
  end.
  step H. apply create_geometry_log in Hrun as (rc0 & Hrc0 & ->).
  rewrite lookup_insert_ne in Hrc0 by done. rewrite Hrc in Hrc0. injection Hrc0 as <-.
  repeat step H. injection H as _ <-. by rewrite <- app_assoc.
Qed.

(** X1. A lookup by cadastral code that returns a resolved parcel makes exactly
    three requests, in this order: the record of the code that was passed,
    the sketch of the canonical identifier re-derived from the record, and the
    geometry of that identifier in the requested reference system. *)
Theorem consultas_por_codigo (E : Env) (kwargs : list (string * value))
    (a : string -> value) (log log' : list Request) (p : obj) :
  bind_kwargs params kwargs = OK a ->
  truthy (a "rc") = true ->
  init E kwargs log = (OK p, log') ->
  is_Some (p !! "tipo") ->
  exists rc,
    p !! "rc" = Some (VStr rc) /\
    log' = (log ++ [Consulta_DNPRC (a "rc"); CroquisDatos (VStr rc);
                    GetParcel (VStr rc) (a "projection")])%list.
Proof.
  intros Ha Hrc H Ht.
  pose proof (init_soportado E kwargs a log log' p Ha H) as Hs.
  rewrite (init_rc E kwargs a log Ha Hs Hrc) in H.
  apply create_from_rc_inv in H as [(-> & _)|(info & cudnp & _ & _ & Hfill)].
  { by destruct Ht as [? [=]]. }
  apply fill_from_record_log in Hfill as (rc & Hp & ->).
  exists rc. split; [done|]. by rewrite <- app_assoc.
Qed.

Lemma consultas_por_codigo_witness :
  exists rc,
    Ejemplos.p_urbana !! "rc" = Some (VStr rc) /\
    [Consulta_DNPRC (VStr "A"); CroquisDatos (VStr "A"); GetParcel (VStr "A") (VStr "EPSG:4326")]
    = ([] ++ [Consulta_DNPRC (Ejemplos.a_rc (VStr "A") "rc"); CroquisDatos (VStr rc);
              GetParcel (VStr rc) (Ejemplos.a_rc (VStr "A") "projection")])%list.
Proof.
  refine (consultas_por_codigo Ejemplos.E_urbana [("rc", VStr "A")] (Ejemplos.a_rc (VStr "A"))
            [] _ Ejemplos.p_urbana _ _ _ _).
  - reflexivity.
  - reflexivity.
  - vm_compute. reflexivity.
  - vm_compute. eexists. reflexivity.
Defined.

(** ** The number of requests *)

Section at_most.
Context {A B : Type}.

Lemma at_most_ret (n : nat) (a : A) : at_most n (mret a : M A).
Proof. intros log. cbn. lia. Qed.

Lemma at_most_lift (n : nat) (r : result A) : at_most n (lift r).
Proof. intros log. cbn. lia. Qed.

Lemma at_most_raise (n : nat) (e : exn) : at_most n (raise e : M A).
Proof. intros log. cbn. lia. Qed.

Lemma at_most_bind (n k : nat) (m : M A) (f : A -> M B) :
  at_most n m -> (forall a, at_most k (f a)) -> at_most (n + k) (m ≫= f).
Proof.
  intros Hm Hf log. rewrite run_bind. specialize (Hm log).
  destruct (m log) as [[a|e] l1]; cbn [snd] in *; [|lia].
  specialize (Hf a l1). lia.
Qed.

Lemma at_most_lift_bind (k : nat) (r : result A) (f : A -> M B) :
  (forall a, r = OK a -> at_most k (f a)) -> at_most k (lift r ≫= f).
Proof.
  intros Hf log. rewrite run_lift. destruct r as [a|e]; [by apply Hf|]. cbn. lia.
Qed.

Lemma at_most_if (k : nat) (b : bool) (m1 m2 : M A) :
  at_most k m1 -> at_most k m2 -> at_most k (if b then m1 else m2).
Proof. by destruct b. Qed.

Lemma at_most_le (n k : nat) (m : M A) : (n <= k)%nat -> at_most n m -> at_most k m.
Proof. intros Hle Hm log. specialize (Hm log). lia. Qed.
End at_most.

Lemma at_most_get_bind {B : Type} (k : nat) (E : Env) (r : Request) (f : Response -> M B) :
  (forall resp, at_most k (f resp)) -> at_most (S k) (requests_get E r ≫= f).
Proof.
  intros Hf log. rewrite run_get. specialize (Hf (http E r) (log ++ [r])%list).
  rewrite length_app in Hf. cbn in Hf. lia.
Qed.

Lemma at_most_calle (E : Env) (p m t c : value) : at_most 1 (calle_new E p m t c).
Proof. intros log. cbn. rewrite length_app. cbn. lia. Qed.

Create HintDb at_most.

Ltac at_most_step :=
  cbv zeta;
  first
    [ solve [auto with at_most]
    | apply at_most_ret
    | apply at_most_raise
    | apply at_most_lift
    | apply at_most_lift_bind; intros ? ?
    | apply at_most_get_bind; intros ?
    | apply at_most_if ].

Lemma create_geometry_at_most (E : Env) (projection : value) (self : obj) :
  at_most 1 (create_geometry E projection self).
Proof. unfold create_geometry. repeat at_most_step. Qed.

#[export] Hint Resolve create_geometry_at_most : at_most.

Lemma fill_from_record_at_most (E : Env) (info_cadastre projection : value) (self : obj) :
  at_most 2 (fill_from_record E info_cadastre projection self).
Proof.
  unfold fill_from_record. repeat at_most_step.
  apply (at_most_bind 0 1); [repeat at_most_step|]. intros self'.
  at_most_step. apply (at_most_bind 1 0); [apply create_geometry_at_most|].
  intros self''. repeat at_most_step.
Qed.

#[export] Hint Extern 1 (at_most _ (fill_from_record _ _ _ _)) =>
  (eapply at_most_le; [|apply fill_from_record_at_most]; lia) : at_most.

Lemma create_from_rc_at_most (E : Env) (rc projection : value) (self : obj) :
  at_most 3 (create_from_rc E rc projection self).
Proof.
  unfold create_from_rc. repeat at_most_step.
Qed.

#[export] Hint Extern 1 (at_most _ (create_from_rc _ _ _ _)) =>
  (eapply at_most_le; [|apply create_from_rc_at_most]; lia) : at_most.

Lemma create_from_parcel_at_most (E : Env) (pr mu po pa projection : value) (self : obj) :
  at_most 4 (create_from_parcel E pr mu po pa projection self).
Proof.
  unfold create_from_parcel. repeat at_most_step.
Qed.

Lemma create_from_address_at_most (E : Env) (pr mu tv ca nu projection : value) (self : obj) :
  at_most 2 (create_from_address E pr mu tv ca nu projection self).
Proof.
  unfold create_from_address.
  apply (at_most_bind 1 1); [apply at_most_calle|]. intros ic.
  at_most_step; [|at_most_step]. do 2 at_most_step.
  apply at_most_if; [at_most_step; discriminate | repeat at_most_step].
Qed.

#[export] Hint Extern 1 (at_most _ (create_from_parcel _ _ _ _ _ _ _)) =>
  (eapply at_most_le; [|apply create_from_parcel_at_most]; lia) : at_most.
#[export] Hint Extern 1 (at_most _ (create_from_address _ _ _ _ _ _ _ _)) =>
  (eapply at_most_le; [|apply create_from_address_at_most]; lia) : at_most.

(** X2. Whatever its arguments and whatever the service answers, one call of the
    constructor of [ParcelaCatastral] makes at most four calls to the outside
    (its requests, and the construction of [Calle] counted as one), whether it
    returns or raises. *)
Theorem a_lo_sumo_cuatro_consultas (E : Env) (kwargs : list (string * value))
    (log : list Request) :
  (length (init E kwargs log).2 <= length log + 4)%nat.
Proof.
  revert log. change (at_most 4 (init E kwargs)). unfold init.
  repeat at_most_step.
Qed.

(** ** Validation of the input *)

Lemma get_bind_snd {B : Type} (E : Env) (r : Request) (f : Response -> M B)
    (log : list Request) :
  appends (f (http E r)) ->
  ((requests_get E r ≫= f) log).2 = (log ++ r :: (f (http E r) []).2)%list.
Proof.
  intros Hf. rewrite run_get, (Hf (log ++ [r])%list). cbn [snd].
  by rewrite <- app_assoc.
Qed.

Lemma create_from_rc_primera (E : Env) (rc projection : value) (self : obj)
    (log : list Request) :
  exists rest,
    (create_from_rc E rc projection self log).2 = (log ++ Consulta_DNPRC rc :: rest)%list.
Proof.
  unfold create_from_rc. eexists. apply get_bind_snd. repeat appends_step.
Qed.

Lemma create_from_parcel_primera (E : Env) (pr mu po pa projection : value) (self : obj)
    (log : list Request) :
  exists rest,
    (create_from_parcel E pr mu po pa projection self log).2
    = (log ++ Consulta_DNPPP pr mu po pa :: rest)%list.
Proof.
  unfold create_from_parcel. eexists. apply get_bind_snd. repeat appends_step.
Qed.

Lemma create_from_address_primera (E : Env) (pr mu tv ca nu projection : value) (self : obj)
    (log : list Request) :
  exists rest,
    (create_from_address E pr mu tv ca nu projection self log).2
    = (log ++ ConsultaCalle pr mu tv ca :: rest)%list.
Proof.
  unfold create_from_address. rewrite run_bind. unfold calle_new.
  destruct (Calle E pr mu tv ca) as [ic|e]; [|cbn; eauto].
  match goal with
  | |- exists rest, (?m ?l).2 = _ =>
      assert (Hk : appends m) by (repeat appends_step); rewrite (Hk l)
  end.
  cbn [snd]. rewrite <- app_assoc. cbn [app]. eauto.
Qed.

Lemma app_cons_neq {A : Type} (l rest : list A) (x : A) : (l ++ x :: rest)%list <> l.
Proof.
  intros H. apply (f_equal length) in H. rewrite length_app in H. cbn in H. lia.
Qed.

(** X3. When the reference system is supported and neither a code, nor a
    complete polygon group, nor a complete address group is given, the
    constructor raises ValueError and makes no request; and the constructor
    makes no request exactly when the call is rejected for its arguments: an
    unknown keyword, an unsupported reference system or such insufficient
    input. *)
Theorem sin_consulta_sii_entrada_rechazada (E : Env) (kwargs : list (string * value))
    (log : list Request) :
  (forall a, bind_kwargs params kwargs = OK a ->
     sistema_soportado E (a "projection") = true ->
     entrada_insuficiente a ->
     init E kwargs log = (Raise (ValueError msg_insuficiente), log)) /\
  ((init E kwargs log).2 = log <->
   bind_kwargs params kwargs = Raise TypeError \/
   exists a, bind_kwargs params kwargs = OK a /\
             (sistema_soportado E (a "projection") = false \/ entrada_insuficiente a)).
Proof.
  assert (Hins : forall a, bind_kwargs params kwargs = OK a ->
            sistema_soportado E (a "projection") = true ->
            entrada_insuficiente a ->
            init E kwargs log = (Raise (ValueError msg_insuficiente), log)).
  { intros a Ha Hs (H1 & H2 & H3). unfold init.
    rewrite run_lift, Ha, Hs. cbn [negb]. by rewrite H1, H2, H3. }
  split; [exact Hins|]. split.
  - intros H. unfold init in H. rewrite run_lift in H.
    destruct (bind_kwargs params kwargs) as [a|e] eqn:Ha.
    + right. exists a. split; [done|].
      destruct (sistema_soportado E (a "projection")) eqn:Hs; [|by left].
      right. cbn [negb] in H. unfold entrada_insuficiente.
      destruct (truthy (a "rc")).
      { destruct (create_from_rc_primera E (a "rc") (a "projection")
                    (<["rc" := a "rc"]> ∅) log) as [rest Hr].
        rewrite Hr in H. by apply app_cons_neq in H. }
      destruct (_ && truthy (a "parcela")).
      { match type of H with
        | (create_from_parcel ?E ?p ?m ?po ?pa ?pr ?s ?l).2 = _ =>
            destruct (create_from_parcel_primera E p m po pa pr s l) as [rest Hr]
        end.
        rewrite Hr in H. by apply app_cons_neq in H. }
      destruct (_ && truthy (a "numero")); [|done].
      match type of H with
      | (create_from_address ?E ?p ?m ?tv ?ca ?nu ?pr ?s ?l).2 = _ =>
          destruct (create_from_address_primera E p m tv ca nu pr s l) as [rest Hr]
      end.
      rewrite Hr in H. by apply app_cons_neq in H.
    + left. unfold bind_kwargs in *. by destruct (forallb _ kwargs).
  - intros [Hk|(a & Ha & [Hs|Hi])].
    + unfold init. by rewrite run_lift, Hk.
    + unfold init. by rewrite run_lift, Ha, Hs.
    + destruct (sistema_soportado E (a "projection")) eqn:Hs.
      * by rewrite (Hins a Ha Hs Hi).
      * unfold init. by rewrite run_lift, Ha, Hs.
Qed.

(** X4. The strategies are tried in a fixed order, and the arguments of the
    later ones are ignored: two calls with the same reference system and the
    same non-empty code behave alike whatever else they pass, and two calls
    without code and with the same complete polygon group behave alike whatever
    address arguments they pass. *)
Theorem prioridad_de_las_estrategias (E : Env) (kwargs kwargs' : list (string * value))
    (a a' : string -> value) (log : list Request) :
  bind_kwargs params kwargs = OK a ->
  bind_kwargs params kwargs' = OK a' ->
  a "projection" = a' "projection" ->
  (a "rc" = a' "rc" -> truthy (a "rc") = true ->
   init E kwargs log = init E kwargs' log) /\
  (truthy (a "rc") = false -> truthy (a' "rc") = false ->
   a "provincia" = a' "provincia" -> a "municipio" = a' "municipio" ->
   a "poligono" = a' "poligono" -> a "parcela" = a' "parcela" ->
   truthy (a "provincia") && truthy (a "municipio")
     && truthy (a "poligono") && truthy (a "parcela") = true ->
   init E kwargs log = init E kwargs' log).
Proof.
  intros Ha Ha' Hpr. split.
  - intros Hrc Ht. unfold init. rewrite !run_lift, Ha, Ha', <- Hpr, <- Hrc, Ht.
    reflexivity.
  - intros Ht Ht' H1 H2 H3 H4 Hg. unfold init.
    rewrite !run_lift, Ha, Ha', <- Hpr, Ht, Ht', <- H1, <- H2, <- H3, <- H4, Hg.
    reflexivity.
Qed.

Lemma prioridad_de_las_estrategias_witness :
  init Ejemplos.E_urbana [("rc", VStr "A")] []
  = init Ejemplos.E_urbana Ejemplos2.kw_rc_provincia [].
Proof.
  refine (proj1 (prioridad_de_las_estrategias Ejemplos.E_urbana [("rc", VStr "A")]
                   Ejemplos2.kw_rc_provincia (Ejemplos2.a_de [("rc", VStr "A")])
                   (Ejemplos2.a_de Ejemplos2.kw_rc_provincia) [] _ _ _) _ _); reflexivity.
Defined.

(** X5. A construction that has neither a code nor a complete polygon group
    never returns an instance: whatever the address arguments and whatever the
    service answers, it raises. *)
Theorem por_direccion_nunca_devuelve (E : Env) (kwargs : list (string * value))
    (a : string -> value) (log log' : list Request) (p : obj) :
  bind_kwargs params kwargs = OK a ->
  truthy (a "rc") = false ->
  truthy (a "provincia") && truthy (a "municipio")
    && truthy (a "poligono") && truthy (a "parcela") = false ->
  init E kwargs log <> (OK p, log').
Proof.
  intros Ha Hrc Hg H. unfold init in H. rewrite run_lift, Ha in H.
  destruct (negb _); [cbv beta iota delta [raise] in H; discriminate H|].
  cbv iota in H. rewrite Hrc, Hg in H.
  destruct (_ && truthy (a "numero"));
    [|cbv beta iota delta [raise] in H; discriminate H].
  by apply create_from_address_raises in H.
Qed.

Lemma por_direccion_nunca_devuelve_witness :
  init Ejemplos.E_direccion Ejemplos.kw_direccion [] <> (OK ∅, []).
Proof.
  refine (por_direccion_nunca_devuelve Ejemplos.E_direccion Ejemplos.kw_direccion
            (Ejemplos2.a_de Ejemplos.kw_direccion) [] [] ∅ _ _ _); reflexivity.
Defined.

(** ** Bodies that do not decode *)



(** ** The house number that does not exist *)

(** X7. In the address lookup of [ParcelaCatastral], when the street exists and
    the service answers 200 with a non-empty body, the call raises after the
    street check and one request: the error is that of the decoder or of the
    error check on the body (reached through [req.json]), a TypeError, or the
    NameError of the unbound [req1]. *)
Theorem direccion_con_200 (E : Env)
    (provincia municipio tipo_via calle numero projection : value) (self : obj)
    (log : list Request) (ic : CalleInfo) :
  let req := Consulta_DNPLOC (calle_provincia ic) (calle_municipio ic)
               (calle_tipo_via ic) (calle_calle ic) numero in
  Calle E provincia municipio tipo_via calle = OK ic ->
  calle_bool ic = true ->
  status_code (http E req) = 200%Z ->
  content (http E req) <> "" ->
  exists e,
    create_from_address E provincia municipio tipo_via calle numero projection self log
    = (Raise e, (log ++ [ConsultaCalle provincia municipio tipo_via calle] ++ [req])%list) /\
    (e = NameError "req1" \/
     e = TypeError \/
     response_json E (http E req) = Raise e \/
     exists j, response_json E (http E req) = OK j /\ comprobar_errores E j = Raise e).
Proof.
  intros req Hcalle Hb Hst Hc. unfold create_from_address.
  rewrite run_bind. unfold calle_new. rewrite Hcalle, Hb.
  rewrite run_get. fold req. rewrite run_lift, Hst, content_nonempty by done.
  cbn [andb Z.eqb Pos.eqb]. rewrite <- app_assoc.
  destruct (response_json E (http E req)) as [j|e] eqn:Hj; cbn [mbind result_bind].
  2:{ exists e. split; [done|]. eauto. }
  destruct (comprobar_errores E j) as [ok|e] eqn:He; cbn [mbind result_bind].
  2:{ exists e. split; [done|]. eauto 6. }
  destruct (truthy ok) eqn:Ht.
  - exists (NameError "req1"). split; [|by left]. by rewrite run_lift.
  - apply comprobar_errores_falsy in He as ->; [|done].
    apply response_json_loads in Hj.
    exists TypeError. split; [|eauto]. rewrite !run_lift, Hj. reflexivity.
Qed.

Lemma direccion_con_200_witness :
  exists e,
    create_from_address Ejemplos.E_direccion (VStr "MADRID") (VStr "MADRID") (VStr "CL")
      (VStr "MAYOR") (VStr "1") (VStr "EPSG:4326") ∅ []
    = (Raise e,
       ([] ++ [ConsultaCalle (VStr "MADRID") (VStr "MADRID") (VStr "CL") (VStr "MAYOR")]
           ++ [Consulta_DNPLOC (VStr "MADRID") (VStr "MADRID") (VStr "CL") (VStr "MAYOR")
                 (VStr "1")])%list) /\
    (e = NameError "req1" \/ e = TypeError \/
     response_json Ejemplos.E_direccion (mkResponse 200 "DNPLOC" "") = Raise e \/
     exists j, response_json Ejemplos.E_direccion (mkResponse 200 "DNPLOC" "") = OK j
               /\ comprobar_errores Ejemplos.E_direccion j = Raise e).
Proof.
  refine (direccion_con_200 Ejemplos.E_direccion (VStr "MADRID") (VStr "MADRID") (VStr "CL")
            (VStr "MAYOR") (VStr "1") (VStr "EPSG:4326") ∅ []
            (mkCalle true (VStr "MADRID") (VStr "MADRID") (VStr "CL") (VStr "MAYOR"))
            _ _ _ _); [reflexivity..|discriminate].
Defined.

(** X8. In the address lookup, when the street exists and the service answers
    with a status other than 200 and a body whose first error has code 43, the
    call raises an Exception whose message lists the house numbers that the
    body gives for the street, in the order of the body. *)
Theorem numero_que_no_existe (E : Env)
    (provincia municipio tipo_via calle numero projection : value) (self : obj)
    (log : list Request) (ic : CalleInfo)
    (jd rd e0 : list (string * value)) (es nums pnps : list value) (nump : value) :
  let req := Consulta_DNPLOC (calle_provincia ic) (calle_municipio ic)
               (calle_tipo_via ic) (calle_calle ic) numero in
  Calle E provincia municipio tipo_via calle = OK ic ->
  calle_bool ic = true ->
  status_code (http E req) <> 200%Z ->
  json_loads E (content (http E req)) = Some (VDict jd) ->
  assoc "consulta_dnplocResult" jd = Some (VDict rd) ->
  assoc "lerr" rd = Some (VList (VDict e0 :: es)) ->
  assoc "cod" e0 = Some (VStr "43") ->
  get_path ["consulta_dnplocResult"; "numerero"; "nump"] (VDict jd) = OK nump ->
  py_iter nump = OK nums ->
  mapR (fun num => n ← py_get "num" num; py_get "pnp" n) nums = OK pnps ->
  create_from_address E provincia municipio tipo_via calle numero projection self log
  = (Raise (Exception_ (msg_numero E pnps)),
     (log ++ [ConsultaCalle provincia municipio tipo_via calle] ++ [req])%list).
Proof.
  intros req Hcalle Hb Hst Hj Hres Hlerr Hcod Hnump Hiter Hmap.
  unfold create_from_address.
  rewrite run_bind. unfold calle_new. rewrite Hcalle, Hb.
  rewrite run_get. fold req. rewrite <- app_assoc.
  apply Z.eqb_neq in Hst. rewrite run_lift, Hst. cbn [andb].
  unfold loads, response_json. rewrite Hj.
  rewrite run_lift. cbn [py_get py_get_default]. rewrite Hres.
  cbn [default from_option id].
  rewrite run_lift. cbn [py_contains].
  rewrite bool_decide_eq_true_2 by eauto using assoc_Some_elem.
  rewrite run_lift. cbn [mbind result_bind py_item]. rewrite Hres.
  cbn [mbind result_bind py_item]. rewrite Hlerr.
  cbn [mbind result_bind py_index lookup list_lookup py_item]. rewrite Hcod.
  cbn [mbind result_bind]. change (is_str "43" (VStr "43")) with true. cbv iota.
  rewrite run_lift, run_lift, Hnump, run_lift, Hiter, run_lift, Hmap. reflexivity.
Qed.

Lemma numero_que_no_existe_witness :
  create_from_address Ejemplos2.E_numero (VStr "MADRID") (VStr "MADRID") (VStr "CL")
    (VStr "MAYOR") (VStr "1") (VStr "EPSG:4326") ∅ []
  = (Raise (Exception_ (msg_numero Ejemplos2.E_numero [VStr "2"; VStr "4"])),
     ([] ++ [ConsultaCalle (VStr "MADRID") (VStr "MADRID") (VStr "CL") (VStr "MAYOR")]
         ++ [Consulta_DNPLOC (VStr "MADRID") (VStr "MADRID") (VStr "CL") (VStr "MAYOR")
               (VStr "1")])%list).
Proof.
  refine (numero_que_no_existe Ejemplos2.E_numero (VStr "MADRID") (VStr "MADRID") (VStr "CL")
            (VStr "MAYOR") (VStr "1") (VStr "EPSG:4326") ∅ []
            (mkCalle true (VStr "MADRID") (VStr "MADRID") (VStr "CL") (VStr "MAYOR"))
            Ejemplos2.numero_43 _ _ [] _ [VStr "2"; VStr "4"] _
            _ _ _ _ _ _ _ _ _ _);
    [reflexivity | reflexivity | discriminate | reflexivity..].
Defined.

(** X11. For a lookup by code that returns a resolved parcel, the variant is
    decided by the class code [cn] of the record alone: Rústico when it is RU
    and Urbano for any other value, and the instance carries the common
    attributes and those of that variant, and no others. *)
Theorem variante_por_codigo (E : Env) (kwargs : list (string * value))
    (a : string -> value) (log log' : list Request) (p : obj) :
  bind_kwargs params kwargs = OK a ->
  truthy (a "rc") = true ->
  init E kwargs log = (OK p, log') ->
  is_Some (p !! "tipo") ->
  exists info cn,
    json_loads E (content (http E (Consulta_DNPRC (a "rc")))) = Some info /\
    get_path (bi ++ ["idbi"; "cn"]) info = OK cn /\
    dom p = comunes ∪ (if is_str "RU" cn then grupo_rustico else grupo_urbano) /\
    p !! "tipo" = Some (VStr (if is_str "RU" cn then "Rústico" else "Urbano")).
Proof.
  intros Ha Hrc H Ht.
  pose proof (init_soportado E kwargs a log log' p Ha H) as Hs.
  rewrite (init_rc E kwargs a log Ha Hs Hrc) in H.
  apply create_from_rc_inv in H as [(-> & _)|(info & cudnp & Hp & _ & Hfill)].
  { by destruct Ht as [? [=]]. }
  apply fill_from_record_inv in Hfill
    as (rcd & rc' & nm & np & cn & G & rs & c & g & st & xs & _ & _ & Hcn & HG & _ & ->).
  destruct Hp as (_ & Hj & _).
  exists info, cn. split; [done|]. split; [done|]. split.
  - rewrite (ensamblar_dom E rc' _ nm np cn G rs c g st xs _ HG).
    rewrite dom_insert_L, dom_empty_L. unfold comunes. set_solver.
  - by rewrite (ensamblar_tipo E rc' _ nm np cn G rs c g st xs _ HG).
Qed.

Lemma variante_por_codigo_witness :
  exists info cn,
    json_loads Ejemplos.E_urbana (content (http Ejemplos.E_urbana (Consulta_DNPRC (VStr "A"))))
      = Some info /\
    get_path (bi ++ ["idbi"; "cn"]) info = OK cn /\
    dom Ejemplos.p_urbana = comunes ∪ (if is_str "RU" cn then grupo_rustico else grupo_urbano) /\
    Ejemplos.p_urbana !! "tipo" = Some (VStr (if is_str "RU" cn then "Rústico" else "Urbano")).
Proof.
  refine (variante_por_codigo Ejemplos.E_urbana [("rc", VStr "A")] (Ejemplos.a_rc (VStr "A"))
            [] [Consulta_DNPRC (VStr "A"); CroquisDatos (VStr "A");
                GetParcel (VStr "A") (VStr "EPSG:4326")]
            Ejemplos.p_urbana _ _ _ _).
  - reflexivity.
  - reflexivity.
  - vm_compute. reflexivity.
  - vm_compute. eexists. reflexivity.
Defined.

(** ** Loops over lists *)

Lemma mapR_Forall2 {A B : Type} (f : A -> result B) (l : list A) (ys : list B) :
  mapR f l = OK ys -> Forall2 (fun x y => f x = OK y) l ys.
Proof.
  revert ys. induction l as [|x l IH]; intros ys H; simpl in H.
  - injection H as <-. constructor.
  - apply bind_OK_inv in H as (y & Hy & H).
    apply bind_OK_inv in H as (ys' & Hys & [= <-]). constructor; auto.
Qed.

(** ** The geometry *)

Lemma ring_point_total (pg : list string) (i : nat) :
  (i < length pg / 2)%nat ->
  exists x y, pg !! (2 * i + 1)%nat = Some x /\ pg !! (2 * i)%nat = Some y /\
              ring_point pg i = OK (VDict [("x", VStr x); ("y", VStr y)]).
Proof.
  intros Hi.
  assert (Hlen : (2 * i + 1 < length pg)%nat).
  { pose proof (Nat.Div0.mul_div_le (length pg) 2). lia. }
  destruct (lookup_lt_is_Some_2 pg (2 * i + 1)) as [x Hx]; [done|].
  destruct (lookup_lt_is_Some_2 pg (2 * i)) as [y Hy]; [lia|].
  exists x, y. split; [done|]. split; [done|].
  unfold ring_point, py_index. rewrite !list_lookup_fmap, Hx, Hy. reflexivity.
Qed.

Lemma anillo_total (pg : list string) :
  exists g, mapR (ring_point pg) (seq 0 (length pg / 2)) = OK g.
Proof.
  assert (H : forall l, Forall (fun i => (i < length pg / 2)%nat) l ->
                        exists g, mapR (ring_point pg) l = OK g).
  { induction l as [|i l IH]; intros Hl; [by exists []|].
    apply Forall_cons in Hl as [Hi Hl].
    destruct (ring_point_total pg i Hi) as (x & y & _ & _ & Hr).
    destruct (IH Hl) as [g Hg]. simpl. rewrite Hr. simpl. rewrite Hg. eauto. }
  apply H. apply Forall_forall. intros i Hi. apply elem_of_seq in Hi. lia.
Qed.

(** X9. The ring of a parcel is built from the pairs of the position list: with
    an odd number of entries the last one is dropped, and no index is out of
    range. When the geometry step returns, the stored centroid has [x] equal
    to the second entry of the reference point and [y] to the first, and point
    [i] of the ring has [x] equal to entry [2i+1] and [y] to entry [2i]. *)
Theorem geometria_de_la_parcela (E : Env) (projection : value) (self s : obj)
    (log log' : list Request) :
  (forall pg, exists g, mapR (ring_point pg) (seq 0 (length pg / 2)) = OK g) /\
  (create_geometry E projection self log = (OK s, log') ->
   exists rc geometry pos lat lon rest text pg g,
     self !! "rc" = Some rc /\
     xmltodict_parse E (content (http E (GetParcel rc projection))) = Some geometry /\
     get_path (parcel_xml ++ ["cp:referencePoint"; "gml:Point"; "gml:pos"]) geometry = OK pos /\
     py_split pos = OK (lat :: lon :: rest) /\
     s !! "centroide" = Some (VDict [("x", VStr lon); ("y", VStr lat)]) /\
     get_path ring_xml geometry = OK text /\
     py_split text = OK pg /\
     s !! "geometria" = Some (VList g) /\
     length g = (length pg / 2)%nat /\
     forall i, (i < length pg / 2)%nat ->
       exists x y, pg !! (2 * i + 1)%nat = Some x /\ pg !! (2 * i)%nat = Some y /\
                   g !! i = Some (VDict [("x", VStr x); ("y", VStr y)])).
Proof.
  split; [apply anillo_total|].
  unfold create_geometry. intros H.
  step H. apply getattr_OK in Heqr. rewrite run_get in H.
  step H. unfold xml_parse in Heqr0.
  destruct (xmltodict_parse E _) as [geometry|] eqn:Hxml; [|discriminate].
  injection Heqr0 as <-.
  do 2 step H.
  destruct r1 as [|lat [|lon rest]];
    [rewrite run_lift in H; discriminate H..|].
  rewrite !run_lift in H. cbn [py_index fmap list_fmap lookup list_lookup] in H.
  rewrite run_lift in H. cbv beta iota in H.
  repeat step H. injection H as <- _.
  match goal with
  | Ht : get_path ring_xml _ = OK ?t, Hs : py_split ?t = OK ?pg,
    Hm : mapR _ _ = OK ?g |- _ =>
      exists r, geometry, r0, lat, lon, rest, t, pg, g;
      apply mapR_Forall2 in Hm; rename Hm into Hall; rename pg into pg0
  end.
  repeat (split; [done || by simplify_map_eq|]).
  split.
  { apply Forall2_length in Hall. by rewrite length_seq in Hall. }
  intros i Hi.
  destruct (ring_point_total pg0 i Hi) as (x & y & Hx & Hy & Hr).
  exists x, y. split; [done|]. split; [done|].
  assert (Hseq : seq 0 (length pg0 / 2) !! i = Some i) by (by apply lookup_seq_lt).
  destruct (Forall2_lookup_l _ _ _ _ _ Hall Hseq) as (p & Hp & Hrp).
  rewrite Hr in Hrp. by injection Hrp as <-.
Qed.

(** ** The regions *)

Lemma regiones_fold (tipo : value) (P : value -> value -> Prop)
    (regions : list value) (acc out : list value) :
  (forall region r, region_of tipo region = OK r -> exists x, r = [x] /\ P region x) ->
  foldR (fun acc region => r ← region_of tipo region; OK (acc ++ r)%list) acc regions = OK out ->
  exists rs, out = (acc ++ rs)%list /\ Forall2 P regions rs.
Proof.
  intros HP. revert acc. induction regions as [|region regions IH]; intros acc H; simpl in H.
  - injection H as <-. exists []. by rewrite app_nil_r.
  - apply bind_OK_inv in H as (acc' & Hacc & H).
    apply bind_OK_inv in Hacc as (r & Hr & [= <-]).
    apply HP in Hr as (x & -> & Hx).
    apply IH in H as (rs & -> & Hall).
    exists (x :: rs). rewrite <- app_assoc. split; [done|]. by constructor.
Qed.

Lemma region_of_urbana (region : value) (r : list value) :
  region_of (VStr "Urbano") region = OK r -> exists x, r = [x] /\ region_urbana region x.
Proof.
  unfold region_of.
  change (is_str "Rústico" (VStr "Urbano")) with false.
  change (is_str "Urbano" (VStr "Urbano")) with true. cbv iota.
  intros H. apply bind_OK_inv in H as (lcd & Hlcd & H).
  apply bind_OK_inv in H as (dfcons & Hdf & H).
  apply bind_OK_inv in H as (stl & Hstl & [= <-]).
  eexists. split; [done|]. by exists lcd, dfcons, stl.
Qed.

Lemma region_of_rustica (region : value) (r : list value) :
  region_of (VStr "Rústico") region = OK r -> exists x, r = [x] /\ region_rustica region x.
Proof.
  unfold region_of.
  change (is_str "Rústico" (VStr "Rústico")) with true. cbv iota.
  intros H. apply bind_OK_inv in H as (dspr & Hd & H).
  apply bind_OK_inv in H as (dcc & Hdcc & H).
  apply bind_OK_inv in H as (dspr' & Hd' & H).
  apply bind_OK_inv in H as (ssp & Hssp & [= <-]).
  rewrite Hd in Hd'. injection Hd' as <-.
  eexists. split; [done|]. by exists dspr, dcc, ssp.
Qed.

(** X10. For a parcel tagged Urbano or Rústico, the region step reads the list
    of constructions ([lcons]) or of crops ([lspr]) of the first value of the
    record, and stores one region per entry, in order: the use and the surface
    of the construction, or the crop and the surface of the subparcel. Nothing
    else of the instance changes. *)
Theorem regiones_de_la_parcela (info_cadastre : value) (self s : obj) (tipo : string) :
  self !! "tipo" = Some (VStr tipo) ->
  tipo = "Urbano" \/ tipo = "Rústico" ->
  create_regions info_cadastre self = OK s ->
  exists vals first bico iterator regions rs,
    py_values info_cadastre = OK (first :: vals) /\
    py_get "bico" first = OK bico /\
    py_get (if String.eqb tipo "Urbano" then "lcons" else "lspr") bico = OK iterator /\
    py_iter iterator = OK regions /\
    s = <["regiones" := VList rs]> self /\
    Forall2 (if String.eqb tipo "Urbano" then region_urbana else region_rustica) regions rs.
Proof.
  intros Ht Htipo H. unfold create_regions in H.
  rewrite getattr_insert_ne in H by done.
  apply getattr_OK in Ht. rewrite Ht in H. cbn [mbind result_bind] in H.
  destruct Htipo as [-> | ->].
  - change (is_str "Urbano" (VStr "Urbano")) with true in H. cbv iota in H.
    apply bind_OK_inv in H as (iterator & Hit & H).
    apply bind_OK_inv in Hit as (vals & Hv & Hit).
    apply bind_OK_inv in Hit as (first & Hf & Hit).
    apply bind_OK_inv in Hit as (bico & Hb & Hit).
    apply bind_OK_inv in H as (regions & Hr & H).
    apply bind_OK_inv in H as (out & Hout & [= <-]).
    apply (regiones_fold _ region_urbana) in Hout as (rs & -> & Hall);
      [|apply region_of_urbana].
    destruct vals as [|first' vals]; [discriminate|]. injection Hf as ->.
    exists vals, first, bico, iterator, regions, rs.
    repeat (split; [done|]). split; [by rewrite insert_insert_eq | done].
  - change (is_str "Urbano" (VStr "Rústico")) with false in H.
    change (is_str "Rústico" (VStr "Rústico")) with true in H. cbv iota in H.
    apply bind_OK_inv in H as (iterator & Hit & H).
    apply bind_OK_inv in Hit as (vals & Hv & Hit).
    apply bind_OK_inv in Hit as (first & Hf & Hit).
    apply bind_OK_inv in Hit as (bico & Hb & Hit).
    apply bind_OK_inv in H as (regions & Hr & H).
    apply bind_OK_inv in H as (out & Hout & [= <-]).
    apply (regiones_fold _ region_rustica) in Hout as (rs & -> & Hall);
      [|apply region_of_rustica].
    destruct vals as [|first' vals]; [discriminate|]. injection Hf as ->.
    exists vals, first, bico, iterator, regions, rs.
    repeat (split; [done|]). split; [by rewrite insert_insert_eq | done].
Qed.

Lemma regiones_de_la_parcela_witness :
  exists vals first bico iterator regions rs,
    py_values (Ejemplos.urbana "A" "") = OK (first :: vals) /\
    py_get "bico" first = OK bico /\
    py_get "lcons" bico = OK iterator /\
    py_iter iterator = OK regions /\
    <["regiones" := VList [VDict [("descripcion", VStr "VIVIENDA"); ("superficie", VStr "39")]]]>
      ({["tipo" := VStr "Urbano"]} : obj)
    = <["regiones" := VList rs]> {["tipo" := VStr "Urbano"]} /\
    Forall2 region_urbana regions rs.
Proof.
  refine (regiones_de_la_parcela (Ejemplos.urbana "A" "") {["tipo" := VStr "Urbano"]} _
            "Urbano" _ _ _).
  - reflexivity.
  - by left.
  - vm_compute. reflexivity.
Defined.

(** ** Collections by polygon and by address *)

Lemma metaparcela_create_from_parcel_pasa (E : Env) (pr mu po pa : value) (self : meta)
    (log : list Request) (info num : value) (idxs : list nat) :
  let req := Consulta_DNPPP pr mu po pa in
  pasa E (http E req) "consulta_dnpppResult" info num ->
  py_range num = OK idxs ->
  MetaParcela.create_from_parcel E pr mu po pa self log
  = foldM (MetaParcela.resolve_at E "consulta_dnpppResult" info)
      (mkMeta (attrs self) (Some [])) idxs (log ++ [req])%list.
Proof.
  intros req (Hc & Hj & He & Hn) Hr. unfold MetaParcela.create_from_parcel. fold req.
  rewrite run_get, content_nonempty by done. unfold loads, response_json. rewrite Hj.
  rewrite run_lift, run_lift, He. cbn [truthy].
  by rewrite run_lift, Hn, run_lift, Hr.
Qed.

Lemma resolve_at_fold_attrs (E : Env) (res : string) (info : value) (idxs : list nat)
    (self m : meta) (log log' : list Request) :
  foldM (MetaParcela.resolve_at E res info) self idxs log = (OK m, log') ->
  attrs m = attrs self.
Proof.
  revert self log. induction idxs as [|idx idxs IH]; intros self log H.
  - by injection H as <- _.
  - cbn [foldM] in H. step H. unfold MetaParcela.resolve_at in Hrun.
    do 2 step Hrun. unfold lift, MetaParcela.append in Hrun.
    destruct (parcelas self); [|discriminate]. injection Hrun as <- _.
    by apply IH in H.
Qed.

(** X12. A collection looked up by polygon whose answer passes the error check
    with counter [n] holds, when the constructor returns, exactly [n] parcels:
    the [i]-th is the parcel resolved by code from the [i]-th identifier of the
    answer's list. *)
Theorem metaparcela_por_poligono (E : Env) (pr mu po pa : value) (self m : meta)
    (log log' : list Request) (info : value) (n : Z) :
  let req := Consulta_DNPPP pr mu po pa in
  pasa E (http E req) "consulta_dnpppResult" info (VInt n) ->
  MetaParcela.create_from_parcel E pr mu po pa self log = (OK m, log') ->
  exists qs,
    m = mkMeta (attrs self) (Some qs) /\
    length qs = Z.to_nat n /\
    Forall2 (fun idx q => exists rc l l',
               MetaParcela.rc_at "consulta_dnpppResult" info idx = OK rc /\
               ParcelaCatastral.init E [("rc", VStr rc)] l = (OK q, l'))
      (seq 0 (Z.to_nat n)) qs.
Proof.
  intros req Hp H.
  rewrite (metaparcela_create_from_parcel_pasa E pr mu po pa self log info (VInt n)
             (seq 0 (Z.to_nat n)) Hp eq_refl) in H.
  pose proof (resolve_at_fold_attrs _ _ _ _ _ _ _ _ H) as Hat.
  eapply resolve_at_fold in H as (qs & Hqs & Hall); [|reflexivity].
  exists qs. split.
  { destruct m as [am pm]. cbn in *. by subst. }
  split; [|done]. apply Forall2_length in Hall. by rewrite length_seq in Hall.
Qed.

Lemma metaparcela_por_poligono_witness :
  exists qs,
    Ejemplos2.m_poligono = mkMeta ∅ (Some qs) /\
    length qs = 2%nat /\
    Forall2 (fun idx q => exists rc l l',
               MetaParcela.rc_at "consulta_dnpppResult"
                 (Ejemplos.varias "consulta_dnpppResult" [("A", ""); ("B", "")]) idx = OK rc /\
               ParcelaCatastral.init Ejemplos.E_varias [("rc", VStr rc)] l = (OK q, l'))
      (seq 0 2) qs.
Proof.
  refine (metaparcela_por_poligono Ejemplos.E_varias (VStr "MADRID") (VStr "MADRID") (VStr "1")
            (VStr "2") (mkMeta ∅ None) Ejemplos2.m_poligono []
            [Consulta_DNPPP (VStr "MADRID") (VStr "MADRID") (VStr "1") (VStr "2");
             Consulta_DNPRC (VStr "A"); CroquisDatos (VStr "A");
             GetParcel (VStr "A") (VStr "EPSG:4326");
             Consulta_DNPRC (VStr "B"); CroquisDatos (VStr "B");
             GetParcel (VStr "B") (VStr "EPSG:4326")]
            (Ejemplos.varias "consulta_dnpppResult" [("A", ""); ("B", "")]) 2 _ _).
  - repeat split; [discriminate | reflexivity..].
  - vm_compute. reflexivity.
Defined.

(** X13. A collection looked up by polygon whose answer passes the error check
    with a counter that is not positive is returned empty, after the one
    request; the list of the answer is not read. *)
Theorem metaparcela_contador_no_positivo (E : Env) (pr mu po pa : value) (self : meta)
    (log : list Request) (info : value) (n : Z) :
  let req := Consulta_DNPPP pr mu po pa in
  pasa E (http E req) "consulta_dnpppResult" info (VInt n) ->
  (n <= 0)%Z ->
  MetaParcela.create_from_parcel E pr mu po pa self log
  = (OK (mkMeta (attrs self) (Some [])), (log ++ [req])%list).
Proof.
  intros req Hp Hn.
  rewrite (metaparcela_create_from_parcel_pasa E pr mu po pa self log info (VInt n)
             (seq 0 (Z.to_nat n)) Hp eq_refl).
  by replace (Z.to_nat n) with 0%nat by lia.
Qed.

Lemma metaparcela_contador_no_positivo_witness :
  MetaParcela.create_from_parcel Ejemplos2.E_cero (VStr "MADRID") (VStr "MADRID") (VStr "1")
    (VStr "2") (mkMeta ∅ None) []
  = (OK (mkMeta ∅ (Some [])),
     ([] ++ [Consulta_DNPPP (VStr "MADRID") (VStr "MADRID") (VStr "1") (VStr "2")])%list).
Proof.
  refine (metaparcela_contador_no_positivo Ejemplos2.E_cero (VStr "MADRID") (VStr "MADRID")
            (VStr "1") (VStr "2") (mkMeta ∅ None) []
            (Ejemplos.varias "consulta_dnpppResult" []) 0 _ _).
  - repeat split; [discriminate | reflexivity..].
  - lia.
Defined.

(** X14. A collection looked up by polygon or by code whose answer counts at
    least one parcel and carries no list [lrcdnp] (the shape of a single
    match) is not built: the lookup raises AttributeError after its one
    request. *)
Theorem metaparcela_sin_lista (E : Env) (self : meta) (log : list Request)
    (info : value) (n : Z) :
  (1 <= n)%Z ->
  (forall pr mu po pa r,
     let req := Consulta_DNPPP pr mu po pa in
     pasa E (http E req) "consulta_dnpppResult" info (VInt n) ->
     py_get "consulta_dnpppResult" info = OK (VDict r) ->
     assoc "lrcdnp" r = None ->
     MetaParcela.create_from_parcel E pr mu po pa self log
     = (Raise AttributeError, (log ++ [req])%list)) /\
  (forall rc r,
     let req := Consulta_DNPRC rc in
     pasa E (http E req) "consulta_dnprcResult" info (VInt n) ->
     py_get "consulta_dnprcResult" info = OK (VDict r) ->
     assoc "lrcdnp" r = None ->
     MetaParcela.create_from_rc E rc self log
     = (Raise AttributeError, (log ++ [req])%list)).
Proof.
  intros Hn.
  assert (Hrc : forall res r, py_get res info = OK (VDict r) -> assoc "lrcdnp" r = None ->
                  MetaParcela.rc_at res info 0 = Raise AttributeError).
  { intros res r Hr Ha. unfold MetaParcela.rc_at. cbn [get_path mbind result_bind].
    rewrite Hr. cbn. by rewrite Ha. }
  assert (Hseq : seq 0 (Z.to_nat n) = 0%nat :: seq 1 (Z.to_nat n - 1)).
  { destruct (Z.to_nat n) eqn:Hz; [lia|]. cbn. by rewrite Nat.sub_0_r. }
  split.
  - intros pr mu po pa r req Hp Hr Ha.
    rewrite (metaparcela_create_from_parcel_pasa E pr mu po pa self log info (VInt n)
               (seq 0 (Z.to_nat n)) Hp eq_refl).
    rewrite Hseq. cbn [foldM]. rewrite run_bind. unfold MetaParcela.resolve_at.
    by rewrite run_lift, (Hrc _ r Hr Ha).
  - intros rc r req (Hc & Hj & He & Hcu) Hr Ha. unfold MetaParcela.create_from_rc. fold req.
    rewrite run_get, content_nonempty by done. unfold loads, response_json. rewrite Hj.
    rewrite run_lift, run_lift, He. cbn [truthy].
    rewrite run_lift, Hcu, run_lift. cbn [py_range]. rewrite Hseq.
    rewrite run_lift. cbn [foldR mbind result_bind]. by rewrite (Hrc _ r Hr Ha).
Qed.

Lemma metaparcela_sin_lista_witness :
  MetaParcela.create_from_parcel Ejemplos.E_diseminado (VStr "MADRID") (VStr "MADRID")
    (VStr "1") (VStr "2") (mkMeta ∅ None) []
  = (Raise AttributeError,
     ([] ++ [Consulta_DNPPP (VStr "MADRID") (VStr "MADRID") (VStr "1") (VStr "2")])%list).
Proof.
  refine (proj1 (metaparcela_sin_lista Ejemplos.E_diseminado (mkMeta ∅ None) []
                   (Ejemplos.unica_dnppp "A" "") 1 _)
            (VStr "MADRID") (VStr "MADRID") (VStr "1") (VStr "2") _ _ _ _).
  - lia.
  - repeat split; [discriminate | reflexivity..].
  - reflexivity.
  - reflexivity.
Defined.


(** ** The earlier revision *)

Lemma anterior_create_geometry_inv (E : Env) (self s : obj) (log log' : list Request) :
  ESCatastroLib.ParcelaCatastral.create_geometry E self log = (OK s, log') ->
  exists rc c g,
    self !! "rc" = Some rc /\
    s = <["geometria" := VList g]> (<["geocentro" := c]> self) /\
    log' = (log ++ [GetParcel rc (VStr "EPSG:4326")])%list.
Proof.
  unfold ESCatastroLib.ParcelaCatastral.create_geometry. intros H.
  step H. apply getattr_OK in Heqr.
  repeat step H. injection H as <- <-. eauto 10.
Qed.

Lemma anterior_fill_from_record_log (E : Env) (info_cadastre : value) (self p : obj)
    (log log' : list Request) :
  ESCatastroLib.ParcelaCatastral.fill_from_record E info_cadastre self log = (OK p, log') ->
  exists rc,
    self !! "rc" = Some rc /\ p !! "rc" = Some rc /\ is_Some (p !! "tipo") /\
    log' = (log ++ [CroquisDatos rc; GetParcel rc (VStr "EPSG:4326")])%list.
Proof.
  unfold ESCatastroLib.ParcelaCatastral.fill_from_record. cbv zeta. intros H.
  step H. apply getattr_OK in Heqr. rename r into rc. exists rc.
  do 4 step H. rewrite getattr_insert_eq in H. rewrite run_lift in H. step H.
  assert (l = (log ++ [CroquisDatos rc])%list /\ a !! "rc" = Some rc
          /\ is_Some (a !! "tipo")) as (-> & Hrc & Ht).
  { destruct (is_str "Urbano" _).
    - repeat step Hrun. injection Hrun as <- <-. by simplify_map_eq.
    - destruct (is_str "Rústico" _).
      + repeat step Hrun. injection Hrun as <- <-. by simplify_map_eq.
      + injection Hrun as <- <-. by simplify_map_eq. }
  clear Hrun. step H.
  match goal with
  | Hr : create_regions _ _ = OK _ |- _ => apply create_regions_inv in Hr as [rs' ->]
  end.
  step H. apply anterior_create_geometry_inv in Hrun as (rc0 & c & g & Hrc0 & -> & ->).
  rewrite lookup_insert_ne in Hrc0 by done. rewrite Hrc in Hrc0. injection Hrc0 as <-.
  step H. injection H as <- <-.
  repeat split; [done | by simplify_map_eq | by simplify_map_eq | by rewrite <- app_assoc].
Qed.

Lemma anterior_create_from_rc_inv (E : Env) (rc : value) (self p : obj)
    (log log' : list Request) :
  ESCatastroLib.ParcelaCatastral.create_from_rc E rc self log = (OK p, log') ->
  (p = self /\ log' = (log ++ [Consulta_DNPRC rc])%list) \/
  (exists info,
     json_loads E (content (http E (Consulta_DNPRC rc))) = Some info /\
     ESCatastroLib.ParcelaCatastral.fill_from_record E info self
       (log ++ [Consulta_DNPRC rc])%list = (OK p, log')).
Proof.
  unfold ESCatastroLib.ParcelaCatastral.create_from_rc. rewrite run_get. intros H.
  step H. step H.
  unfold loads, response_json in *. destruct (json_loads E _) as [info|] eqn:Hj; [|discriminate].
  match goal with Hl : OK info = OK _ |- _ => injection Hl as <- end.
  destruct (truthy _).
  - do 2 step H. destruct r1; [discriminate|]. right. eauto.
  - injection H as <- <-. by left.
Qed.

Lemma anterior_init_rc (E : Env) (kwargs : list (string * value)) (a : string -> value)
    (log : list Request) :
  bind_kwargs ESCatastroLib.ParcelaCatastral.params kwargs = OK a ->
  truthy (a "rc") = true ->
  ESCatastroLib.ParcelaCatastral.init E kwargs log
  = ESCatastroLib.ParcelaCatastral.create_from_rc E (a "rc") {["rc" := a "rc"]} log.
Proof.
  intros Ha Hrc. unfold ESCatastroLib.ParcelaCatastral.init.
  rewrite run_lift, Ha. cbv zeta. rewrite Hrc. by rewrite insert_empty.
Qed.

(** X15. The earlier revision keeps the code it was given: a lookup by code
    that returns a resolved parcel stores the argument as [rc], and asks for
    the record, the sketch and the geometry of that same code, the geometry
    always in EPSG:4326. *)
Theorem anterior_conserva_el_codigo (E : Env) (kwargs : list (string * value))
    (a : string -> value) (log log' : list Request) (p : obj) :
  bind_kwargs ESCatastroLib.ParcelaCatastral.params kwargs = OK a ->
  truthy (a "rc") = true ->
  ESCatastroLib.ParcelaCatastral.init E kwargs log = (OK p, log') ->
  is_Some (p !! "tipo") ->
  p !! "rc" = Some (a "rc") /\
  log' = (log ++ [Consulta_DNPRC (a "rc"); CroquisDatos (a "rc");
                  GetParcel (a "rc") (VStr "EPSG:4326")])%list.
Proof.
  intros Ha Hrc H Ht. rewrite (anterior_init_rc E kwargs a log Ha Hrc) in H.
  apply anterior_create_from_rc_inv in H as [(-> & _)|(info & _ & Hfill)].
  { rewrite lookup_singleton_ne in Ht by done. by destruct Ht. }
  apply anterior_fill_from_record_log in Hfill as (rc & Hself & Hp & _ & ->).
  rewrite lookup_singleton_eq in Hself. injection Hself as <-.
  split; [done|]. by rewrite <- app_assoc.
Qed.

Lemma anterior_conserva_el_codigo_witness :
  EjemplosAnterior.p_urbana !! "rc" = Some (EjemplosAnterior.a_de [("rc", VStr "A")] "rc") /\
  [Consulta_DNPRC (VStr "A"); CroquisDatos (VStr "A"); GetParcel (VStr "A") (VStr "EPSG:4326")]
  = ([] ++ [Consulta_DNPRC (EjemplosAnterior.a_de [("rc", VStr "A")] "rc");
            CroquisDatos (EjemplosAnterior.a_de [("rc", VStr "A")] "rc");
            GetParcel (EjemplosAnterior.a_de [("rc", VStr "A")] "rc") (VStr "EPSG:4326")])%list.
Proof.
  refine (anterior_conserva_el_codigo Ejemplos.E_urbana [("rc", VStr "A")]
            (EjemplosAnterior.a_de [("rc", VStr "A")]) [] _ EjemplosAnterior.p_urbana _ _ _ _).
  - reflexivity.
  - reflexivity.
  - vm_compute. reflexivity.
  - vm_compute. eexists. reflexivity.
Defined.

Lemma ring_point_transpuesto (pg : list string) (idxs : list nat) (g : list value) :
  mapR (ring_point pg) idxs = OK g ->
  exists g0,
    mapR (ESCatastroLib.ParcelaCatastral.ring_point pg) idxs = OK g0 /\
    Forall2 (fun q q0 => exists u v, q = VDict [("x", u); ("y", v)]
                                     /\ q0 = VDict [("x", v); ("y", u)]) g g0.
Proof.
  revert g. induction idxs as [|i idxs IH]; intros g H; cbn [mapR] in H.
  - injection H as <-. exists []. split; [done | constructor].
  - apply bind_OK_inv in H as (q & Hq & H).
    apply bind_OK_inv in H as (g' & Hg' & [= <-]).
    apply IH in Hg' as (g0 & Hg0 & Hall).
    unfold ring_point in Hq.
    apply bind_OK_inv in Hq as (x & Hx & Hq).
    apply bind_OK_inv in Hq as (y & Hy & [= <-]).
    exists (VDict [("x", y); ("y", x)] :: g0). split.
    + assert (Hq0 : ESCatastroLib.ParcelaCatastral.ring_point pg i
                     = OK (VDict [("x", y); ("y", x)])).
      { unfold ESCatastroLib.ParcelaCatastral.ring_point.
        rewrite Hy. cbn [mbind result_bind]. by rewrite Hx. }
      cbn [mapR]. by rewrite Hq0, Hg0.
    + constructor; [eauto | done].
Qed.

(** X16. The two revisions store the axes of the geometry in opposite order.
    Whenever the geometry step of the later revision returns, for EPSG:4326,
    that of the earlier one returns too, after the same request; the
    [geocentro] of the earlier one has [x] and [y] exchanged with respect to
    the [centroide] of the later one, and so has every point of the ring. *)
Theorem ejes_entre_revisiones (E : Env) (self s : obj) (log log' : list Request) :
  create_geometry E (VStr "EPSG:4326") self log = (OK s, log') ->
  exists s0 a b g g0,
    ESCatastroLib.ParcelaCatastral.create_geometry E self log = (OK s0, log') /\
    s !! "centroide" = Some (VDict [("x", b); ("y", a)]) /\
    s0 !! "geocentro" = Some (VDict [("x", a); ("y", b)]) /\
    s !! "geometria" = Some (VList g) /\
    s0 !! "geometria" = Some (VList g0) /\
    Forall2 (fun q q0 => exists u v, q = VDict [("x", u); ("y", v)]
                                     /\ q0 = VDict [("x", v); ("y", u)]) g g0.
Proof.
  unfold create_geometry. intros H.
  step H. rename r into rc, Heqr into Hrc.
  step H. step H. rename r into geometry, Heqr into Hxml.
  step H. rename r into pos, Heqr into Hpos.
  step H. rename r into geoposition, Heqr into Hsplit.
  step H. rename r into b, Heqr into Hb.
  step H. rename r into a, Heqr into Ha.
  step H. rename r into text, Heqr into Htext.
  step H. rename r into pg, Heqr into Hpg.
  step H. rename r into g, Heqr into Hg.
  step H. step H. injection H as <- <-.
  apply ring_point_transpuesto in Hg as (g0 & Hg0 & Hall).
  exists (<["geometria" := VList g0]> (<["geocentro" := VDict [("x", a); ("y", b)]]> self)),
    a, b, g, g0.
  split; [|by simplify_map_eq].
  unfold ESCatastroLib.ParcelaCatastral.create_geometry.
  rewrite run_lift, Hrc, run_get, run_lift, Hxml, run_lift, Hpos, run_lift, Hsplit.
  rewrite run_lift, Ha, run_lift, Hb. cbv zeta.
  by rewrite run_lift, Htext, run_lift, Hpg, run_lift, Hg0.
Qed.

Lemma ejes_entre_revisiones_witness :
  exists s0 a b g g0,
    ESCatastroLib.ParcelaCatastral.create_geometry Ejemplos.E_urbana {["rc" := VStr "A"]} []
    = (OK s0, [GetParcel (VStr "A") (VStr "EPSG:4326")]) /\
    EjemplosAnterior.con_geometria !! "centroide" = Some (VDict [("x", b); ("y", a)]) /\
    s0 !! "geocentro" = Some (VDict [("x", a); ("y", b)]) /\
    EjemplosAnterior.con_geometria !! "geometria" = Some (VList g) /\
    s0 !! "geometria" = Some (VList g0) /\
    Forall2 (fun q q0 => exists u v, q = VDict [("x", u); ("y", v)]
                                     /\ q0 = VDict [("x", v); ("y", u)]) g g0.
Proof.
  refine (ejes_entre_revisiones Ejemplos.E_urbana {["rc" := VStr "A"]}
            EjemplosAnterior.con_geometria [] [GetParcel (VStr "A") (VStr "EPSG:4326")] _).
  vm_compute. reflexivity.
Defined.

(** The address lookup of the earlier revision, up to the point where the
    identifier is read. *)
Lemma anterior_direccion_pasa (E : Env)
    (provincia municipio tipo_via calle numero : value) (self : obj)
    (log : list Request) (ic : CalleInfo) (info c : value) (r : list (string * value)) :
  let req := Consulta_DNPLOC (calle_provincia ic) (calle_municipio ic)
               (calle_tipo_via ic) (calle_calle ic) numero in
  Calle E provincia municipio tipo_via calle = OK ic ->
  calle_bool ic = true ->
  status_code (http E req) = 200 ->
  json_loads E (content (http E req)) = Some info ->
  comprobar_errores E info = OK (VBool true) ->
  control_cudnp "consulta_dnplocResult" info = OK c ->
  py_gt_one c = OK false ->
  py_get "consulta_dnplocResult" info = OK (VDict r) ->
  ESCatastroLib.ParcelaCatastral.create_from_address E provincia municipio tipo_via calle
    numero self log
  = ((self ←
        (if bool_decide ("lrcdnp" ∈ r.*1) then
           rcdnp ← lift (get_path ["consulta_dnplocResult"; "lrcdnp"; "rcdnp"] info);
           r0 ← lift (py_index 0 rcdnp);
           rcd ← lift (py_get "rc" r0);
           rc ← lift (join_values rcd);
           mret (<["rc" := VStr rc]> self)
         else
           if bool_decide ("bico" ∈ r.*1) then
             rcd ← lift (get_path ["consulta_dnplocResult"; "bico"; "bi"; "idbi"; "rc"] info);
             rc ← lift (join_values rcd);
             mret (<["rc" := VStr rc]> self)
           else mret self);
      rc ← lift (getattr self "rc");
      ESCatastroLib.ParcelaCatastral.create_from_rc E rc self) : M obj)
      (log ++ [ConsultaCalle provincia municipio tipo_via calle; req])%list.
Proof.
  intros req Hcalle Hb Hst Hj He Hc Hgt Hres.
  unfold ESCatastroLib.ParcelaCatastral.create_from_address.
  rewrite run_bind. unfold calle_new. rewrite Hcalle, Hb.
  rewrite run_get. fold req. rewrite <- app_assoc.
  apply Z.eqb_eq in Hst. rewrite run_lift, Hst.
  unfold loads, response_json. rewrite Hj. cbn [mbind result_bind]. rewrite He. cbn [mbind result_bind truthy].
  rewrite run_lift, run_lift, Hc, run_lift, Hgt, run_lift, Hres, run_lift.
  cbn [py_contains].
  destruct (bool_decide ("lrcdnp" ∈ r.*1)); [reflexivity|].
  rewrite (run_bind (_ ≫= _)). rewrite run_lift, run_lift. cbn [py_contains]. reflexivity.
Qed.

(** X17. In the earlier revision the address lookup does resolve: when the
    street exists and the service answers 200 with a body that passes the error
    check and counts at most one parcel, the identifier is read from the list
    [lrcdnp] when the answer has one, from [bico] when it has no list, and
    the lookup continues as the lookup by that code, the identifier stored as
    [rc]. With neither field, and no code stored, it raises AttributeError. *)
Theorem anterior_por_direccion (E : Env)
    (provincia municipio tipo_via calle numero : value) (self : obj)
    (log : list Request) (ic : CalleInfo) (info c : value) (r : list (string * value)) :
  let req := Consulta_DNPLOC (calle_provincia ic) (calle_municipio ic)
               (calle_tipo_via ic) (calle_calle ic) numero in
  let log1 := (log ++ [ConsultaCalle provincia municipio tipo_via calle; req])%list in
  Calle E provincia municipio tipo_via calle = OK ic ->
  calle_bool ic = true ->
  status_code (http E req) = 200 ->
  json_loads E (content (http E req)) = Some info ->
  comprobar_errores E info = OK (VBool true) ->
  control_cudnp "consulta_dnplocResult" info = OK c ->
  py_gt_one c = OK false ->
  py_get "consulta_dnplocResult" info = OK (VDict r) ->
  (forall rc,
     "lrcdnp" ∈ r.*1 ->
     MetaParcela.rc_at "consulta_dnplocResult" info 0 = OK rc ->
     ESCatastroLib.ParcelaCatastral.create_from_address E provincia municipio tipo_via calle
       numero self log
     = ESCatastroLib.ParcelaCatastral.create_from_rc E (VStr rc) (<["rc" := VStr rc]> self) log1)
  /\
  (forall rcd rc,
     "lrcdnp" ∉ r.*1 -> "bico" ∈ r.*1 ->
     get_path ["consulta_dnplocResult"; "bico"; "bi"; "idbi"; "rc"] info = OK rcd ->
     join_values rcd = OK rc ->
     ESCatastroLib.ParcelaCatastral.create_from_address E provincia municipio tipo_via calle
       numero self log
     = ESCatastroLib.ParcelaCatastral.create_from_rc E (VStr rc) (<["rc" := VStr rc]> self) log1)
  /\
  ("lrcdnp" ∉ r.*1 -> "bico" ∉ r.*1 -> self !! "rc" = None ->
   ESCatastroLib.ParcelaCatastral.create_from_address E provincia municipio tipo_via calle
     numero self log
   = (Raise AttributeError, log1)).
Proof.
  intros req log1 Hcalle Hb Hst Hj He Hc Hgt Hres.
  rewrite (anterior_direccion_pasa E provincia municipio tipo_via calle numero self log ic
             info c r Hcalle Hb Hst Hj He Hc Hgt Hres).
  fold req. fold log1. repeat split.
  - intros rc Hin Hrc. rewrite bool_decide_eq_true_2 by done.
    unfold MetaParcela.rc_at in Hrc.
    apply bind_OK_inv in Hrc as (rcdnp & H1 & Hrc).
    apply bind_OK_inv in Hrc as (r0 & H2 & Hrc).
    apply bind_OK_inv in Hrc as (rcd & H3 & Hrc).
    rewrite run_bind, run_lift, H1, run_lift, H2, run_lift, H3, run_lift, Hrc.
    cbn [mret M_ret]. by rewrite run_lift, getattr_insert_eq.
  - intros rcd rc Hno Hin Hrcd Hrc.
    rewrite bool_decide_eq_false_2, bool_decide_eq_true_2 by done.
    rewrite run_bind, run_lift, Hrcd, run_lift, Hrc.
    cbn [mret M_ret]. by rewrite run_lift, getattr_insert_eq.
  - intros Hno Hno' Hself. rewrite !bool_decide_eq_false_2 by done.
    rewrite run_bind. cbn [mret M_ret]. rewrite run_lift. unfold getattr. by rewrite Hself.
Qed.

Lemma anterior_por_direccion_witness :
  ESCatastroLib.ParcelaCatastral.create_from_address Ejemplos.E_direccion
    (VStr "MADRID") (VStr "MADRID") (VStr "CL") (VStr "MAYOR") (VStr "1") ∅ []
  = ESCatastroLib.ParcelaCatastral.create_from_rc Ejemplos.E_direccion (VStr "A")
      (<["rc" := VStr "A"]> ∅)
      ([] ++ [ConsultaCalle (VStr "MADRID") (VStr "MADRID") (VStr "CL") (VStr "MAYOR");
              Consulta_DNPLOC (VStr "MADRID") (VStr "MADRID") (VStr "CL") (VStr "MAYOR")
                (VStr "1")])%list.
Proof.
  refine (proj1 (anterior_por_direccion Ejemplos.E_direccion
                   (VStr "MADRID") (VStr "MADRID") (VStr "CL") (VStr "MAYOR") (VStr "1") ∅ []
                   (mkCalle true (VStr "MADRID") (VStr "MADRID") (VStr "CL") (VStr "MAYOR"))
                   (Ejemplos.unica_dnploc "A" "") (VInt 1)
                   [Ejemplos.control 1;
                    ("lrcdnp", VDict [("rcdnp", VList [VDict [("rc", Ejemplos.rc_dict "A" "")]])]);
                    ("bico", VDict [("bi", VDict [("idbi",
                       VDict [("rc", Ejemplos.rc_dict "A" "")])])])]
                   _ _ _ _ _ _ _ _) "A" _ _); try reflexivity.
  cbn. apply list_elem_of_further, list_elem_of_here.
Defined.

(** X18. In the earlier revision, an address lookup for a street that exists,
    answered with a status other than 200, ends without raising: the collection
    is returned without [parcelas], whatever the body, and the parcel, when
    the body carries no error list, is returned with the four arguments
    [provincia], [municipio], [calle] and [numero] as its only attributes. *)
Theorem anterior_direccion_a_medias (E : Env) (kwargs : list (string * value))
    (a : string -> value) (log : list Request) (ic : CalleInfo) :
  let req := Consulta_DNPLOC (calle_provincia ic) (calle_municipio ic)
               (calle_tipo_via ic) (calle_calle ic) (a "numero") in
  let log1 := (log ++ [ConsultaCalle (a "provincia") (a "municipio") (a "tipo_via")
                         (a "calle"); req])%list in
  let dados : obj :=
    <["numero" := a "numero"]> (<["calle" := a "calle"]>
      (<["municipio" := a "municipio"]> (<["provincia" := a "provincia"]> ∅))) in
  bind_kwargs ESCatastroLib.ParcelaCatastral.params kwargs = OK a ->
  truthy (a "rc") = false ->
  truthy (a "provincia") && truthy (a "municipio")
    && truthy (a "poligono") && truthy (a "parcela") = false ->
  truthy (a "provincia") && truthy (a "municipio") && truthy (a "tipo_via")
    && truthy (a "calle") && truthy (a "numero") = true ->
  Calle E (a "provincia") (a "municipio") (a "tipo_via") (a "calle") = OK ic ->
  calle_bool ic = true ->
  status_code (http E req) <> 200 ->
  ESCatastroLib.MetaParcela.init E kwargs log = (OK (mkMeta dados None), log1) /\
  (forall j res,
     json_loads E (content (http E req)) = Some j ->
     py_get "consulta_dnplocResult" j = OK res ->
     py_contains "lerr" res = OK false ->
     ESCatastroLib.ParcelaCatastral.init E kwargs log = (OK dados, log1)).
Proof.
  intros req log1 dados Ha Hrc Hpol Hdir Hcalle Hb Hst.
  apply Z.eqb_neq in Hst. split.
  - unfold ESCatastroLib.MetaParcela.init.
    change ESCatastroLib.MetaParcela.params with ESCatastroLib.ParcelaCatastral.params.
    rewrite run_lift, Ha. cbv zeta. rewrite Hrc, Hpol, Hdir.
    unfold ESCatastroLib.MetaParcela.create_from_address.
    rewrite run_bind. unfold calle_new. rewrite Hcalle, Hb.
    rewrite run_get. fold req. rewrite <- app_assoc.
    by rewrite run_lift, Hst.
  - intros j res Hj Hres Hlerr.
    unfold ESCatastroLib.ParcelaCatastral.init.
    rewrite run_lift, Ha. cbv zeta. rewrite Hrc, Hpol, Hdir.
    unfold ESCatastroLib.ParcelaCatastral.create_from_address.
    rewrite run_bind. unfold calle_new. rewrite Hcalle, Hb.
    rewrite run_get. fold req. rewrite <- app_assoc.
    rewrite run_lift, Hst. unfold loads, response_json. rewrite Hj.
    by rewrite run_lift, run_lift, Hres, run_lift, Hlerr, run_lift.
Qed.

Lemma anterior_direccion_a_medias_witness :
  ESCatastroLib.MetaParcela.init EjemplosAnterior.E_404 Ejemplos.kw_direccion []
  = (OK (mkMeta (<["numero" := VStr "1"]> (<["calle" := VStr "MAYOR"]>
           (<["municipio" := VStr "MADRID"]> (<["provincia" := VStr "MADRID"]> ∅)))) None),
     [ConsultaCalle (VStr "MADRID") (VStr "MADRID") (VStr "CL") (VStr "MAYOR");
      Consulta_DNPLOC (VStr "MADRID") (VStr "MADRID") (VStr "CL") (VStr "MAYOR") (VStr "1")]) /\
  (forall j res,
     json_loads EjemplosAnterior.E_404 "DNPLOC" = Some j ->
     py_get "consulta_dnplocResult" j = OK res ->
     py_contains "lerr" res = OK false ->
     ESCatastroLib.ParcelaCatastral.init EjemplosAnterior.E_404 Ejemplos.kw_direccion []
     = (OK (<["numero" := VStr "1"]> (<["calle" := VStr "MAYOR"]>
              (<["municipio" := VStr "MADRID"]> (<["provincia" := VStr "MADRID"]> ∅)))),
        [ConsultaCalle (VStr "MADRID") (VStr "MADRID") (VStr "CL") (VStr "MAYOR");
         Consulta_DNPLOC (VStr "MADRID") (VStr "MADRID") (VStr "CL") (VStr "MAYOR")
           (VStr "1")])).
Proof.
  refine (anterior_direccion_a_medias EjemplosAnterior.E_404 Ejemplos.kw_direccion
            (EjemplosAnterior.a_de Ejemplos.kw_direccion) []
            (mkCalle true (VStr "MADRID") (VStr "MADRID") (VStr "CL") (VStr "MAYOR"))
            _ _ _ _ _ _ _); [reflexivity..|discriminate].
Defined.

Lemma anterior_resolve_at_fold (E : Env) (res : string) (info : value) (idxs : list nat)
    (self m : meta) (ps : list obj) (log log' : list Request) :
  parcelas self = Some ps ->
  foldM (ESCatastroLib.MetaParcela.resolve_at E res info) self idxs log = (OK m, log') ->
  attrs m = attrs self /\
  exists qs,
    parcelas m = Some (ps ++ qs)%list /\
    Forall2 (fun idx q => exists rc l l',
               MetaParcela.rc_at res info idx = OK rc /\
               ESCatastroLib.ParcelaCatastral.init E [("rc", VStr rc)] l = (OK q, l')) idxs qs.
Proof.
  revert self ps log. induction idxs as [|idx idxs IH]; intros self ps log Hps H.
  - injection H as <- _. split; [done|]. exists []. rewrite app_nil_r. split; [done | constructor].
  - cbn [foldM] in H. step H. unfold ESCatastroLib.MetaParcela.resolve_at in Hrun.
    step Hrun. step Hrun.
    unfold lift, MetaParcela.append in Hrun. rewrite Hps in Hrun. injection Hrun as <- <-.
    eapply IH in H as (Hat & qs & Hqs & Hall); [|reflexivity].
    split; [done|]. exists (a0 :: qs). split.
    + by rewrite Hqs, <- app_assoc.
    + constructor; [eauto | done].
Qed.

(** X19. In the earlier revision, a collection looked up by code whose answer
    passes the error check with counter [n] holds, when the lookup returns,
    exactly [n] parcels: the [i]-th is the parcel resolved by code from the
    [i]-th identifier of the answer's list. *)
Theorem anterior_metaparcela_por_codigo (E : Env) (rc : value) (self m : meta)
    (log log' : list Request) (info : value) (n : Z) :
  let req := Consulta_DNPRC rc in
  json_loads E (content (http E req)) = Some info ->
  comprobar_errores E info = OK (VBool true) ->
  control_cudnp "consulta_dnprcResult" info = OK (VInt n) ->
  ESCatastroLib.MetaParcela.create_from_rc E rc self log = (OK m, log') ->
  exists qs,
    m = mkMeta (attrs self) (Some qs) /\
    length qs = Z.to_nat n /\
    Forall2 (fun idx q => exists rc l l',
               MetaParcela.rc_at "consulta_dnprcResult" info idx = OK rc /\
               ESCatastroLib.ParcelaCatastral.init E [("rc", VStr rc)] l = (OK q, l'))
      (seq 0 (Z.to_nat n)) qs.
Proof.
  intros req Hj He Hn H.
  unfold ESCatastroLib.MetaParcela.create_from_rc in H. fold req in H.
  rewrite run_get in H. unfold loads, response_json in H. rewrite Hj in H.
  rewrite run_lift, run_lift, He in H. cbn [truthy] in H.
  rewrite run_lift, Hn, run_lift in H. cbn [py_range] in H.
  eapply anterior_resolve_at_fold in H as (Hat & qs & Hqs & Hall); [|reflexivity].
  exists qs. split.
  { destruct m as [am pm]. cbn in *. by subst. }
  split; [|done]. apply Forall2_length in Hall. by rewrite length_seq in Hall.
Qed.

Lemma anterior_metaparcela_por_codigo_witness :
  exists qs,
    EjemplosAnterior.m_varias = mkMeta ∅ (Some qs) /\
    length qs = 2%nat /\
    Forall2 (fun idx q => exists rc l l',
               MetaParcela.rc_at "consulta_dnprcResult"
                 (Ejemplos.varias "consulta_dnprcResult" [("A", ""); ("B", "")]) idx = OK rc /\
               ESCatastroLib.ParcelaCatastral.init Ejemplos.E_varias [("rc", VStr rc)] l
               = (OK q, l'))
      (seq 0 2) qs.
Proof.
  refine (anterior_metaparcela_por_codigo Ejemplos.E_varias (VStr "U") (mkMeta ∅ None)
            EjemplosAnterior.m_varias []
            [Consulta_DNPRC (VStr "U");
             Consulta_DNPRC (VStr "A"); CroquisDatos (VStr "A");
             GetParcel (VStr "A") (VStr "EPSG:4326");
             Consulta_DNPRC (VStr "B"); CroquisDatos (VStr "B");
             GetParcel (VStr "B") (VStr "EPSG:4326")]
            (Ejemplos.varias "consulta_dnprcResult" [("A", ""); ("B", "")]) 2 _ _ _ _).
  - reflexivity.
  - reflexivity.
  - reflexivity.
  - vm_compute. reflexivity.
Defined.

(** ** The listings of the street directory *)

Section listings.
Context {A B : Type}.

Lemma utils_run_bind (m : MU A) (f : A -> MU B) (log : list Consulta) :
  (m ≫= f) log =
  match m log with
  | (OK a, log') => f a log'
  | (Raise e, log') => (Raise e, log')
  end.
Proof. reflexivity. Qed.

Lemma utils_run_lift (r : result A) (f : A -> MU B) (log : list Consulta) :
  (utils.lift r ≫= f) log =
  match r with
  | OK a => f a log
  | Raise e => (Raise e, log)
  end.
Proof. rewrite utils_run_bind. unfold utils.lift. destruct r; reflexivity. Qed.
End listings.

Lemma utils_run_get {B : Type} (U : EnvUtils) (c : Consulta) (f : Response -> MU B)
    (log : list Consulta) :
  (utils.requests_get U c ≫= f) log = f (callejero U c) (log ++ [c])%list.
Proof. reflexivity. Qed.

(** The listing of the provinces makes one request, and what it returns
    does not depend on the requests made before. *)
Lemma listar_provincias_log (E : Env) (U : EnvUtils) (log : list Consulta) :
  utils.listar_provincias E U log
  = ((utils.listar_provincias E U []).1, (log ++ [ObtenerProvincias])%list).
Proof.
  unfold utils.listar_provincias. rewrite !utils_run_get.
  rewrite !utils_run_lift. destruct (response_json E _) as [j|e]; [|reflexivity].
  rewrite !utils_run_lift. destruct (comprobar_errores E j) as [ok|e]; [|reflexivity].
  destruct (truthy ok); [|reflexivity].
  rewrite !utils_run_lift. destruct (get_path _ j) as [prov|e]; [|reflexivity].
  rewrite !utils_run_lift. destruct (py_iter prov) as [ps|e]; [|reflexivity].
  unfold utils.lift. reflexivity.
Qed.

Lemma listar_provincias_OK (E : Env) (U : EnvUtils) (l : list value) (log : list Consulta) :
  utils.listar_provincias E U [] = (OK l, [ObtenerProvincias]) ->
  utils.listar_provincias E U log = (OK l, (log ++ [ObtenerProvincias])%list).
Proof. intros H. rewrite listar_provincias_log. by rewrite H. Qed.

(** X20. [listar_provincias] always makes exactly one request. On a body
    that decodes to an empty dict it returns the empty list, the error check
    having returned [None]; on a body that passes the error check it returns
    the name [np] of each province of the answer, in the order of the
    answer. *)
Theorem listar_provincias_respuesta (E : Env) (U : EnvUtils) (log : list Consulta) :
  let body := content (callejero U ObtenerProvincias) in
  (utils.listar_provincias E U log).2 = (log ++ [ObtenerProvincias])%list /\
  (json_loads E body = Some (VDict []) ->
   (utils.listar_provincias E U log).1 = OK []) /\
  (forall j prov provincias,
     json_loads E body = Some j ->
     comprobar_errores E j = OK (VBool true) ->
     get_path ["consulta_provincieroResult"; "provinciero"; "prov"] j = OK prov ->
     py_iter prov = OK provincias ->
     (utils.listar_provincias E U log).1 = mapR (py_get "np") provincias).
Proof.
  intros body. rewrite listar_provincias_log. split; [done|]. cbn [fst].
  unfold utils.listar_provincias. rewrite utils_run_get.
  unfold response_json. fold body. split.
  - intros ->. rewrite utils_run_lift. reflexivity.
  - intros j prov provincias -> He Hp Hi.
    rewrite utils_run_lift, utils_run_lift, He. cbn [truthy].
    rewrite utils_run_lift, utils_run_lift, Hp, utils_run_lift, Hi. reflexivity.
Qed.

(** X21. [listar_municipios] for a non-empty province name that is neither a
    key of [MAPEOS_PROVINCIAS] (capitalized) nor in the listing of the service
    (in upper case) raises an Exception whose message lists the provinces,
    after asking the service for the provinces twice and without asking for
    municipalities. *)
Theorem provincia_desconocida (E : Env) (U : EnvUtils) (p : string) (municipio : value)
    (provincias : list value) (log : list Consulta) :
  p <> "" ->
  str_capitalize U p ∉ (MAPEOS_PROVINCIAS U).*1 ->
  utils.listar_provincias E U [] = (OK provincias, [ObtenerProvincias]) ->
  existsb (is_str (str_upper U p)) provincias = false ->
  utils.listar_municipios E U (VStr p) municipio log
  = (Raise (Exception_ (utils.msg_provincia E (VStr p) provincias)),
     (log ++ [ObtenerProvincias; ObtenerProvincias])%list).
Proof.
  intros Hp Hcap Hl Hup. unfold utils.listar_municipios.
  rewrite utils_run_bind. cbn [truthy].
  apply String.eqb_neq in Hp. rewrite Hp. cbn [negb].
  rewrite utils_run_lift. cbn [utils.py_capitalize].
  rewrite bool_decide_eq_false_2 by done. cbn [negb].
  rewrite utils_run_lift. cbn [utils.py_upper].
  rewrite utils_run_bind, (listar_provincias_OK E U provincias log Hl).
  cbn [mret MU_ret]. rewrite Hup. cbn [negb].
  rewrite utils_run_bind, (listar_provincias_OK E U provincias _ Hl).
  unfold utils.raise. by rewrite <- app_assoc.
Qed.

Lemma provincia_desconocida_witness :
  utils.listar_municipios EjemplosUtils.E_utils EjemplosUtils.U_utils (VStr "NARNIA") VNone []
  = (Raise (Exception_ (utils.msg_provincia EjemplosUtils.E_utils (VStr "NARNIA")
                          [VStr "MADRID"; VStr "ALACANT"])),
     ([] ++ [ObtenerProvincias; ObtenerProvincias])%list).
Proof.
  refine (provincia_desconocida EjemplosUtils.E_utils EjemplosUtils.U_utils "NARNIA" VNone
            [VStr "MADRID"; VStr "ALACANT"] [] _ _ _ _).
  - discriminate.
  - cbn. intros H. apply list_elem_of_singleton in H. discriminate.
  - reflexivity.
  - reflexivity.
Defined.

(** X22. [listar_municipios] for a province whose capitalized name
    [MAPEOS_PROVINCIAS] maps to a value other than [None] makes exactly one
    request, for the municipalities of the mapped value, and does not ask for
    the provinces; when the status of the answer is not 200 it returns the
    empty list. *)
Theorem provincia_mapeada (E : Env) (U : EnvUtils) (p : string) (v municipio : value)
    (log : list Consulta) :
  let req := ObtenerMunicipios v municipio in
  assoc (str_capitalize U p) (MAPEOS_PROVINCIAS U) = Some v ->
  v <> VNone ->
  (utils.listar_municipios E U (VStr p) municipio log).2 = (log ++ [req])%list /\
  (status_code (callejero U req) <> 200 ->
   utils.listar_municipios E U (VStr p) municipio log = (OK [], (log ++ [req])%list)).
Proof.
  intros req Hv Hnn.
  assert (Hin : str_capitalize U p ∈ (MAPEOS_PROVINCIAS U).*1) by eauto using assoc_Some_elem.
  assert (Hpre : forall (f : bool -> MU (list value)),
            ((if truthy (VStr p) then
                cap ← utils.lift (utils.py_capitalize U (VStr p));
                if negb (bool_decide (cap ∈ (MAPEOS_PROVINCIAS U).*1)) then
                  up ← utils.lift (utils.py_upper U (VStr p));
                  provincias ← utils.listar_provincias E U;
                  mret (negb (existsb (is_str up) provincias))
                else mret false
              else mret false) ≫= f) log = f false log).
  { intros f. rewrite utils_run_bind. destruct (truthy (VStr p)); [|reflexivity].
    rewrite utils_run_lift. cbn [utils.py_capitalize].
    by rewrite bool_decide_eq_true_2 by done. }
  unfold utils.listar_municipios. rewrite Hpre.
  rewrite utils_run_lift. cbn [utils.py_capitalize].
  rewrite utils_run_lift. unfold utils.mapeo. rewrite Hv. cbn [default from_option id].
  assert (Hn : not_None v = true) by (by destruct v).
  rewrite Hn. cbn [mbind result_bind]. rewrite Hv. cbn [default from_option id].
  rewrite utils_run_get. fold req. rewrite utils_run_lift. split.
  - destruct (utils.sin_errores E _) as [[|]|e]; [|reflexivity..].
    rewrite utils_run_lift. destruct (loads E _); [|reflexivity].
    rewrite utils_run_lift. destruct (get_path _ _); [|reflexivity].
    rewrite utils_run_lift. destruct (py_iter _); [|reflexivity].
    reflexivity.
  - intros Hst. apply Z.eqb_neq in Hst. unfold utils.sin_errores. by rewrite Hst.
Qed.

Lemma provincia_mapeada_witness :
  (utils.listar_municipios EjemplosUtils.E_utils EjemplosUtils.U_utils (VStr "alicante")
     VNone []).2
  = ([] ++ [ObtenerMunicipios (VStr "ALACANT") VNone])%list /\
  (status_code (callejero EjemplosUtils.U_utils (ObtenerMunicipios (VStr "ALACANT") VNone))
   <> 200 ->
   utils.listar_municipios EjemplosUtils.E_utils EjemplosUtils.U_utils (VStr "alicante")
     VNone []
   = (OK [], ([] ++ [ObtenerMunicipios (VStr "ALACANT") VNone])%list)).
Proof.
  refine (provincia_mapeada EjemplosUtils.E_utils EjemplosUtils.U_utils "alicante"
            (VStr "ALACANT") VNone [] _ _).
  - reflexivity.
  - discriminate.
Defined.

(** X23. [listar_calles] for a province that, after the mapping, is not in
    the listing of the service returns the empty list after that one request:
    neither the municipalities nor the streets are asked for, and no exception
    is raised. *)
Theorem calles_de_provincia_desconocida (E : Env) (U : EnvUtils) (p q : string)
    (municipio : value) (provincias : list value) (log : list Consulta) :
  (if bool_decide (str_capitalize U p ∈ (MAPEOS_PROVINCIAS U).*1)
   then utils.mapeo U (str_capitalize U p) else VStr p) = VStr q ->
  utils.listar_provincias E U [] = (OK provincias, [ObtenerProvincias]) ->
  existsb (is_str (str_upper U q)) provincias = false ->
  utils.listar_calles E U (VStr p) municipio log
  = (OK [], (log ++ [ObtenerProvincias])%list).
Proof.
  intros Hq Hl Hup. unfold utils.listar_calles.
  rewrite utils_run_lift. cbn [utils.py_capitalize].
  rewrite utils_run_lift.
  destruct (bool_decide (str_capitalize U p ∈ (MAPEOS_PROVINCIAS U).*1));
    cbn [mbind result_bind]; rewrite Hq;
    rewrite utils_run_lift; cbn [utils.py_upper];
    rewrite utils_run_bind, (listar_provincias_OK E U provincias log Hl);
    rewrite utils_run_bind, Hup; reflexivity.
Qed.

Lemma calles_de_provincia_desconocida_witness :
  utils.listar_calles EjemplosUtils.E_utils EjemplosUtils.U_utils (VStr "NARNIA")
    (VStr "CAIR PARAVEL") []
  = (OK [], ([] ++ [ObtenerProvincias])%list).
Proof.
  refine (calles_de_provincia_desconocida EjemplosUtils.E_utils EjemplosUtils.U_utils
            "NARNIA" "NARNIA" (VStr "CAIR PARAVEL") [VStr "MADRID"; VStr "ALACANT"] [] _ _ _);
    reflexivity.
Defined.

(** ** The floors of a building *)

Lemma bind_Raise_inv {A B : Type} (m : result A) (f : A -> result B) (e : exn) :
  m ≫= f = Raise e -> m = Raise e \/ exists a, m = OK a /\ f a = Raise e.
Proof. destruct m as [a|e']; cbn; [eauto | intros [= ->]; by left]. Qed.

Lemma py_get_default_error (k : string) (d v : value) (e : exn) :
  py_get_default k d v = Raise e -> e = AttributeError.
Proof. destruct v; cbn; congruence. Qed.

Lemma py_int_error (W : EnvEdificios) (v : value) (e : exn) :
  Plantas.py_int W v = Raise e -> e <> ValueError Plantas.msg_max.
Proof.
  destruct v; cbn; try congruence.
  - destruct (int_of_float W f); [congruence|].
    destruct (PrimFloat.eqb f f); intros [= <-]; discriminate.
  - destruct (int_of_str W s); [congruence|]. intros [= <-]. discriminate.
Qed.

(** Every part adds a number to [below_floors], so [above_floors] is never
    the longer list. *)
Lemma parte_inv (W : EnvEdificios) (st st' : Plantas.partes) (member : value) :
  Plantas.parte W st member = OK st' ->
  (length (Plantas.above_floors st) <= length (Plantas.below_floors st))%nat ->
  (length (Plantas.above_floors st') <= length (Plantas.below_floors st'))%nat.
Proof.
  unfold Plantas.parte. intros H Hle.
  apply bind_OK_inv in H as (bp & _ & H).
  destruct (negb (truthy bp)); [by injection H as <-|].
  repeat (apply bind_OK_inv in H as (? & _ & H)).
  injection H as <-. cbn. rewrite length_app. cbn.
  match goal with |- context [match ?o with _ => _ end] => destruct o end;
    rewrite ?length_app; cbn; lia.
Qed.

Lemma parte_error (W : EnvEdificios) (st : Plantas.partes) (member : value) (e : exn) :
  Plantas.parte W st member = Raise e -> e <> ValueError Plantas.msg_max.
Proof.
  unfold Plantas.parte. intros H.
  apply bind_Raise_inv in H as [H|(bp & _ & H)].
  { apply py_get_default_error in H as ->. discriminate. }
  destruct (negb (truthy bp)); [discriminate|].
  apply bind_Raise_inv in H as [H|(part_id & _ & H)].
  { apply py_get_default_error in H as ->. discriminate. }
  apply bind_Raise_inv in H as [H|(above & _ & H)].
  { apply py_get_default_error in H as ->. discriminate. }
  apply bind_Raise_inv in H as [H|(below & _ & H)].
  { apply py_get_default_error in H as ->. discriminate. }
  apply bind_Raise_inv in H as [H|(above_i & _ & H)].
  { destruct (not_None above); [|discriminate].
    apply bind_Raise_inv in H as [H|(z & _ & H)]; [|discriminate].
    by apply py_int_error in H. }
  apply bind_Raise_inv in H as [H|(below_i & _ & H)]; [|discriminate].
  destruct (not_None below); [|discriminate]. by apply py_int_error in H.
Qed.

Lemma partes_fold (W : EnvEdificios) (ms : list value) (st : Plantas.partes) :
  (length (Plantas.above_floors st) <= length (Plantas.below_floors st))%nat ->
  match foldR (Plantas.parte W) st ms with
  | OK st' => (length (Plantas.above_floors st') <= length (Plantas.below_floors st'))%nat
  | Raise e => e <> ValueError Plantas.msg_max
  end.
Proof.
  revert st. induction ms as [|m ms IH]; intros st Hle; cbn [foldR]; [done|].
  destruct (Plantas.parte W st m) as [st1|e] eqn:Hp; cbn [mbind result_bind].
  - apply IH. eauto using parte_inv.
  - eauto using parte_error.
Qed.

(** With [above_floors] not the longer list, no [max] is taken of an empty
    list, and the total is the sum of the two maxima. *)
Lemma resumen_total (st : Plantas.partes) :
  (length (Plantas.above_floors st) <= length (Plantas.below_floors st))%nat ->
  exists sotanos,
    Plantas.resumen st
    = OK (VDict [("plantas", VNone); ("sotanos", VInt sotanos); ("total", VNone)]) \/
    exists plantas,
      Plantas.resumen st
      = OK (VDict [("plantas", VInt plantas); ("sotanos", VInt sotanos);
                   ("total", VInt (plantas + sotanos))]).
Proof.
  destruct st as [[|a above] [|b below] detail]; cbn; intros Hle; try lia; eauto.
Qed.

(** X24. [numero_plantas] of a parcel tagged Rústico is 0 and makes no
    request. For any other tag, when it returns, it has made one request, for
    the stored code, and returns a dict in which [total] is [None] exactly
    when [plantas] is, and is otherwise the sum of [plantas] and [sotanos].
    It never fails by taking the maximum of an empty list. *)
Theorem numero_plantas_total (E : Env) (W : EnvEdificios) (self : obj) :
  (self !! "tipo" = Some (VStr "Rústico") ->
   Plantas.numero_plantas E W self = (OK (VInt 0), [])) /\
  (forall tipo v log,
     self !! "tipo" = Some tipo -> is_str "Rústico" tipo = false ->
     Plantas.numero_plantas E W self = (OK v, log) ->
     exists rc sotanos,
       self !! "rc" = Some rc /\ log = [GetBuildingPartByParcel rc] /\
       (v = VDict [("plantas", VNone); ("sotanos", VInt sotanos); ("total", VNone)] \/
        exists plantas,
          v = VDict [("plantas", VInt plantas); ("sotanos", VInt sotanos);
                     ("total", VInt (plantas + sotanos))])) /\
  (forall e log,
     Plantas.numero_plantas E W self = (Raise e, log) -> e <> ValueError Plantas.msg_max).
Proof.
  assert (Hpl : forall response,
            match Plantas.plantas_de E W response with
            | OK v =>
                exists sotanos,
                  v = VDict [("plantas", VNone); ("sotanos", VInt sotanos); ("total", VNone)] \/
                  exists plantas,
                    v = VDict [("plantas", VInt plantas); ("sotanos", VInt sotanos);
                               ("total", VInt (plantas + sotanos))]
            | Raise e => e <> ValueError Plantas.msg_max
            end).
  { intros response. unfold Plantas.plantas_de, Plantas.raise_for_status, xml_parse.
    destruct (_ && _); [discriminate|]. cbn [mbind result_bind].
    destruct (xmltodict_parse E _) as [data|]; [|discriminate]. cbn [mbind result_bind].
    destruct (py_get_default _ _ data) as [fc|e] eqn:H1; cbn [mbind result_bind];
      [|apply py_get_default_error in H1 as ->; discriminate].
    destruct (py_get_default _ _ fc) as [members|e] eqn:H2; cbn [mbind result_bind];
      [|apply py_get_default_error in H2 as ->; discriminate].
    destruct (py_iter _) as [ms|e] eqn:H3; cbn [mbind result_bind].
    2:{ destruct members; cbn in H3; try discriminate; injection H3 as <-; discriminate. }
    pose proof (partes_fold W ms (Plantas.mkPartes [] [] []) (le_n _)) as Hf.
    destruct (foldR _ _ ms) as [st|e]; cbn [mbind result_bind]; [|done].
    destruct (resumen_total st Hf) as (sot & [->|(pl & ->)]); eauto. }
  unfold Plantas.numero_plantas, getattr. repeat split.
  - by intros ->.
  - intros tipo v log -> Ht. rewrite Ht.
    destruct (self !! "rc") as [rc|]; [|discriminate]. cbv zeta.
    intros [= Hv <-]. specialize (Hpl (edificios W (GetBuildingPartByParcel rc))).
    rewrite Hv in Hpl. destruct Hpl as (sot & Hs). eauto 10.
  - intros e log. destruct (self !! "tipo") as [tipo|]; [|intros [= <- _]; discriminate].
    destruct (is_str "Rústico" tipo); [discriminate|].
    destruct (self !! "rc") as [rc|]; [|intros [= <- _]; discriminate]. cbv zeta.
    intros [= He _]. specialize (Hpl (edificios W (GetBuildingPartByParcel rc))).
    by rewrite He in Hpl.
Qed.

Lemma numero_plantas_total_witness :
  exists rc sotanos,
    EjemplosUtils.p_edificio !! "rc" = Some rc /\
    [GetBuildingPartByParcel (VStr "A")] = [GetBuildingPartByParcel rc] /\
    (VDict [("plantas", VInt 3); ("sotanos", VInt 1); ("total", VInt 4)]
     = VDict [("plantas", VNone); ("sotanos", VInt sotanos); ("total", VNone)] \/
     exists plantas,
       VDict [("plantas", VInt 3); ("sotanos", VInt 1); ("total", VInt 4)]
       = VDict [("plantas", VInt plantas); ("sotanos", VInt sotanos);
                ("total", VInt (plantas + sotanos))]).
Proof.
  refine (proj1 (proj2 (numero_plantas_total EjemplosUtils.E_edificio EjemplosUtils.W_edificio
                          EjemplosUtils.p_edificio))
            (VStr "Urbano") _ _ _ _ _); reflexivity.
Defined.

(** ** The instance without a variant *)

Lemma fill_from_record_tipo (E : Env) (info_cadastre projection : value) (self p : obj)
    (log log' : list Request) :
  fill_from_record E info_cadastre projection self log = (OK p, log') ->
  is_Some (p !! "tipo").
Proof.
  intros H. apply fill_from_record_inv in H
    as (rcd & rc & nm & np & cn & G & rs & c & g & st & xs & _ & _ & _ & HG & _ & ->).
  rewrite (ensamblar_tipo E rc _ nm np cn G rs c g st xs self HG). eauto.
Qed.

(** X25. An instance that the constructor returns without a variant tag has
    no attribute but those among [rc], [provincia], [municipio], [poligono]
    and [parcela]; on it, [distancias_aristas], [perimetro] and
    [numero_plantas] raise AttributeError, the last one without a request. *)
Theorem instancia_sin_variante (E : Env) (kwargs : list (string * value)) (p : obj)
    (log log' : list Request) :
  ParcelaCatastral.init E kwargs log = (OK p, log') ->
  p !! "tipo" = None ->
  dom p ⊆ {["rc"; "provincia"; "municipio"; "poligono"; "parcela"]} /\
  distancias_aristas E p = Raise AttributeError /\
  perimetro E p = Raise AttributeError /\
  (forall W, Plantas.numero_plantas E W p = (Raise AttributeError, [])).
Proof.
  intros H Ht.
  assert (Hdom : dom p ⊆ {["rc"; "provincia"; "municipio"; "poligono"; "parcela"]}).
  { unfold ParcelaCatastral.init in H. step H.
    destruct (negb _); [discriminate|].
    destruct (truthy (r "rc")).
    { apply create_from_rc_inv in H as [(-> & _)|(info & c & _ & _ & H)]; [set_solver|].
      apply fill_from_record_tipo in H. rewrite Ht in H. by destruct H. }
    destruct (_ && truthy (r "parcela")).
    { apply create_from_parcel_inv in H as [->|(rc & l & H)]; [set_solver|].
      apply create_from_rc_inv in H as [(-> & _)|(info & c & _ & _ & H)]; [set_solver|].
      apply fill_from_record_tipo in H. rewrite Ht in H. by destruct H. }
    destruct (_ && _); [|discriminate].
    by apply create_from_address_raises in H. }
  assert (Hg : p !! "geometria" = None).
  { apply not_elem_of_dom. set_solver. }
  split; [done|].
  unfold perimetro, distancias_aristas, Plantas.numero_plantas, getattr. rewrite Hg, Ht.
  by repeat split.
Qed.

Lemma instancia_sin_variante_witness :
  dom ({["rc" := VStr "X"]} : obj) ⊆ {["rc"; "provincia"; "municipio"; "poligono"; "parcela"]} /\
  distancias_aristas Ejemplos.E_sin_valores {["rc" := VStr "X"]} = Raise AttributeError /\
  perimetro Ejemplos.E_sin_valores {["rc" := VStr "X"]} = Raise AttributeError /\
  (forall W, Plantas.numero_plantas Ejemplos.E_sin_valores W {["rc" := VStr "X"]}
             = (Raise AttributeError, [])).
Proof.
  refine (instancia_sin_variante Ejemplos.E_sin_valores [("rc", VStr "X")] {["rc" := VStr "X"]}
            [] [Consulta_DNPRC (VStr "X")] _ _).
  - vm_compute. reflexivity.
  - reflexivity.
Defined.

(** ** Collections by address *)

(** X26. The address lookup of a collection: when the street is not found it
    raises the Exception of the missing street without a request to the
    service; when the street exists and the answer has a status other than 200
    or an empty body it raises ErrorServidorCatastro after the one request;
    and when the answer has status 200 and passes the error check with counter
    [n], a lookup that returns holds exactly [n] parcels, the [i]-th resolved
    by code from the [i]-th identifier of the answer's list. *)
Theorem metaparcela_por_direccion (E : Env)
    (provincia municipio tipo_via calle numero : value) (self : meta)
    (log : list Request) (ic : CalleInfo) :
  let req := Consulta_DNPLOC (calle_provincia ic) (calle_municipio ic)
               (calle_tipo_via ic) (calle_calle ic) numero in
  let log0 := (log ++ [ConsultaCalle provincia municipio tipo_via calle])%list in
  Calle E provincia municipio tipo_via calle = OK ic ->
  (calle_bool ic = false ->
   MetaParcela.create_from_address E provincia municipio tipo_via calle numero self log
   = (Raise (Exception_ msg_calle), log0)) /\
  (calle_bool ic = true ->
   status_code (http E req) <> 200 \/ content (http E req) = "" ->
   MetaParcela.create_from_address E provincia municipio tipo_via calle numero self log
   = (Raise (ErrorServidorCatastro msg_vacia), (log0 ++ [req])%list)) /\
  (forall info n m log',
     calle_bool ic = true ->
     status_code (http E req) = 200 ->
     pasa E (http E req) "consulta_dnplocResult" info (VInt n) ->
     MetaParcela.create_from_address E provincia municipio tipo_via calle numero self log
     = (OK m, log') ->
     exists qs,
       m = mkMeta (attrs self) (Some qs) /\
       length qs = Z.to_nat n /\
       Forall2 (fun idx q => exists rc l l',
                  MetaParcela.rc_at "consulta_dnplocResult" info idx = OK rc /\
                  ParcelaCatastral.init E [("rc", VStr rc)] l = (OK q, l'))
         (seq 0 (Z.to_nat n)) qs).
Proof.
  intros req log0 Hcalle.
  assert (Hpre : MetaParcela.create_from_address E provincia municipio tipo_via calle numero
                   self log
                 = (if calle_bool ic then
                      req' ← requests_get E req;
                      sin_errores ← lift
                        (if Z.eqb (status_code req') 200 && negb (String.eqb (content req') "")
                         then j ← response_json E req'; ok ← comprobar_errores E j;
                              OK (truthy ok)
                         else OK false);
                      if sin_errores : bool then
                        info_cadastre ← lift (loads E (content req'));
                        let self := mkMeta (attrs self) (Some []) in
                        num_parcelas ← lift (control_cudnp "consulta_dnplocResult" info_cadastre);
                        idxs ← lift (py_range num_parcelas);
                        foldM (MetaParcela.resolve_at E "consulta_dnplocResult" info_cadastre)
                          self idxs
                      else raise (ErrorServidorCatastro msg_vacia)
                    else raise (Exception_ msg_calle)) log0).
  { unfold MetaParcela.create_from_address. rewrite run_bind. unfold calle_new.
    by rewrite Hcalle. }
  rewrite Hpre. clear Hpre. repeat split.
  - by intros ->.
  - intros -> Hbad. rewrite run_get, run_lift.
    assert (Hc : Z.eqb (status_code (http E req)) 200
                 && negb (String.eqb (content (http E req)) "") = false).
    { destruct Hbad as [Hst|Hco].
      - apply Z.eqb_neq in Hst. by rewrite Hst.
      - rewrite Hco. by rewrite andb_false_r. }
    by rewrite Hc.
  - intros info n m log' -> Hst (Hc & Hj & He & Hn) H.
    rewrite run_get, run_lift in H.
    apply Z.eqb_eq in Hst. rewrite Hst, content_nonempty in H by done. cbn [andb] in H.
    unfold loads, response_json in H. rewrite Hj in H. cbn [mbind result_bind] in H.
    rewrite He in H. cbn [mbind result_bind truthy] in H.
    rewrite run_lift, run_lift, Hn, run_lift in H. cbn [py_range] in H.
    pose proof (resolve_at_fold_attrs _ _ _ _ _ _ _ _ H) as Hat.
    eapply resolve_at_fold in H as (qs & Hqs & Hall); [|reflexivity].
    exists qs. split.
    { destruct m as [am pm]. cbn in *. by subst. }
    split; [|done]. apply Forall2_length in Hall. by rewrite length_seq in Hall.
Qed.

Lemma metaparcela_por_direccion_witness :
  MetaParcela.create_from_address EjemplosAnterior.E_404 (VStr "MADRID") (VStr "MADRID")
    (VStr "CL") (VStr "MAYOR") (VStr "1") (mkMeta ∅ None) []
  = (Raise (ErrorServidorCatastro msg_vacia),
     (([] ++ [ConsultaCalle (VStr "MADRID") (VStr "MADRID") (VStr "CL") (VStr "MAYOR")])
        ++ [Consulta_DNPLOC (VStr "MADRID") (VStr "MADRID") (VStr "CL") (VStr "MAYOR")
              (VStr "1")])%list).
Proof.
  refine (proj1 (proj2 (metaparcela_por_direccion EjemplosAnterior.E_404
                          (VStr "MADRID") (VStr "MADRID") (VStr "CL") (VStr "MAYOR")
                          (VStr "1") (mkMeta ∅ None) []
                          (mkCalle true (VStr "MADRID") (VStr "MADRID") (VStr "CL")
                             (VStr "MAYOR")) _)) _ _).
  - reflexivity.
  - reflexivity.
  - left. discriminate.
Defined.

(** ** The rustic values *)

Lemma dict_set_Forall (P : string * value -> Prop) (k : string) (v : value)
    (d : list (string * value)) :
  P (k, v) -> Forall P d -> Forall P (Valores.dict_set k v d).
Proof.
  intros Hkv. induction 1 as [|[k' v'] d Hx Hd IH]; cbn.
  - by constructor.
  - destruct (String.eqb k k'); constructor; auto.
Qed.

Lemma modulos_fold (V : EnvValores) (props : value) (items : list (string * string))
    (modulos modulos' : list (string * value)) :
  items ⊆ CULTIVOS V ->
  modulos_validos V modulos ->
  foldR (Valores.modulo props) modulos items = OK modulos' ->
  modulos_validos V modulos'.
Proof.
  revert modulos. induction items as [|[cod desc] items IH]; intros modulos Hsub Hm H;
    cbn [foldR] in H.
  - by injection H as <-.
  - apply bind_OK_inv in H as (m1 & H1 & H).
    apply (IH m1); [set_solver| |done].
    unfold Valores.modulo in H1. apply bind_OK_inv in H1 as (val & _ & H1). cbn in H1.
    destruct (Valores.positivo val) eqn:Hpos; injection H1 as <-; [|done].
    apply dict_set_Forall; [|done]. split; [done|]. cbn.
    apply list_elem_of_fmap. exists (cod, desc). split; [done|]. set_solver.
Qed.

Lemma modulos_de_inv (V : EnvValores) (data v : value) :
  Valores.modulos_de V data = OK v ->
  v = VNone \/
  exists region nombre modulos,
    v = VDict [("region", region); ("nombre_region", nombre);
               ("modulos_€/ha", VDict modulos)] /\
    modulos_validos V modulos.
Proof.
  unfold Valores.modulos_de. intros H.
  apply bind_OK_inv in H as (features & _ & H).
  destruct (negb (truthy features)); [injection H as <-; by left|].
  repeat (apply bind_OK_inv in H as (? & ? & H)).
  injection H as <-. right. do 3 eexists. split; [done|].
  eapply modulos_fold; [| |eassumption]; [done | constructor].
Qed.

(** X27. [valor_catastral_rustico_m2] of a parcel tagged Urbano is the empty
    dict, without a request. For any other tag, an empty ring fails with the
    ValueError of [min] before any request; and when the method returns, it
    has made one request, with the same layer in [LAYERS] and [QUERY_LAYERS],
    and returns either [None] or a dict with the region, its name and the
    modules, in which every module is a positive number under the description
    of a crop of [CULTIVOS]. *)
Theorem valor_catastral_rustico (E : Env) (W : EnvEdificios) (V : EnvValores)
    (self : obj) (anio : value) :
  (self !! "tipo" = Some (VStr "Urbano") ->
   Valores.valor_catastral_rustico_m2 E W V self anio = (OK (VDict []), [])) /\
  (forall tipo,
     self !! "tipo" = Some tipo -> is_str "Urbano" tipo = false ->
     self !! "geometria" = Some (VList []) ->
     Valores.valor_catastral_rustico_m2 E W V self anio
     = (Raise (ValueError Valores.msg_min), [])) /\
  (forall tipo v log,
     self !! "tipo" = Some tipo -> is_str "Urbano" tipo = false ->
     Valores.valor_catastral_rustico_m2 E W V self anio = (OK v, log) ->
     (exists capas bbox, log = [GetFeatureInfo capas capas bbox]) /\
     (v = VNone \/
      exists region nombre modulos,
        v = VDict [("region", region); ("nombre_region", nombre);
                   ("modulos_€/ha", VDict modulos)] /\
        modulos_validos V modulos)).
Proof.
  unfold Valores.valor_catastral_rustico_m2, getattr. split; [|split].
  - by intros ->.
  - intros tipo -> Ht ->. cbn [mbind result_bind]. by rewrite Ht.
  - intros tipo v log -> Ht. cbn [mbind result_bind]. rewrite Ht.
    destruct (self !! "geometria") as [g|]; [|discriminate]. cbn [mbind result_bind].
    destruct (py_iter g) as [ps|]; [|discriminate]. cbn [mbind result_bind].
    destruct (foldR _ _ ps) as [xys|]; [|discriminate]. cbn [mbind result_bind].
    destruct (Valores.py_min xys.1); [|discriminate]. cbn [mbind result_bind].
    destruct (Valores.py_min xys.2); [|discriminate]. cbn [mbind result_bind].
    destruct (Valores.py_max xys.1); [|discriminate]. cbn [mbind result_bind].
    destruct (Valores.py_max xys.2); [|discriminate]. cbn [mbind result_bind].
    destruct (Valores.capa E W anio); [|discriminate]. cbn [mbind result_bind].
    intros [= H <-]. split; [eauto|].
    apply bind_OK_inv in H as (? & _ & H). apply bind_OK_inv in H as (data & _ & H).
    by apply modulos_de_inv in H.
Qed.

Lemma valor_catastral_rustico_witness :
  (exists capas bbox,
     [GetFeatureInfo "IAMIR:athiamir" "IAMIR:athiamir" ",,,"]
     = [GetFeatureInfo capas capas bbox]) /\
  (EjemplosValores.modulos_campina = VNone \/
   exists region nombre modulos,
     EjemplosValores.modulos_campina
     = VDict [("region", region); ("nombre_region", nombre);
              ("modulos_€/ha", VDict modulos)] /\
     modulos_validos EjemplosValores.V_valores modulos).
Proof.
  refine (proj2 (proj2 (valor_catastral_rustico EjemplosValores.E_valores
                          EjemplosValores.W_valores EjemplosValores.V_valores
                          EjemplosValores.p_valores (VStr "2024")))
            (VStr "Rústico") _ _ _ _ _).
  - reflexivity.
  - reflexivity.
  - vm_compute. reflexivity.
Defined.
